(** * Direct3D11 texture memory: allocator, mapping protocol and pool set-up

    A shallow embedding of [gst-libs/gst/d3d11/gstd3d11memory.c] (mapping,
    allocator, derived views) and of the pool of
    [gst-libs/gst/d3d11/gstd3d11bufferpool.c] (params set-up, staging
    buffer, buffer allocation, flushing), with the properties of the memory
    core stated over it.

    Conventions of the embedding:
    - a C pointer is an [option]: [None] is [NULL];
    - [guint]/[UINT] and [gint] are [Z] with the wrap-around written out
      ([wrap_guint], [wrap_gint]);
    - flag words are [Z] handled with [Z.land]/[Z.lor]/[Z.lnot];
    - the Direct3D11 driver is a [GstD3D11Device] value threaded through the
      calls: it holds the results the driver is going to give and the log of
      the native calls made so far;
    - a function that can hit [g_assert]/[g_assert_not_reached] or index a
      [GArray] out of range returns an [option] whose [None] is that abort;
    - a region between [LOCK] and [UNLOCK] is one atomic step. *)

From Stdlib Require Import ZArith Bool List String Lia.
From stdpp Require Import base numbers list.
Import ListNotations.

Local Open Scope Z_scope.

(* ===================================================================== *)
(** ** Machine integers and flag words *)
(* ===================================================================== *)

Definition wrap_guint (z : Z) : Z := z mod 2 ^ 32.
Definition wrap_gint (z : Z) : Z := (z + 2 ^ 31) mod 2 ^ 32 - 2 ^ 31.

(** [GST_MINI_OBJECT_FLAG_SET], [GST_MINI_OBJECT_FLAG_UNSET] and
    [GST_MINI_OBJECT_FLAG_IS_SET] of gstminiobject.h:
    [flags |= f], [flags &= ~f], [!!(flags & f)]. *)
Definition FLAG_SET (flags f : Z) : Z := Z.lor flags f.
Definition FLAG_UNSET (flags f : Z) : Z := Z.land flags (Z.lnot f).
Definition FLAG_IS_SET (flags f : Z) : bool := negb (Z.land flags f =? 0).

(** The C idiom [(flags & f) == f]. *)
Definition has_flags (flags f : Z) : bool := Z.land flags f =? f.

(** Flag bits of the GStreamer core and of the Direct3D11 SDK (gstmemory.h,
    d3d11.h), outside this code base. *)
Definition GST_MAP_READ : Z := Z.shiftl 1 0.
Definition GST_MAP_WRITE : Z := Z.shiftl 1 1.
Definition GST_MAP_READWRITE : Z := Z.lor GST_MAP_READ GST_MAP_WRITE.
Definition D3D11_BIND_SHADER_RESOURCE : Z := 8.
Definition D3D11_BIND_RENDER_TARGET : Z := 32.
Definition D3D11_BIND_UNORDERED_ACCESS : Z := 128.
Definition D3D11_BIND_DECODER : Z := 512.
Definition D3D11_BIND_VIDEO_ENCODER : Z := 1024.
Definition D3D11_CPU_ACCESS_WRITE : Z := 65536.
Definition D3D11_CPU_ACCESS_READ : Z := 131072.
Definition GST_VIDEO_MAX_PLANES : nat := 4.

(** Modelled from the spec: gstd3d11memory.h, which defines this map flag,
    is not among the sources.  It is the "GPU-direct" access mode of the
    spec: one bit of the map flags, apart from the read and write bits
    ([GST_MAP_FLAG_LAST << 1]). *)
Definition GST_MAP_D3D11 : Z := Z.shiftl 1 17.

(** Modelled from the spec: gstd3d11memory.h is not among the sources.  This
    is the pending-transfer flag that asks for a copy from the texture into
    the staging texture before the next CPU map: one bit of the object's
    flag word ([GST_MEMORY_FLAG_LAST << 0]). *)
Definition GST_D3D11_MEMORY_TRANSFER_NEED_DOWNLOAD : Z := Z.shiftl 1 20.

(** Modelled from the spec: gstd3d11memory.h is not among the sources.  This
    is the pending-transfer flag that asks for a copy from the staging
    texture into the texture before the next GPU-direct map: another bit of
    the object's flag word ([GST_MEMORY_FLAG_LAST << 1]). *)
Definition GST_D3D11_MEMORY_TRANSFER_NEED_UPLOAD : Z := Z.shiftl 1 21.

(** Modelled from the spec: gstd3d11memory.h is not among the sources.  This
    is the "use texture array" allocation flag: one bit ([1 << 0]). *)
Definition GST_D3D11_ALLOCATION_FLAG_TEXTURE_ARRAY : Z := Z.shiftl 1 0.

(* ===================================================================== *)
(** ** Native types *)
(* ===================================================================== *)

(** The values of the enum [DXGI_FORMAT] that the code names, and
    [DXGI_FORMAT_OTHER v] for every other value of the enum, [v] being its
    number (dxgiformat.h, outside this code base), which is the number of
    none of the values named here: [DXGI_FORMAT_OTHER 88] is
    [DXGI_FORMAT_B8G8R8X8_UNORM].  A [switch] of the code sends these
    values to its [default] label. *)
Inductive DXGI_FORMAT :=
| DXGI_FORMAT_UNKNOWN
| DXGI_FORMAT_B8G8R8A8_UNORM | DXGI_FORMAT_R8G8B8A8_UNORM
| DXGI_FORMAT_R10G10B10A2_UNORM | DXGI_FORMAT_R8_UNORM
| DXGI_FORMAT_R8G8_UNORM | DXGI_FORMAT_R16_UNORM | DXGI_FORMAT_R16G16_UNORM
| DXGI_FORMAT_G8R8_G8B8_UNORM | DXGI_FORMAT_R8G8_B8G8_UNORM
| DXGI_FORMAT_R16G16B16A16_UNORM
| DXGI_FORMAT_AYUV | DXGI_FORMAT_YUY2
| DXGI_FORMAT_NV12 | DXGI_FORMAT_P010 | DXGI_FORMAT_P016
| DXGI_FORMAT_Y210 | DXGI_FORMAT_Y410
| DXGI_FORMAT_OTHER (v : Z).

#[global] Instance DXGI_FORMAT_eq_dec : EqDecision DXGI_FORMAT.
Proof. solve_decision. Defined.

(** The C test [a == b] on two formats. *)
Definition DXGI_FORMAT_eqb (a b : DXGI_FORMAT) : bool := bool_decide (a = b).

Inductive D3D11_USAGE := D3D11_USAGE_DEFAULT | D3D11_USAGE_STAGING.

Inductive D3D11_MAP := D3D11_MAP_READ | D3D11_MAP_WRITE | D3D11_MAP_READ_WRITE.

Record D3D11_TEXTURE2D_DESC := {
  Width : Z;
  Height : Z;
  MipLevels : Z;
  ArraySize : Z;
  Format : DXGI_FORMAT;
  SampleDesc_Count : Z;
  SampleDesc_Quality : Z;
  Usage : D3D11_USAGE;
  BindFlags : Z;
  CPUAccessFlags : Z;
  MiscFlags : Z
}.

(** [D3D11_TEXTURE2D_DESC desc = { 0, }]. *)
Definition zero_desc : D3D11_TEXTURE2D_DESC :=
  {| Width := 0; Height := 0; MipLevels := 0; ArraySize := 0;
     Format := DXGI_FORMAT_UNKNOWN; SampleDesc_Count := 0;
     SampleDesc_Quality := 0; Usage := D3D11_USAGE_DEFAULT; BindFlags := 0;
     CPUAccessFlags := 0; MiscFlags := 0 |}.

Record D3D11_MAPPED_SUBRESOURCE := {
  pData : option Z;
  RowPitch : Z;
  DepthPitch : Z
}.

Definition zero_mapped : D3D11_MAPPED_SUBRESOURCE :=
  {| pData := None; RowPitch := 0; DepthPitch := 0 |}.

(** A COM interface pointer (texture or view): the identity of the object. *)
Definition Handle := Z.
Definition HRESULT := Z.
Definition S_OK : HRESULT := 0.
Definition E_FAIL : HRESULT := -2147467259.

(* ===================================================================== *)
(** ** The device collaborator *)
(* ===================================================================== *)

(** The native calls the memory core makes, as they appear in the log. *)
Inductive DeviceCall :=
| CreateTexture2D (d : D3D11_TEXTURE2D_DESC) (hr : HRESULT)
| CopySubresourceRegion (dst : option Handle) (dst_sub : Z)
                        (src : option Handle) (src_sub : Z)
| Map (res : option Handle) (sub : Z) (map_type : D3D11_MAP) (hr : HRESULT)
| Unmap (res : option Handle) (sub : Z)
| AddRef (h : Handle)
| Release (h : Handle).

(** The driver: [hresults] are the results of the coming fallible calls, in
    order ([S_OK] once the list is used up), [next_handle] names the next
    object created, [mapping] is where the driver maps a resource, and
    [calls] is the log, oldest call first. *)
Record GstD3D11Device := {
  hresults : list HRESULT;
  next_handle : Z;
  mapping : option Handle -> D3D11_MAPPED_SUBRESOURCE;
  calls : list DeviceCall
}.

(** [gst_d3d11_result]: the [SUCCEEDED] test on an [HRESULT]. *)
Definition gst_d3d11_result (hr : HRESULT) : bool := 0 <=? hr.

Definition next_hresult (dev : GstD3D11Device) : HRESULT :=
  match hresults dev with [] => S_OK | hr :: _ => hr end.

Definition log_call (dev : GstD3D11Device) (c : DeviceCall) : GstD3D11Device :=
  {| hresults := hresults dev; next_handle := next_handle dev;
     mapping := mapping dev; calls := calls dev ++ [c] |}.

(** A fallible call takes its result from the head of [hresults]. *)
Definition consume_hresult (dev : GstD3D11Device) : GstD3D11Device :=
  {| hresults := tl (hresults dev); next_handle := next_handle dev;
     mapping := mapping dev; calls := calls dev |}.

Definition ID3D11Device_CreateTexture2D (dev : GstD3D11Device)
    (d : D3D11_TEXTURE2D_DESC) (out : option Handle)
  : HRESULT * option Handle * GstD3D11Device :=
  let hr := next_hresult dev in
  let dev1 := log_call (consume_hresult dev) (CreateTexture2D d hr) in
  if gst_d3d11_result hr then
    (hr, Some (next_handle dev),
     {| hresults := hresults dev1; next_handle := next_handle dev + 1;
        mapping := mapping dev1; calls := calls dev1 |})
  else (hr, out, dev1).

Definition ID3D11DeviceContext_CopySubresourceRegion (dev : GstD3D11Device)
    (dst : option Handle) (dst_sub : Z) (src : option Handle) (src_sub : Z)
  : GstD3D11Device :=
  log_call dev (CopySubresourceRegion dst dst_sub src src_sub).

Definition ID3D11DeviceContext_Map (dev : GstD3D11Device)
    (res : option Handle) (sub : Z) (map_type : D3D11_MAP)
    (out : D3D11_MAPPED_SUBRESOURCE)
  : HRESULT * D3D11_MAPPED_SUBRESOURCE * GstD3D11Device :=
  let hr := next_hresult dev in
  let dev1 := log_call (consume_hresult dev) (Map res sub map_type hr) in
  if gst_d3d11_result hr then (hr, mapping dev res, dev1) else (hr, out, dev1).

Definition ID3D11DeviceContext_Unmap (dev : GstD3D11Device)
    (res : option Handle) (sub : Z) : GstD3D11Device :=
  log_call dev (Unmap res sub).

Definition COM_AddRef (dev : GstD3D11Device) (h : Handle) : GstD3D11Device :=
  log_call dev (AddRef h).

Definition COM_Release (dev : GstD3D11Device) (h : Handle) : GstD3D11Device :=
  log_call dev (Release h).

(** The C test [if (p)] on a pointer. *)
Definition non_null {A : Type} (p : option A) : bool :=
  match p with Some _ => true | None => false end.

(** [if (p) Release (p);] *)
Definition release_if (dev : GstD3D11Device) (p : option Handle)
  : GstD3D11Device :=
  match p with Some h => COM_Release dev h | None => dev end.

(* ===================================================================== *)
(** ** GstD3D11Memory *)
(* ===================================================================== *)

Inductive GstD3D11MemoryType :=
| GST_D3D11_MEMORY_TYPE_TEXTURE
| GST_D3D11_MEMORY_TYPE_ARRAY
| GST_D3D11_MEMORY_TYPE_STAGING.

Definition is_staging (t : GstD3D11MemoryType) : bool :=
  match t with GST_D3D11_MEMORY_TYPE_STAGING => true | _ => false end.

(** [GstD3D11Memory] with its [GstD3D11MemoryPrivate] laid flat:
    [mini_object_flags] is the flag word of the [GstMemory] header and
    [maxsize] its size; the rest are the fields of the private struct. *)
Record GstD3D11Memory := {
  mini_object_flags : Z;
  maxsize : Z;
  type : GstD3D11MemoryType;
  texture : option Handle;
  desc : D3D11_TEXTURE2D_DESC;
  subresource_index : Z;
  staging : option Handle;
  shader_resource_view : list (option Handle);
  num_shader_resource_views : Z;
  render_target_view : list (option Handle);
  num_render_target_views : Z;
  decoder_output_view : option Handle;
  processor_input_view : option Handle;
  processor_output_view : option Handle;
  map : D3D11_MAPPED_SUBRESOURCE;
  cpu_map_count : Z
}.

Definition set_flags (m : GstD3D11Memory) (f : Z) : GstD3D11Memory :=
  {| mini_object_flags := f; maxsize := maxsize m; type := type m;
     texture := texture m; desc := desc m;
     subresource_index := subresource_index m; staging := staging m;
     shader_resource_view := shader_resource_view m;
     num_shader_resource_views := num_shader_resource_views m;
     render_target_view := render_target_view m;
     num_render_target_views := num_render_target_views m;
     decoder_output_view := decoder_output_view m;
     processor_input_view := processor_input_view m;
     processor_output_view := processor_output_view m;
     map := map m; cpu_map_count := cpu_map_count m |}.

Definition set_staging (m : GstD3D11Memory) (s : option Handle)
  : GstD3D11Memory :=
  {| mini_object_flags := mini_object_flags m; maxsize := maxsize m;
     type := type m; texture := texture m; desc := desc m;
     subresource_index := subresource_index m; staging := s;
     shader_resource_view := shader_resource_view m;
     num_shader_resource_views := num_shader_resource_views m;
     render_target_view := render_target_view m;
     num_render_target_views := num_render_target_views m;
     decoder_output_view := decoder_output_view m;
     processor_input_view := processor_input_view m;
     processor_output_view := processor_output_view m;
     map := map m; cpu_map_count := cpu_map_count m |}.

Definition set_map (m : GstD3D11Memory) (x : D3D11_MAPPED_SUBRESOURCE)
  : GstD3D11Memory :=
  {| mini_object_flags := mini_object_flags m; maxsize := maxsize m;
     type := type m; texture := texture m; desc := desc m;
     subresource_index := subresource_index m; staging := staging m;
     shader_resource_view := shader_resource_view m;
     num_shader_resource_views := num_shader_resource_views m;
     render_target_view := render_target_view m;
     num_render_target_views := num_render_target_views m;
     decoder_output_view := decoder_output_view m;
     processor_input_view := processor_input_view m;
     processor_output_view := processor_output_view m;
     map := x; cpu_map_count := cpu_map_count m |}.

Definition set_cpu_map_count (m : GstD3D11Memory) (n : Z) : GstD3D11Memory :=
  {| mini_object_flags := mini_object_flags m; maxsize := maxsize m;
     type := type m; texture := texture m; desc := desc m;
     subresource_index := subresource_index m; staging := staging m;
     shader_resource_view := shader_resource_view m;
     num_shader_resource_views := num_shader_resource_views m;
     render_target_view := render_target_view m;
     num_render_target_views := num_render_target_views m;
     decoder_output_view := decoder_output_view m;
     processor_input_view := processor_input_view m;
     processor_output_view := processor_output_view m;
     map := map m; cpu_map_count := n |}.

(** [GST_MINI_OBJECT_FLAG_SET (mem, f)] and [GST_MEMORY_FLAG_UNSET (mem, f)]. *)
Definition mem_flag_set (m : GstD3D11Memory) (f : Z) : GstD3D11Memory :=
  set_flags m (FLAG_SET (mini_object_flags m) f).
Definition mem_flag_unset (m : GstD3D11Memory) (f : Z) : GstD3D11Memory :=
  set_flags m (FLAG_UNSET (mini_object_flags m) f).
Definition mem_flag_is_set (m : GstD3D11Memory) (f : Z) : bool :=
  FLAG_IS_SET (mini_object_flags m) f.

(** [gst_map_flags_to_d3d11]; [None] is [g_assert_not_reached]. *)
Definition gst_map_flags_to_d3d11 (flags : Z) : option D3D11_MAP :=
  if has_flags flags GST_MAP_READWRITE then Some D3D11_MAP_READ_WRITE
  else if has_flags flags GST_MAP_WRITE then Some D3D11_MAP_WRITE
  else if has_flags flags GST_MAP_READ then Some D3D11_MAP_READ
  else None.

(** [create_staging_texture]. *)
Definition create_staging_texture (dev : GstD3D11Device)
    (ref : D3D11_TEXTURE2D_DESC) : option Handle * GstD3D11Device :=
  let d :=
    {| Width := Width ref; Height := Height ref; MipLevels := 1;
       ArraySize := 1; Format := Format ref; SampleDesc_Count := 1;
       SampleDesc_Quality := 0; Usage := D3D11_USAGE_STAGING; BindFlags := 0;
       CPUAccessFlags := Z.lor D3D11_CPU_ACCESS_READ D3D11_CPU_ACCESS_WRITE;
       MiscFlags := 0 |} in
  let '(hr, tex, dev1) := ID3D11Device_CreateTexture2D dev d None in
  if negb (gst_d3d11_result hr) then (None, dev1) else (tex, dev1).

(** [map_cpu_access_data]. *)
Definition map_cpu_access_data (dev : GstD3D11Device) (dmem : GstD3D11Memory)
    (map_type : D3D11_MAP) : bool * GstD3D11Device * GstD3D11Memory :=
  let dev1 :=
    if mem_flag_is_set dmem GST_D3D11_MEMORY_TRANSFER_NEED_DOWNLOAD then
      ID3D11DeviceContext_CopySubresourceRegion dev
        (staging dmem) 0 (texture dmem) (subresource_index dmem)
    else dev in
  let '(hr, mp, dev2) :=
    ID3D11DeviceContext_Map dev1 (staging dmem) 0 map_type (map dmem) in
  let dmem1 := set_map dmem mp in
  if negb (gst_d3d11_result hr) then (false, dev2, dmem1)
  else (true, dev2, dmem1).

(** [gst_d3d11_memory_map_staging]. *)
Definition gst_d3d11_memory_map_staging (dev : GstD3D11Device)
    (dmem : GstD3D11Memory) (flags : Z)
  : option (option Z * GstD3D11Device * GstD3D11Memory) :=
  let finish dev1 dmem1 :=
    let dmem2 :=
      set_cpu_map_count dmem1 (wrap_gint (cpu_map_count dmem1 + 1)) in
    Some (pData (map dmem2), dev1, dmem2) in
  if cpu_map_count dmem =? 0 then
    match gst_map_flags_to_d3d11 flags with
    | None => None
    | Some map_type =>
        let '(hr, mp, dev1) :=
          ID3D11DeviceContext_Map dev (texture dmem) 0 map_type (map dmem) in
        let dmem1 := set_map dmem mp in
        if negb (gst_d3d11_result hr) then Some (None, dev1, dmem1)
        else finish dev1 dmem1
    end
  else finish dev dmem.

(** [gst_d3d11_memory_map].  The result is the returned [gpointer] with the
    device and the object as the call leaves them; [None] is an abort on
    [g_assert (priv->texture != NULL)] or in [gst_map_flags_to_d3d11]. *)
Definition gst_d3d11_memory_map (dev : GstD3D11Device) (dmem : GstD3D11Memory)
    (flags : Z) : option (option Z * GstD3D11Device * GstD3D11Memory) :=
  if is_staging (type dmem) then
    if has_flags flags GST_MAP_D3D11 then Some (texture dmem, dev, dmem)
    else gst_d3d11_memory_map_staging dev dmem flags
  else if has_flags flags GST_MAP_D3D11 then
    let dev1 :=
      if non_null (staging dmem)
         && mem_flag_is_set dmem GST_D3D11_MEMORY_TRANSFER_NEED_UPLOAD
      then ID3D11DeviceContext_CopySubresourceRegion dev
             (texture dmem) (subresource_index dmem) (staging dmem) 0
      else dev in
    let dmem1 := mem_flag_unset dmem GST_D3D11_MEMORY_TRANSFER_NEED_UPLOAD in
    let dmem2 :=
      if has_flags flags GST_MAP_WRITE
      then mem_flag_set dmem1 GST_D3D11_MEMORY_TRANSFER_NEED_DOWNLOAD
      else dmem1 in
    match texture dmem2 with
    | None => None
    | Some t => Some (Some t, dev1, dmem2)
    end
  else
    let finish dev1 dmem1 :=
      let dmem2 :=
        if has_flags flags GST_MAP_WRITE
        then mem_flag_set dmem1 GST_D3D11_MEMORY_TRANSFER_NEED_UPLOAD
        else dmem1 in
      let dmem3 :=
        mem_flag_unset dmem2 GST_D3D11_MEMORY_TRANSFER_NEED_DOWNLOAD in
      let dmem4 :=
        set_cpu_map_count dmem3 (wrap_gint (cpu_map_count dmem3 + 1)) in
      Some (pData (map dmem4), dev1, dmem4) in
    if cpu_map_count dmem =? 0 then
      let with_staging dev1 dmem1 :=
        match gst_map_flags_to_d3d11 flags with
        | None => None
        | Some map_type =>
            let '(ok, dev2, dmem2) := map_cpu_access_data dev1 dmem1 map_type in
            if negb ok then Some (None, dev2, dmem2) else finish dev2 dmem2
        end in
      match staging dmem with
      | None =>
          let '(st, dev1) := create_staging_texture dev (desc dmem) in
          let dmem1 := set_staging dmem st in
          match st with
          | None => Some (None, dev1, dmem1)
          | Some _ =>
              with_staging dev1
                (mem_flag_set dmem1 GST_D3D11_MEMORY_TRANSFER_NEED_DOWNLOAD)
          end
      | Some _ => with_staging dev dmem
      end
    else finish dev dmem.

(** [unmap_cpu_access_data]. *)
Definition unmap_cpu_access_data (dev : GstD3D11Device) (dmem : GstD3D11Memory)
  : GstD3D11Device :=
  let res :=
    if is_staging (type dmem) then texture dmem else staging dmem in
  ID3D11DeviceContext_Unmap dev res 0.

(** [gst_d3d11_memory_unmap_full]; [info_flags] is [info->flags]. *)
Definition gst_d3d11_memory_unmap_full (dev : GstD3D11Device)
    (dmem : GstD3D11Memory) (info_flags : Z)
  : GstD3D11Device * GstD3D11Memory :=
  if has_flags info_flags GST_MAP_D3D11 then
    if negb (is_staging (type dmem)) && has_flags info_flags GST_MAP_WRITE
    then (dev, mem_flag_set dmem GST_D3D11_MEMORY_TRANSFER_NEED_DOWNLOAD)
    else (dev, dmem)
  else
    let dmem1 :=
      if negb (is_staging (type dmem))
         && negb (Z.land info_flags GST_MAP_WRITE =? 0)
      then mem_flag_set dmem GST_D3D11_MEMORY_TRANSFER_NEED_UPLOAD
      else dmem in
    let dmem2 :=
      set_cpu_map_count dmem1 (wrap_gint (cpu_map_count dmem1 - 1)) in
    if 0 <? cpu_map_count dmem2 then (dev, dmem2)
    else (unmap_cpu_access_data dev dmem2, dmem2).

(** [gst_d3d11_memory_share]: the body is [return NULL]. *)
Definition gst_d3d11_memory_share (mem : GstD3D11Memory) (offset size : Z)
  : option GstD3D11Memory * GstD3D11Memory :=
  (None, mem).

(* ===================================================================== *)
(** ** GstD3D11Allocator *)
(* ===================================================================== *)

(** A [GCond] as the set of threads parked on it, with a count of the
    broadcasts it has received.  [g_cond_wait] parks the caller (and gives
    up the mutex in the same step); [g_cond_broadcast] wakes every parked
    thread. *)
Record GCond := {
  waiters : list nat;
  broadcasts : nat
}.

Definition g_cond_init : GCond := {| waiters := []; broadcasts := 0 |}.

Definition g_cond_wait (c : GCond) (tid : nat) : GCond :=
  {| waiters := tid :: waiters c; broadcasts := broadcasts c |}.

Definition g_cond_broadcast (c : GCond) : GCond :=
  {| waiters := []; broadcasts := S (broadcasts c) |}.

(** A wake-up of one parked thread that no broadcast caused. *)
Definition g_cond_spurious (c : GCond) (tid : nat) : GCond :=
  {| waiters := filter (fun t => t <> tid) (waiters c);
     broadcasts := broadcasts c |}.

(** [struct _GstD3D11AllocatorPrivate]; [parent_texture] is its [texture]
    field, the parent texture of array typed memory. *)
Record GstD3D11AllocatorPrivate := {
  parent_texture : option Handle;
  array_in_use : option (list Z);
  decoder_output_view_array : option (list (option Handle));
  processor_input_view_array : option (list (option Handle));
  num_array_textures_in_use : Z;
  array_texture_size : Z;
  cond : GCond;
  flushing : bool
}.

Definition set_parent_texture (p : GstD3D11AllocatorPrivate)
    (t : option Handle) : GstD3D11AllocatorPrivate :=
  {| parent_texture := t; array_in_use := array_in_use p;
     decoder_output_view_array := decoder_output_view_array p;
     processor_input_view_array := processor_input_view_array p;
     num_array_textures_in_use := num_array_textures_in_use p;
     array_texture_size := array_texture_size p; cond := cond p;
     flushing := flushing p |}.

Definition set_in_use (p : GstD3D11AllocatorPrivate) (arr : list Z) (n : Z)
  : GstD3D11AllocatorPrivate :=
  {| parent_texture := parent_texture p; array_in_use := Some arr;
     decoder_output_view_array := decoder_output_view_array p;
     processor_input_view_array := processor_input_view_array p;
     num_array_textures_in_use := n;
     array_texture_size := array_texture_size p; cond := cond p;
     flushing := flushing p |}.

Definition set_cond (p : GstD3D11AllocatorPrivate) (c : GCond)
  : GstD3D11AllocatorPrivate :=
  {| parent_texture := parent_texture p; array_in_use := array_in_use p;
     decoder_output_view_array := decoder_output_view_array p;
     processor_input_view_array := processor_input_view_array p;
     num_array_textures_in_use := num_array_textures_in_use p;
     array_texture_size := array_texture_size p; cond := c;
     flushing := flushing p |}.

(** The allocator object: the [GstAllocator] slots that
    [gst_d3d11_allocator_init] fills, and the private part. *)
Record GstD3D11Allocator := {
  mem_type : string;
  mem_map :
    GstD3D11Device -> GstD3D11Memory -> Z ->
    option (option Z * GstD3D11Device * GstD3D11Memory);
  mem_unmap_full :
    GstD3D11Device -> GstD3D11Memory -> Z -> GstD3D11Device * GstD3D11Memory;
  mem_share :
    GstD3D11Memory -> Z -> Z -> option GstD3D11Memory * GstD3D11Memory;
  priv : GstD3D11AllocatorPrivate
}.

Definition GST_D3D11_MEMORY_NAME : string := "D3D11Memory".

(** [gst_d3d11_allocator_init]; the instance-private struct starts zeroed. *)
Definition gst_d3d11_allocator_init : GstD3D11Allocator :=
  {| mem_type := GST_D3D11_MEMORY_NAME;
     mem_map := gst_d3d11_memory_map;
     mem_unmap_full := gst_d3d11_memory_unmap_full;
     mem_share := gst_d3d11_memory_share;
     priv :=
       {| parent_texture := None; array_in_use := None;
          decoder_output_view_array := None;
          processor_input_view_array := None;
          num_array_textures_in_use := 0; array_texture_size := 1;
          cond := g_cond_init; flushing := false |} |}.

(** [check_bind_flags_for_processor_input_view]. *)
Definition check_bind_flags_for_processor_input_view (bind_flags : Z) : bool :=
  let compatible_flags :=
    Z.lor (Z.lor (Z.lor D3D11_BIND_DECODER D3D11_BIND_VIDEO_ENCODER)
             D3D11_BIND_RENDER_TARGET) D3D11_BIND_UNORDERED_ACCESS in
  if bind_flags =? 0 then true
  else if negb (Z.land bind_flags compatible_flags =? 0) then true
  else false.

(** The slot scan of [gst_d3d11_allocator_alloc]:
    [for (i = 0; i < desc->ArraySize; i++) if (!in_use[i]) break;]
    started at index [i] with [n] iterations left. *)
Inductive Scan :=
| ScanFound (i : nat)
| ScanFull
| ScanOutOfRange.

Fixpoint scan_from (arr : list Z) (i n : nat) : Scan :=
  match n with
  | O => ScanFull
  | S n' =>
      match arr !! i with
      | None => ScanOutOfRange
      | Some v => if v =? 0 then ScanFound i else scan_from arr (S i) n'
      end
  end.

(** The first-use set-up under [if (!priv->array_in_use)]. *)
Definition init_array_state (p : GstD3D11AllocatorPrivate)
    (d : D3D11_TEXTURE2D_DESC) : GstD3D11AllocatorPrivate :=
  let n := Z.to_nat (ArraySize d) in
  {| parent_texture := parent_texture p;
     array_in_use := Some (replicate n 0);
     decoder_output_view_array :=
       if has_flags (BindFlags d) D3D11_BIND_DECODER
          && negb (non_null (decoder_output_view_array p))
       then Some (replicate n None) else decoder_output_view_array p;
     processor_input_view_array :=
       if check_bind_flags_for_processor_input_view (BindFlags d)
       then Some (replicate n None) else processor_input_view_array p;
     num_array_textures_in_use := num_array_textures_in_use p;
     array_texture_size := ArraySize d; cond := cond p;
     flushing := flushing p |}.

(** The bitmap the scan reads: the existing one, or the fresh zeroed one. *)
Definition bitmap_at_scan (p : GstD3D11AllocatorPrivate)
    (d : D3D11_TEXTURE2D_DESC) : list Z :=
  match array_in_use p with
  | Some arr => arr
  | None => replicate (Z.to_nat (ArraySize d)) 0
  end.

(** What one pass through the locked region at [do_again] ends in. *)
Inductive Locked :=
| LockedFlushing
| LockedWait
| LockedTaken (i : nat)
| LockedFault.

(** The region of [gst_d3d11_allocator_alloc] from
    [GST_D3D11_ALLOCATOR_LOCK] at [do_again] to the matching unlock or to
    [g_cond_wait], run by thread [tid]. *)
Definition alloc_locked (p : GstD3D11AllocatorPrivate) (tid : nat)
    (d : D3D11_TEXTURE2D_DESC) : Locked * GstD3D11AllocatorPrivate :=
  if flushing p then (LockedFlushing, p)
  else
    let p1 :=
      match array_in_use p with
      | None => init_array_state p d
      | Some _ => p
      end in
    let arr := bitmap_at_scan p d in
    match scan_from arr 0 (Z.to_nat (ArraySize d)) with
    | ScanOutOfRange => (LockedFault, p1)
    | ScanFull => (LockedWait, set_cond p1 (g_cond_wait (cond p1) tid))
    | ScanFound i =>
        (LockedTaken i,
         set_in_use p1 (<[i:=1]> arr)
           (wrap_guint (num_array_textures_in_use p1 + 1)))
    end.

(** [g_new0] of the object and its private part, then the assignments at
    the end of [gst_d3d11_allocator_alloc]. *)
Definition new_memory (size : Z) (tex : option Handle)
    (d : D3D11_TEXTURE2D_DESC) (ty : GstD3D11MemoryType) (index : Z)
  : GstD3D11Memory :=
  {| mini_object_flags := 0; maxsize := size; type := ty; texture := tex;
     desc := d; subresource_index := index; staging := None;
     shader_resource_view := replicate GST_VIDEO_MAX_PLANES None;
     num_shader_resource_views := 0;
     render_target_view := replicate GST_VIDEO_MAX_PLANES None;
     num_render_target_views := 0;
     decoder_output_view := None; processor_input_view := None;
     processor_output_view := None; map := zero_mapped;
     cpu_map_count := 0 |}.

(** How a call of [gst_d3d11_allocator_alloc] leaves its thread: returned
    [NULL], parked in [g_cond_wait] (it goes back to [do_again] once woken),
    returned a memory object, or read the bitmap out of range. *)
Inductive AllocResult :=
| AllocNULL
| AllocWait
| AllocMem (mem : GstD3D11Memory)
| AllocFault.

(** [gst_d3d11_allocator_alloc], one run from [do_again] by thread [tid]. *)
Definition gst_d3d11_allocator_alloc (p : GstD3D11AllocatorPrivate)
    (dev : GstD3D11Device) (tid : nat) (d : D3D11_TEXTURE2D_DESC)
    (flags size : Z)
  : AllocResult * GstD3D11AllocatorPrivate * GstD3D11Device :=
  if negb (0 <? size) then (AllocNULL, p, dev)
  else if negb (Z.land flags GST_D3D11_ALLOCATION_FLAG_TEXTURE_ARRAY =? 0) then
    match alloc_locked p tid d with
    | (LockedFlushing, p1) => (AllocNULL, p1, dev)
    | (LockedFault, p1) => (AllocFault, p1, dev)
    | (LockedWait, p1) => (AllocWait, p1, dev)
    | (LockedTaken index_to_use, p1) =>
        let finish p2 dev2 t :=
          let dev3 := COM_AddRef dev2 t in
          (AllocMem (new_memory size (Some t) d GST_D3D11_MEMORY_TYPE_ARRAY
                       (Z.of_nat index_to_use)), p2, dev3) in
        match parent_texture p1 with
        | Some t => finish p1 dev t
        | None =>
            let '(hr, tex, dev1) := ID3D11Device_CreateTexture2D dev d None in
            let p2 := set_parent_texture p1 tex in
            if negb (gst_d3d11_result hr) then
              (* error: the local [texture] is still NULL *)
              (AllocNULL, p2, dev1)
            else
              match tex with
              | Some t => finish p2 dev1 t
              | None => (AllocFault, p2, dev1) (* a success leaves it set *)
              end
        end
    end
  else
    let '(hr, tex, dev1) := ID3D11Device_CreateTexture2D dev d None in
    if negb (gst_d3d11_result hr) then
      (* error: [if (texture) Release (texture)] *)
      (AllocNULL, p, release_if dev1 tex)
    else
      (AllocMem (new_memory size tex d GST_D3D11_MEMORY_TYPE_TEXTURE 0),
       p, dev1).

(** [gst_d3d11_allocator_free]; [None] when [subresource_index] lies
    outside the bitmap that is written. *)
Definition gst_d3d11_allocator_free (p : GstD3D11AllocatorPrivate)
    (dev : GstD3D11Device) (dmem : GstD3D11Memory)
  : option (GstD3D11AllocatorPrivate * GstD3D11Device) :=
  let p1 :=
    match array_in_use p with
    | Some arr =>
        let idx := Z.to_nat (subresource_index dmem) in
        if bool_decide (idx < length arr)%nat then
          Some (set_cond
                  (set_in_use p (<[idx:=0]> arr)
                     (wrap_guint (num_array_textures_in_use p - 1)))
                  (g_cond_broadcast (cond p)))
        else None
    | None => Some p
    end in
  match p1 with
  | None => None
  | Some p2 =>
      let dev1 :=
        fold_left (fun dv rs => release_if (release_if dv (fst rs)) (snd rs))
          (zip (render_target_view dmem) (shader_resource_view dmem)) dev in
      let dev2 := release_if dev1 (decoder_output_view dmem) in
      let dev3 := release_if dev2 (processor_input_view dmem) in
      let dev4 := release_if dev3 (processor_output_view dmem) in
      let dev5 := release_if dev4 (texture dmem) in
      let dev6 := release_if dev5 (staging dmem) in
      Some (p2, dev6)
  end.

Section FormatSize.

(** [gst_d3d11_dxgi_format_get_size] of the format table, which is outside
    the sources: from a format, a width, a height and a row pitch it gives
    the strides per plane and the total size, or fails. *)
Variable gst_d3d11_dxgi_format_get_size :
  DXGI_FORMAT -> Z -> Z -> Z -> option (list Z * Z).

(** [calculate_mem_size]: the strides and the size on success. *)
Definition calculate_mem_size (dev : GstD3D11Device) (tex : option Handle)
    (d : D3D11_TEXTURE2D_DESC) (map_type : D3D11_MAP)
  : option (list Z * Z) * GstD3D11Device :=
  let '(hr, mp, dev1) :=
    ID3D11DeviceContext_Map dev tex 0 map_type zero_mapped in
  if negb (gst_d3d11_result hr) then (None, dev1)
  else
    let ret :=
      gst_d3d11_dxgi_format_get_size (Format d) (Width d) (Height d)
        (RowPitch mp) in
    (ret, ID3D11DeviceContext_Unmap dev1 tex 0).

(** [gst_d3d11_allocator_alloc_staging]: the object and the stride handed
    back through [stride], or [NULL]. *)
Definition gst_d3d11_allocator_alloc_staging (dev : GstD3D11Device)
    (d : D3D11_TEXTURE2D_DESC)
  : option (GstD3D11Memory * Z) * GstD3D11Device :=
  let '(tex, dev1) := create_staging_texture dev d in
  match tex with
  | None => (None, dev1)
  | Some _ =>
      match calculate_mem_size dev1 tex d D3D11_MAP_READ with
      | (None, dev2) => (None, release_if dev2 tex)
      | (Some (mem_stride, mem_size), dev2) =>
          (Some (new_memory mem_size tex d GST_D3D11_MEMORY_TYPE_STAGING 0,
                 nth 0 mem_stride 0), dev2)
      end
  end.

End FormatSize.

(** The size rule of a format with one plane, for running
    [gst_d3d11_allocator_alloc_staging]. *)
Definition one_plane_get_size (f : DXGI_FORMAT) (w h pitch : Z)
  : option (list Z * Z) :=
  Some ([pitch; 0; 0; 0], pitch * h).

(** [gst_d3d11_allocator_set_flushing]. *)
Definition gst_d3d11_allocator_set_flushing (p : GstD3D11AllocatorPrivate)
    (b : bool) : GstD3D11AllocatorPrivate :=
  let p1 :=
    {| parent_texture := parent_texture p; array_in_use := array_in_use p;
       decoder_output_view_array := decoder_output_view_array p;
       processor_input_view_array := processor_input_view_array p;
       num_array_textures_in_use := num_array_textures_in_use p;
       array_texture_size := array_texture_size p; cond := cond p;
       flushing := b |} in
  set_cond p1 (g_cond_broadcast (cond p1)).

(** *** Threads around one allocator

    The calls that threads make on one allocator, in the order in which
    they take its lock.  A thread parked on the condition variable makes no
    call until a broadcast (or a spurious wake-up) has released it; its next
    call is then the pass from [do_again]. *)
Inductive Action :=
| CallAlloc (tid : nat) (d : D3D11_TEXTURE2D_DESC) (flags size : Z)
| CallFree (dmem : GstD3D11Memory)
| CallSetFlushing (b : bool)
| SpuriousWake (tid : nat).

Definition parked (p : GstD3D11AllocatorPrivate) (tid : nat) : bool :=
  bool_decide (tid ∈ waiters (cond p)).

Definition step (a : Action) (w : GstD3D11AllocatorPrivate * GstD3D11Device)
  : option (GstD3D11AllocatorPrivate * GstD3D11Device) :=
  let '(p, dev) := w in
  match a with
  | CallAlloc tid d flags size =>
      if parked p tid then None
      else
        match gst_d3d11_allocator_alloc p dev tid d flags size with
        | (AllocFault, _, _) => None
        | (_, p1, dev1) => Some (p1, dev1)
        end
  | CallFree dmem => gst_d3d11_allocator_free p dev dmem
  | CallSetFlushing b => Some (gst_d3d11_allocator_set_flushing p b, dev)
  | SpuriousWake tid => Some (set_cond p (g_cond_spurious (cond p) tid), dev)
  end.

Fixpoint run (acts : list Action)
    (w : GstD3D11AllocatorPrivate * GstD3D11Device)
  : option (GstD3D11AllocatorPrivate * GstD3D11Device) :=
  match acts with
  | [] => Some w
  | a :: rest =>
      match step a w with
      | None => None
      | Some w1 => run rest w1
      end
  end.

(* ===================================================================== *)
(** ** Derived views *)
(* ===================================================================== *)

(** The view-creating calls of [ID3D11Device], as they appear in their own
    log.  They take their result and the new object from the driver like
    [ID3D11Device_CreateTexture2D] does. *)
Inductive ViewCall :=
| CreateShaderResourceView (res : option Handle) (f : DXGI_FORMAT)
                           (hr : HRESULT)
| CreateRenderTargetView (res : option Handle) (f : DXGI_FORMAT)
                         (hr : HRESULT).

Definition ID3D11Device_CreateView
    (mk : option Handle -> DXGI_FORMAT -> HRESULT -> ViewCall)
    (dev : GstD3D11Device) (vlog : list ViewCall) (res : option Handle)
    (f : DXGI_FORMAT) (out : option Handle)
  : HRESULT * option Handle * GstD3D11Device * list ViewCall :=
  let hr := next_hresult dev in
  let dev1 := consume_hresult dev in
  if gst_d3d11_result hr then
    (hr, Some (next_handle dev),
     {| hresults := hresults dev1; next_handle := next_handle dev + 1;
        mapping := mapping dev1; calls := calls dev1 |},
     vlog ++ [mk res f hr])
  else (hr, out, dev1, vlog ++ [mk res f hr]).

Definition set_shader_resource_views (m : GstD3D11Memory)
    (views : list (option Handle)) (n : Z) : GstD3D11Memory :=
  {| mini_object_flags := mini_object_flags m; maxsize := maxsize m;
     type := type m; texture := texture m; desc := desc m;
     subresource_index := subresource_index m; staging := staging m;
     shader_resource_view := views;
     num_shader_resource_views := n;
     render_target_view := render_target_view m;
     num_render_target_views := num_render_target_views m;
     decoder_output_view := decoder_output_view m;
     processor_input_view := processor_input_view m;
     processor_output_view := processor_output_view m;
     map := map m; cpu_map_count := cpu_map_count m |}.

Definition set_render_target_views (m : GstD3D11Memory)
    (views : list (option Handle)) (n : Z) : GstD3D11Memory :=
  {| mini_object_flags := mini_object_flags m; maxsize := maxsize m;
     type := type m; texture := texture m; desc := desc m;
     subresource_index := subresource_index m; staging := staging m;
     shader_resource_view := shader_resource_view m;
     num_shader_resource_views := num_shader_resource_views m;
     render_target_view := views;
     num_render_target_views := n;
     decoder_output_view := decoder_output_view m;
     processor_input_view := processor_input_view m;
     processor_output_view := processor_output_view m;
     map := map m; cpu_map_count := cpu_map_count m |}.

(** The [switch] of [create_shader_resource_views]: the view formats of a
    texture format; [None] is [g_assert_not_reached]. *)
Definition shader_resource_view_formats (f : DXGI_FORMAT)
  : option (list DXGI_FORMAT) :=
  match f with
  | DXGI_FORMAT_B8G8R8A8_UNORM | DXGI_FORMAT_R8G8B8A8_UNORM
  | DXGI_FORMAT_R10G10B10A2_UNORM | DXGI_FORMAT_R8_UNORM
  | DXGI_FORMAT_R8G8_UNORM | DXGI_FORMAT_R16_UNORM
  | DXGI_FORMAT_R16G16_UNORM | DXGI_FORMAT_G8R8_G8B8_UNORM
  | DXGI_FORMAT_R8G8_B8G8_UNORM | DXGI_FORMAT_R16G16B16A16_UNORM => Some [f]
  | DXGI_FORMAT_AYUV | DXGI_FORMAT_YUY2 => Some [DXGI_FORMAT_R8G8B8A8_UNORM]
  | DXGI_FORMAT_NV12 => Some [DXGI_FORMAT_R8_UNORM; DXGI_FORMAT_R8G8_UNORM]
  | DXGI_FORMAT_P010 | DXGI_FORMAT_P016 =>
      Some [DXGI_FORMAT_R16_UNORM; DXGI_FORMAT_R16G16_UNORM]
  | DXGI_FORMAT_Y210 => Some [DXGI_FORMAT_R16G16B16A16_UNORM]
  | DXGI_FORMAT_Y410 => Some [DXGI_FORMAT_R10G10B10A2_UNORM]
  | DXGI_FORMAT_UNKNOWN | DXGI_FORMAT_OTHER _ => None
  end.

(** The [switch] of [create_render_target_views]. *)
Definition render_target_view_formats (f : DXGI_FORMAT)
  : option (list DXGI_FORMAT) :=
  match f with
  | DXGI_FORMAT_B8G8R8A8_UNORM | DXGI_FORMAT_R8G8B8A8_UNORM
  | DXGI_FORMAT_R10G10B10A2_UNORM | DXGI_FORMAT_R8_UNORM
  | DXGI_FORMAT_R8G8_UNORM | DXGI_FORMAT_R16_UNORM
  | DXGI_FORMAT_R16G16_UNORM => Some [f]
  | DXGI_FORMAT_AYUV => Some [DXGI_FORMAT_R8G8B8A8_UNORM]
  | DXGI_FORMAT_NV12 => Some [DXGI_FORMAT_R8_UNORM; DXGI_FORMAT_R8G8_UNORM]
  | DXGI_FORMAT_P010 | DXGI_FORMAT_P016 =>
      Some [DXGI_FORMAT_R16_UNORM; DXGI_FORMAT_R16G16_UNORM]
  | _ => None
  end.

(** The creation loop shared by the two functions:
    [for (i = 0; i < num_views; i++) { hr = Create (..., &view[i]); if
    (failed) goto error; }], started at index [i] with the formats left.
    The boolean tells whether every call succeeded. *)
Fixpoint create_views_loop
    (mk : option Handle -> DXGI_FORMAT -> HRESULT -> ViewCall)
    (res : option Handle) (formats : list DXGI_FORMAT) (i : nat)
    (dev : GstD3D11Device) (vlog : list ViewCall)
    (views : list (option Handle))
  : bool * GstD3D11Device * list ViewCall * list (option Handle) :=
  match formats with
  | [] => (true, dev, vlog, views)
  | f :: rest =>
      let '(hr, out, dev1, vlog1) :=
        ID3D11Device_CreateView mk dev vlog res f
          (default None (views !! i)) in
      let views1 := <[i:=out]> views in
      if negb (gst_d3d11_result hr) then (false, dev1, vlog1, views1)
      else create_views_loop mk res rest (S i) dev1 vlog1 views1
  end.

(** The [error:] block: [for (i = 0; i < num_views; i++) { if (view[i])
    Release (view[i]); view[i] = NULL; }], started at index [i] with [n]
    rounds left. *)
Fixpoint release_views_loop (i n : nat) (dev : GstD3D11Device)
    (views : list (option Handle))
  : GstD3D11Device * list (option Handle) :=
  match n with
  | O => (dev, views)
  | S n' =>
      release_views_loop (S i) n'
        (release_if dev (default None (views !! i))) (<[i:=None]> views)
  end.

(** [create_shader_resource_views]; [None] is [g_assert_not_reached]. *)
Definition create_shader_resource_views (dev : GstD3D11Device)
    (vlog : list ViewCall) (mem : GstD3D11Memory)
  : option (bool * GstD3D11Device * list ViewCall * GstD3D11Memory) :=
  match shader_resource_view_formats (Format (desc mem)) with
  | None => None
  | Some formats =>
      if has_flags (BindFlags (desc mem)) D3D11_BIND_SHADER_RESOURCE then
        let '(ok, dev1, vlog1, views1) :=
          create_views_loop CreateShaderResourceView (texture mem) formats
            0 dev vlog (shader_resource_view mem) in
        if ok then
          Some (true, dev1, vlog1,
                set_shader_resource_views mem views1
                  (Z.of_nat (length formats)))
        else
          let '(dev2, views2) :=
            release_views_loop 0 (length formats) dev1 views1 in
          Some (false, dev2, vlog1, set_shader_resource_views mem views2 0)
      else Some (false, dev, vlog, mem)
  end.

(** [create_render_target_views]. *)
Definition create_render_target_views (dev : GstD3D11Device)
    (vlog : list ViewCall) (mem : GstD3D11Memory)
  : option (bool * GstD3D11Device * list ViewCall * GstD3D11Memory) :=
  match render_target_view_formats (Format (desc mem)) with
  | None => None
  | Some formats =>
      if has_flags (BindFlags (desc mem)) D3D11_BIND_RENDER_TARGET then
        let '(ok, dev1, vlog1, views1) :=
          create_views_loop CreateRenderTargetView (texture mem) formats
            0 dev vlog (render_target_view mem) in
        if ok then
          Some (true, dev1, vlog1,
                set_render_target_views mem views1
                  (Z.of_nat (length formats)))
        else
          let '(dev2, views2) :=
            release_views_loop 0 (length formats) dev1 views1 in
          Some (false, dev2, vlog1, set_render_target_views mem views2 0)
      else Some (false, dev, vlog, mem)
  end.

(** [gst_d3d11_memory_ensure_shader_resource_view]. *)
Definition gst_d3d11_memory_ensure_shader_resource_view
    (dev : GstD3D11Device) (vlog : list ViewCall) (mem : GstD3D11Memory)
  : option (bool * GstD3D11Device * list ViewCall * GstD3D11Memory) :=
  if Z.land (BindFlags (desc mem)) D3D11_BIND_SHADER_RESOURCE =? 0
  then Some (false, dev, vlog, mem)
  else if negb (num_shader_resource_views mem =? 0)
  then Some (true, dev, vlog, mem)
  else create_shader_resource_views dev vlog mem.

(** [gst_d3d11_memory_get_shader_resource_view_size]. *)
Definition gst_d3d11_memory_get_shader_resource_view_size
    (dev : GstD3D11Device) (vlog : list ViewCall) (mem : GstD3D11Memory)
  : option (Z * GstD3D11Device * list ViewCall * GstD3D11Memory) :=
  match gst_d3d11_memory_ensure_shader_resource_view dev vlog mem with
  | None => None
  | Some (ok, dev1, vlog1, mem1) =>
      if negb ok then Some (0, dev1, vlog1, mem1)
      else Some (num_shader_resource_views mem1, dev1, vlog1, mem1)
  end.

(** [gst_d3d11_memory_get_shader_resource_view]; an index within
    [num_shader_resource_views] but outside the array of
    [GST_VIDEO_MAX_PLANES] entries does not occur, and reads as [NULL]. *)
Definition gst_d3d11_memory_get_shader_resource_view
    (dev : GstD3D11Device) (vlog : list ViewCall) (mem : GstD3D11Memory)
    (index : Z)
  : option (option Handle * GstD3D11Device * list ViewCall * GstD3D11Memory) :=
  match gst_d3d11_memory_ensure_shader_resource_view dev vlog mem with
  | None => None
  | Some (ok, dev1, vlog1, mem1) =>
      if negb ok then Some (None, dev1, vlog1, mem1)
      else if num_shader_resource_views mem1 <=? index
      then Some (None, dev1, vlog1, mem1)
      else Some (default None (shader_resource_view mem1 !! Z.to_nat index),
                 dev1, vlog1, mem1)
  end.

(** [gst_d3d11_memory_ensure_render_target_view]. *)
Definition gst_d3d11_memory_ensure_render_target_view
    (dev : GstD3D11Device) (vlog : list ViewCall) (mem : GstD3D11Memory)
  : option (bool * GstD3D11Device * list ViewCall * GstD3D11Memory) :=
  if Z.land (BindFlags (desc mem)) D3D11_BIND_RENDER_TARGET =? 0
  then Some (false, dev, vlog, mem)
  else if negb (num_render_target_views mem =? 0)
  then Some (true, dev, vlog, mem)
  else create_render_target_views dev vlog mem.

(** [gst_d3d11_memory_get_render_target_view_size]. *)
Definition gst_d3d11_memory_get_render_target_view_size
    (dev : GstD3D11Device) (vlog : list ViewCall) (mem : GstD3D11Memory)
  : option (Z * GstD3D11Device * list ViewCall * GstD3D11Memory) :=
  match gst_d3d11_memory_ensure_render_target_view dev vlog mem with
  | None => None
  | Some (ok, dev1, vlog1, mem1) =>
      if negb ok then Some (0, dev1, vlog1, mem1)
      else Some (num_render_target_views mem1, dev1, vlog1, mem1)
  end.

(** [gst_d3d11_memory_get_render_target_view]. *)
Definition gst_d3d11_memory_get_render_target_view
    (dev : GstD3D11Device) (vlog : list ViewCall) (mem : GstD3D11Memory)
    (index : Z)
  : option (option Handle * GstD3D11Device * list ViewCall * GstD3D11Memory) :=
  match gst_d3d11_memory_ensure_render_target_view dev vlog mem with
  | None => None
  | Some (ok, dev1, vlog1, mem1) =>
      if negb ok then Some (None, dev1, vlog1, mem1)
      else if num_render_target_views mem1 <=? index
      then Some (None, dev1, vlog1, mem1)
      else Some (default None (render_target_view mem1 !! Z.to_nat index),
                 dev1, vlog1, mem1)
  end.

(** *** Views of the video device *)

(** A decoder profile [GUID]. *)
Definition GUID := Z.

(** The view-creating calls of [ID3D11VideoDevice]. *)
Inductive VideoCall :=
| CreateVideoDecoderOutputView (res : option Handle) (profile : GUID)
                               (slice : Z) (hr : HRESULT)
| CreateVideoProcessorInputView (res : option Handle) (slice : Z)
                                (hr : HRESULT)
| CreateVideoProcessorOutputView (res : option Handle) (hr : HRESULT).

(** The [ID3D11VideoDevice] handed to the view functions: the results of
    its coming calls, the name of its next view, the decode profile that
    [GetDesc] reports for each decoder output view it made (newest first),
    and its log. *)
Record ID3D11VideoDevice := {
  video_hresults : list HRESULT;
  video_next_handle : Z;
  decode_profiles : list (Handle * GUID);
  video_calls : list VideoCall
}.

Definition video_next_hresult (vd : ID3D11VideoDevice) : HRESULT :=
  match video_hresults vd with [] => S_OK | hr :: _ => hr end.

(** [ID3D11VideoDecoderOutputView_GetDesc (view, &desc)], read at
    [desc.DecodeProfile]. *)
Definition GetDesc_DecodeProfile (vd : ID3D11VideoDevice) (view : Handle)
  : GUID :=
  match List.find (fun e => fst e =? view) (decode_profiles vd) with
  | Some e => snd e
  | None => 0
  end.

(** [IsEqualGUID]. *)
Definition IsEqualGUID (a b : GUID) : bool := a =? b.

Definition ID3D11VideoDevice_CreateVideoDecoderOutputView
    (vd : ID3D11VideoDevice) (res : option Handle) (profile : GUID)
    (slice : Z) (out : option Handle)
  : HRESULT * option Handle * ID3D11VideoDevice :=
  let hr := video_next_hresult vd in
  let c := CreateVideoDecoderOutputView res profile slice hr in
  if gst_d3d11_result hr then
    (hr, Some (video_next_handle vd),
     {| video_hresults := tl (video_hresults vd);
        video_next_handle := video_next_handle vd + 1;
        decode_profiles := (video_next_handle vd, profile)
                           :: decode_profiles vd;
        video_calls := video_calls vd ++ [c] |})
  else
    (hr, out,
     {| video_hresults := tl (video_hresults vd);
        video_next_handle := video_next_handle vd;
        decode_profiles := decode_profiles vd;
        video_calls := video_calls vd ++ [c] |}).

(** The two processor view calls; [c] is the log entry. *)
Definition ID3D11VideoDevice_CreateProcessorView
    (vd : ID3D11VideoDevice) (c : HRESULT -> VideoCall) (out : option Handle)
  : HRESULT * option Handle * ID3D11VideoDevice :=
  let hr := video_next_hresult vd in
  if gst_d3d11_result hr then
    (hr, Some (video_next_handle vd),
     {| video_hresults := tl (video_hresults vd);
        video_next_handle := video_next_handle vd + 1;
        decode_profiles := decode_profiles vd;
        video_calls := video_calls vd ++ [c hr] |})
  else
    (hr, out,
     {| video_hresults := tl (video_hresults vd);
        video_next_handle := video_next_handle vd;
        decode_profiles := decode_profiles vd;
        video_calls := video_calls vd ++ [c hr] |}).

Definition set_decoder_output_view (m : GstD3D11Memory) (v : option Handle)
  : GstD3D11Memory :=
  {| mini_object_flags := mini_object_flags m; maxsize := maxsize m;
     type := type m; texture := texture m; desc := desc m;
     subresource_index := subresource_index m; staging := staging m;
     shader_resource_view := shader_resource_view m;
     num_shader_resource_views := num_shader_resource_views m;
     render_target_view := render_target_view m;
     num_render_target_views := num_render_target_views m;
     decoder_output_view := v;
     processor_input_view := processor_input_view m;
     processor_output_view := processor_output_view m;
     map := map m; cpu_map_count := cpu_map_count m |}.

Definition set_processor_input_view (m : GstD3D11Memory) (v : option Handle)
  : GstD3D11Memory :=
  {| mini_object_flags := mini_object_flags m; maxsize := maxsize m;
     type := type m; texture := texture m; desc := desc m;
     subresource_index := subresource_index m; staging := staging m;
     shader_resource_view := shader_resource_view m;
     num_shader_resource_views := num_shader_resource_views m;
     render_target_view := render_target_view m;
     num_render_target_views := num_render_target_views m;
     decoder_output_view := decoder_output_view m;
     processor_input_view := v;
     processor_output_view := processor_output_view m;
     map := map m; cpu_map_count := cpu_map_count m |}.

Definition set_processor_output_view (m : GstD3D11Memory) (v : option Handle)
  : GstD3D11Memory :=
  {| mini_object_flags := mini_object_flags m; maxsize := maxsize m;
     type := type m; texture := texture m; desc := desc m;
     subresource_index := subresource_index m; staging := staging m;
     shader_resource_view := shader_resource_view m;
     num_shader_resource_views := num_shader_resource_views m;
     render_target_view := render_target_view m;
     num_render_target_views := num_render_target_views m;
     decoder_output_view := decoder_output_view m;
     processor_input_view := processor_input_view m;
     processor_output_view := v;
     map := map m; cpu_map_count := cpu_map_count m |}.

Definition set_decoder_output_view_array (p : GstD3D11AllocatorPrivate)
    (a : option (list (option Handle))) : GstD3D11AllocatorPrivate :=
  {| parent_texture := parent_texture p; array_in_use := array_in_use p;
     decoder_output_view_array := a;
     processor_input_view_array := processor_input_view_array p;
     num_array_textures_in_use := num_array_textures_in_use p;
     array_texture_size := array_texture_size p; cond := cond p;
     flushing := flushing p |}.

Definition set_processor_input_view_array (p : GstD3D11AllocatorPrivate)
    (a : option (list (option Handle))) : GstD3D11AllocatorPrivate :=
  {| parent_texture := parent_texture p; array_in_use := array_in_use p;
     decoder_output_view_array := decoder_output_view_array p;
     processor_input_view_array := a;
     num_array_textures_in_use := num_array_textures_in_use p;
     array_texture_size := array_texture_size p; cond := cond p;
     flushing := flushing p |}.

(** The state the view functions of the video device work on: the
    allocator, the device (whose log takes the [AddRef] and [Release] of
    views), the video device and the object. *)
Definition ViewState : Type :=
  GstD3D11AllocatorPrivate * GstD3D11Device * ID3D11VideoDevice
  * GstD3D11Memory.

(** [gst_d3d11_memory_ensure_decoder_output_view]; [None] when
    [subresource_index] lies outside the allocator's view array. *)
Definition gst_d3d11_memory_ensure_decoder_output_view
    (p : GstD3D11AllocatorPrivate) (dev : GstD3D11Device)
    (vd : ID3D11VideoDevice) (mem : GstD3D11Memory) (decoder_profile : GUID)
  : option (bool * ViewState) :=
  let idx := Z.to_nat (subresource_index mem) in
  if Z.land (BindFlags (desc mem)) D3D11_BIND_DECODER =? 0
  then Some (false, (p, dev, vd, mem))
  else
    (* the view the object holds *)
    let '(hit, dev1, mem1) :=
      match decoder_output_view mem with
      | Some v =>
          if IsEqualGUID (GetDesc_DecodeProfile vd v) decoder_profile
          then (true, dev, mem)
          else (false, COM_Release dev v, set_decoder_output_view mem None)
      | None => (false, dev, mem)
      end in
    if hit then Some (true, (p, dev1, vd, mem1))
    else
      (* the view the allocator keeps for the slot *)
      let looked :=
        match decoder_output_view_array p with
        | None => Some (p, dev1, mem1)
        | Some arr =>
            match arr !! idx with
            | None => None
            | Some None => Some (p, dev1, mem1)
            | Some (Some view) =>
                if negb (IsEqualGUID (GetDesc_DecodeProfile vd view)
                           decoder_profile)
                then Some (set_decoder_output_view_array p
                             (Some (<[idx:=None]> arr)),
                           COM_Release dev1 view, mem1)
                else Some (p, COM_AddRef dev1 view,
                           set_decoder_output_view mem1 (Some view))
            end
        end in
      match looked with
      | None => None
      | Some (p2, dev2, mem2) =>
          if non_null (decoder_output_view mem2)
          then Some (true, (p2, dev2, vd, mem2))
          else
            let '(hr, out, vd3) :=
              ID3D11VideoDevice_CreateVideoDecoderOutputView vd
                (texture mem2) decoder_profile (subresource_index mem2)
                (decoder_output_view mem2) in
            let mem3 := set_decoder_output_view mem2 out in
            if negb (gst_d3d11_result hr)
            then Some (false, (p2, dev2, vd3, mem3))
            else
              (* store the view for later reuse *)
              match decoder_output_view_array p2, out with
              | Some arr, Some created =>
                  match arr !! idx with
                  | None => None
                  | Some old =>
                      Some (true,
                            (set_decoder_output_view_array p2
                               (Some (<[idx:=Some created]> arr)),
                             COM_AddRef (release_if dev2 old) created,
                             vd3, mem3))
                  end
              | _, _ => Some (true, (p2, dev2, vd3, mem3))
              end
      end.

(** [gst_d3d11_memory_get_decoder_output_view]. *)
Definition gst_d3d11_memory_get_decoder_output_view
    (p : GstD3D11AllocatorPrivate) (dev : GstD3D11Device)
    (vd : ID3D11VideoDevice) (mem : GstD3D11Memory) (decoder_profile : GUID)
  : option (option Handle * ViewState) :=
  match gst_d3d11_memory_ensure_decoder_output_view p dev vd mem
          decoder_profile with
  | None => None
  | Some (ok, (p1, dev1, vd1, mem1)) =>
      if negb ok then Some (None, (p1, dev1, vd1, mem1))
      else Some (decoder_output_view mem1, (p1, dev1, vd1, mem1))
  end.

(** [gst_d3d11_memory_ensure_processor_input_view]. *)
Definition gst_d3d11_memory_ensure_processor_input_view
    (p : GstD3D11AllocatorPrivate) (dev : GstD3D11Device)
    (vd : ID3D11VideoDevice) (mem : GstD3D11Memory)
  : option (bool * ViewState) :=
  let idx := Z.to_nat (subresource_index mem) in
  if negb (check_bind_flags_for_processor_input_view (BindFlags (desc mem)))
  then Some (false, (p, dev, vd, mem))
  else if non_null (processor_input_view mem)
  then Some (true, (p, dev, vd, mem))
  else
    let looked :=
      match processor_input_view_array p with
      | None => Some (dev, mem)
      | Some arr =>
          match arr !! idx with
          | None => None
          | Some None => Some (dev, mem)
          | Some (Some view) =>
              Some (COM_AddRef dev view,
                    set_processor_input_view mem (Some view))
          end
      end in
    match looked with
    | None => None
    | Some (dev2, mem2) =>
        if non_null (processor_input_view mem2)
        then Some (true, (p, dev2, vd, mem2))
        else
          let '(hr, out, vd3) :=
            ID3D11VideoDevice_CreateProcessorView vd
              (CreateVideoProcessorInputView (texture mem2)
                 (subresource_index mem2))
              (processor_input_view mem2) in
          let mem3 := set_processor_input_view mem2 out in
          if negb (gst_d3d11_result hr)
          then Some (false, (p, dev2, vd3, mem3))
          else
            match processor_input_view_array p, out with
            | Some arr, Some created =>
                match arr !! idx with
                | None => None
                | Some old =>
                    Some (true,
                          (set_processor_input_view_array p
                             (Some (<[idx:=Some created]> arr)),
                           COM_AddRef (release_if dev2 old) created,
                           vd3, mem3))
                end
            | _, _ => Some (true, (p, dev2, vd3, mem3))
            end
    end.

(** [gst_d3d11_memory_get_processor_input_view]. *)
Definition gst_d3d11_memory_get_processor_input_view
    (p : GstD3D11AllocatorPrivate) (dev : GstD3D11Device)
    (vd : ID3D11VideoDevice) (mem : GstD3D11Memory)
  : option (option Handle * ViewState) :=
  match gst_d3d11_memory_ensure_processor_input_view p dev vd mem with
  | None => None
  | Some (ok, (p1, dev1, vd1, mem1)) =>
      if negb ok then Some (None, (p1, dev1, vd1, mem1))
      else Some (processor_input_view mem1, (p1, dev1, vd1, mem1))
  end.

(** [gst_d3d11_memory_ensure_processor_output_view].  The local
    [gboolean ret] has no initialiser and is assigned only at the label
    [succeeded]; a failed driver call jumps to [done] and returns it as it
    is.  [ret] stands for the value that local holds at that point: the
    result on that path is whatever it is. *)
Definition gst_d3d11_memory_ensure_processor_output_view
    (ret : bool) (vd : ID3D11VideoDevice) (mem : GstD3D11Memory)
  : bool * ID3D11VideoDevice * GstD3D11Memory :=
  if Z.land (BindFlags (desc mem)) D3D11_BIND_RENDER_TARGET =? 0
  then (false, vd, mem)
  else if negb (subresource_index mem =? 0) then (false, vd, mem)
  else if non_null (processor_output_view mem) then (true, vd, mem)
  else
    let '(hr, out, vd1) :=
      ID3D11VideoDevice_CreateProcessorView vd
        (CreateVideoProcessorOutputView (texture mem))
        (processor_output_view mem) in
    let mem1 := set_processor_output_view mem out in
    if negb (gst_d3d11_result hr) then (ret, vd1, mem1)
    else (true, vd1, mem1).

(** [gst_d3d11_memory_get_processor_output_view]; [ret] as above. *)
Definition gst_d3d11_memory_get_processor_output_view
    (ret : bool) (vd : ID3D11VideoDevice) (mem : GstD3D11Memory)
  : option Handle * ID3D11VideoDevice * GstD3D11Memory :=
  let '(ok, vd1, mem1) :=
    gst_d3d11_memory_ensure_processor_output_view ret vd mem in
  if negb ok then (None, vd1, mem1)
  else (processor_output_view mem1, vd1, mem1).

(** *** Allocator queries *)


(** [gst_d3d11_memory_get_texture_handle],
    [gst_d3d11_memory_get_subresource_index] and
    [gst_d3d11_memory_get_texture_desc]. *)
Definition gst_d3d11_memory_get_texture_handle (mem : GstD3D11Memory)
  : option Handle := texture mem.
Definition gst_d3d11_memory_get_subresource_index (mem : GstD3D11Memory) : Z :=
  subresource_index mem.
Definition gst_d3d11_memory_get_texture_desc (mem : GstD3D11Memory)
  : bool * D3D11_TEXTURE2D_DESC := (true, desc mem).

(* ===================================================================== *)
(** ** GstD3D11AllocationParams and the pool's resolution fix *)
(* ===================================================================== *)

(** What the code reads of a [GstVideoFormatInfo]: the number of planes and
    the sub-sampling shifts per component. *)
Record GstVideoFormatInfo := {
  n_planes : Z;
  w_sub : list Z;
  h_sub : list Z
}.

Record GstVideoInfo := {
  finfo : GstVideoFormatInfo;
  width : Z;
  height : Z
}.

Record GstVideoAlignment := {
  padding_top : Z;
  padding_bottom : Z;
  padding_left : Z;
  padding_right : Z
}.

(** [gst_video_alignment_reset]. *)
Definition gst_video_alignment_reset : GstVideoAlignment :=
  {| padding_top := 0; padding_bottom := 0; padding_left := 0;
     padding_right := 0 |}.

Record GstD3D11Format := {
  dxgi_format : DXGI_FORMAT;
  resource_format : list DXGI_FORMAT
}.

(** [GstD3D11AllocationParams]; [params_desc] is its [desc] array of
    [GST_VIDEO_MAX_PLANES] descriptors and [params_flags] its [flags]. *)
Record GstD3D11AllocationParams := {
  info : GstVideoInfo;
  aligned_info : GstVideoInfo;
  params_desc : list D3D11_TEXTURE2D_DESC;
  d3d11_format : GstD3D11Format;
  params_flags : Z
}.

(** The macros of gstutils.h and video-format.h, written out:
    [GST_ROUND_UP_2 (num)] is [((num) + 1) & ~1] and
    [GST_VIDEO_SUB_SCALE (scale, val)] is [-((-((gint) (val))) >> (scale))]. *)
Definition GST_ROUND_UP_2 (num : Z) : Z :=
  Z.land (wrap_guint (num + 1)) (wrap_guint (Z.lnot 1)).

Definition GST_VIDEO_SUB_SCALE (scale val : Z) : Z :=
  - Z.shiftr (- wrap_gint val) scale.

Definition GST_VIDEO_INFO_COMP_WIDTH (i : GstVideoInfo) (c : nat) : Z :=
  GST_VIDEO_SUB_SCALE (nth c (w_sub (finfo i)) 0) (width i).

Definition GST_VIDEO_INFO_COMP_HEIGHT (i : GstVideoInfo) (c : nat) : Z :=
  GST_VIDEO_SUB_SCALE (nth c (h_sub (finfo i)) 0) (height i).

Definition set_dims (d : D3D11_TEXTURE2D_DESC) (w h : Z)
  : D3D11_TEXTURE2D_DESC :=
  {| Width := w; Height := h; MipLevels := MipLevels d;
     ArraySize := ArraySize d; Format := Format d;
     SampleDesc_Count := SampleDesc_Count d;
     SampleDesc_Quality := SampleDesc_Quality d; Usage := Usage d;
     BindFlags := BindFlags d; CPUAccessFlags := CPUAccessFlags d;
     MiscFlags := MiscFlags d |}.

Definition default_desc (w h : Z) (f : DXGI_FORMAT) (bind_flags : Z)
  : D3D11_TEXTURE2D_DESC :=
  {| Width := w; Height := h; MipLevels := 1; ArraySize := 1; Format := f;
     SampleDesc_Count := 1; SampleDesc_Quality := 0;
     Usage := D3D11_USAGE_DEFAULT; BindFlags := bind_flags;
     CPUAccessFlags := 0; MiscFlags := 0 |}.

(** [gst_d3d11_allocation_params_new].  [fmt] is what
    [gst_d3d11_device_format_from_gst] found for the format of [vinfo].  The
    outer [None] is the abort of [g_assert (resource_format[i] !=
    DXGI_FORMAT_UNKNOWN)], the inner one the [NULL] result. *)
Definition gst_d3d11_allocation_params_new (fmt : option GstD3D11Format)
    (vinfo : GstVideoInfo) (flags bind_flags : Z)
  : option (option GstD3D11AllocationParams) :=
  match fmt with
  | None => Some None
  | Some f =>
      let planes := Z.to_nat (n_planes (finfo vinfo)) in
      let mk descs :=
        Some (Some {| info := vinfo; aligned_info := vinfo;
                      params_desc := descs; d3d11_format := f;
                      params_flags := flags |}) in
      if DXGI_FORMAT_eqb (dxgi_format f) DXGI_FORMAT_UNKNOWN then
        if forallb
             (fun i => negb (DXGI_FORMAT_eqb
                               (nth i (resource_format f) DXGI_FORMAT_UNKNOWN)
                               DXGI_FORMAT_UNKNOWN))
             (seq 0 planes)
        then
          mk (imap
                (fun i d =>
                   if (i <? planes)%nat then
                     default_desc
                       (wrap_guint (GST_VIDEO_INFO_COMP_WIDTH vinfo i))
                       (wrap_guint (GST_VIDEO_INFO_COMP_HEIGHT vinfo i))
                       (nth i (resource_format f) DXGI_FORMAT_UNKNOWN)
                       bind_flags
                   else d)
                (replicate GST_VIDEO_MAX_PLANES zero_desc))
        else None
      else
        mk (default_desc (wrap_guint (width vinfo)) (wrap_guint (height vinfo))
              (dxgi_format f) bind_flags
            :: replicate (GST_VIDEO_MAX_PLANES - 1) zero_desc)
  end.

Section VideoInfo.

(** [gst_video_info_set_format] of the video library, which is outside
    the sources: given a format and a size it fills a [GstVideoInfo], or
    fails. *)
Variable gst_video_info_set_format :
  GstVideoFormatInfo -> Z -> Z -> option GstVideoInfo.

(** [gst_d3d11_allocation_params_alignment]. *)
Definition gst_d3d11_allocation_params_alignment
    (params : GstD3D11AllocationParams) (align : GstVideoAlignment)
  : bool * GstD3D11AllocationParams :=
  let padding_width :=
    wrap_guint (padding_left align + padding_right align) in
  let padding_height :=
    wrap_guint (padding_top align + padding_bottom align) in
  let vinfo := info params in
  match gst_video_info_set_format (finfo vinfo)
          (wrap_guint (width vinfo + padding_width))
          (wrap_guint (height vinfo + padding_height)) with
  | None => (false, params)
  | Some new_info =>
      let planes := Z.to_nat (n_planes (finfo vinfo)) in
      (true,
       {| info := info params; aligned_info := new_info;
          params_desc :=
            imap
              (fun i d =>
                 if (i <? planes)%nat then
                   set_dims d
                     (wrap_guint (GST_VIDEO_INFO_COMP_WIDTH new_info i))
                     (wrap_guint (GST_VIDEO_INFO_COMP_HEIGHT new_info i))
                 else d)
              (params_desc params);
          d3d11_format := d3d11_format params;
          params_flags := params_flags params |})
  end.

Definition is_semi_planar (f : DXGI_FORMAT) : bool :=
  DXGI_FORMAT_eqb f DXGI_FORMAT_NV12 || DXGI_FORMAT_eqb f DXGI_FORMAT_P010
  || DXGI_FORMAT_eqb f DXGI_FORMAT_P016.

(** The block of [gst_d3d11_buffer_pool_set_config] under the comment
    "resolution of semi-planar formats must be multiple of 2"; the result
    of [gst_d3d11_allocation_params_alignment] is not looked at. *)
Definition set_config_fix_resolution (params : GstD3D11AllocationParams)
  : GstD3D11AllocationParams :=
  let d0 := nth 0 (params_desc params) zero_desc in
  if is_semi_planar (Format d0) then
    if negb (Width d0 mod 2 =? 0) || negb (Height d0 mod 2 =? 0) then
      let w := wrap_gint (GST_ROUND_UP_2 (Width d0)) in
      let h := wrap_gint (GST_ROUND_UP_2 (Height d0)) in
      let align :=
        {| padding_top := padding_top gst_video_alignment_reset;
           padding_bottom := wrap_guint (h - Height d0);
           padding_left := padding_left gst_video_alignment_reset;
           padding_right := wrap_guint (w - Width d0) |} in
      snd (gst_d3d11_allocation_params_alignment params align)
    else params
  else params.

(** The part of [gst_d3d11_buffer_pool_set_config] that settles
    [priv->d3d11_params]: the params found in the config or, without
    them, [gst_d3d11_allocation_params_new (device, &info, 0, 0)]; then
    the resolution fix.  [None] is an abort (the assertion of
    [gst_d3d11_allocation_params_new], or the use of its [NULL] result). *)
Definition set_config_d3d11_params
    (config_params : option GstD3D11AllocationParams)
    (fmt : option GstD3D11Format) (vinfo : GstVideoInfo)
  : option GstD3D11AllocationParams :=
  let params :=
    match config_params with
    | Some p => Some (Some p)
    | None => gst_d3d11_allocation_params_new fmt vinfo 0 0
    end in
  match params with
  | Some (Some p) => Some (set_config_fix_resolution p)
  | _ => None
  end.

End VideoInfo.

(** A [gst_video_info_set_format] that accepts every size up to
    [G_MAXINT], for running the definitions above. *)
Definition video_info_set_format_upto_maxint (f : GstVideoFormatInfo)
    (w h : Z) : option GstVideoInfo :=
  if (2147483647 <? w) || (2147483647 <? h) then None
  else Some {| finfo := f; width := w; height := h |}.

(** The format info of NV12: two planes, chroma sub-sampled by two in both
    directions. *)
Definition nv12_finfo : GstVideoFormatInfo :=
  {| n_planes := 2; w_sub := [0; 1; 1; 0]; h_sub := [0; 1; 1; 0] |}.

Definition nv12_d3d11_format : GstD3D11Format :=
  {| dxgi_format := DXGI_FORMAT_NV12;
     resource_format :=
       [DXGI_FORMAT_R8_UNORM; DXGI_FORMAT_R8G8_UNORM;
        DXGI_FORMAT_UNKNOWN; DXGI_FORMAT_UNKNOWN] |}.

(* ===================================================================== *)
(** ** GstD3D11BufferPool *)
(* ===================================================================== *)

Definition wrap_gsize (z : Z) : Z := z mod 2 ^ 64.

(** What the pool hands to [gst_buffer_add_video_meta_full]. *)
Record GstVideoMeta := {
  meta_width : Z;
  meta_height : Z;
  meta_n_planes : Z;
  meta_offset : list Z;
  meta_stride : list Z
}.

(** A [GstBuffer] of the GStreamer core, as far as the pool uses it: its
    memories in the order they were appended, and its video meta. *)
Record GstBuffer := {
  memories : list GstD3D11Memory;
  video_meta : option GstVideoMeta
}.

Definition gst_buffer_new : GstBuffer :=
  {| memories := []; video_meta := None |}.

Definition gst_buffer_append_memory (b : GstBuffer) (m : GstD3D11Memory)
  : GstBuffer :=
  {| memories := memories b ++ [m]; video_meta := video_meta b |}.

Definition gst_buffer_add_video_meta_full (b : GstBuffer) (i : GstVideoInfo)
    (off str : list Z) : GstBuffer :=
  {| memories := memories b;
     video_meta :=
       Some {| meta_width := width i; meta_height := height i;
               meta_n_planes := n_planes (finfo i);
               meta_offset := off; meta_stride := str |} |}.

(** The memories of a buffer that loses its last reference are freed in
    order, each through the [free] of its allocator. *)
Fixpoint free_memories (p : GstD3D11AllocatorPrivate) (dev : GstD3D11Device)
    (ms : list GstD3D11Memory)
  : option (GstD3D11AllocatorPrivate * GstD3D11Device) :=
  match ms with
  | [] => Some (p, dev)
  | m :: rest =>
      match gst_d3d11_allocator_free p dev m with
      | None => None
      | Some (p1, dev1) => free_memories p1 dev1 rest
      end
  end.

(** [gst_buffer_unref] of a buffer held by its creator alone. *)
Definition gst_buffer_unref (p : GstD3D11AllocatorPrivate)
    (dev : GstD3D11Device) (b : GstBuffer)
  : option (GstD3D11AllocatorPrivate * GstD3D11Device) :=
  free_memories p dev (memories b).

(** How a loop over the planes ends: with its state, at the [error] label
    with the buffer built so far, or by reading an array out of range. *)
Inductive Planes (A : Type) :=
| PlanesDone (a : A)
| PlanesError (buffer : GstBuffer)
| PlanesFault.
Arguments PlanesDone {A} a.
Arguments PlanesError {A} buffer.
Arguments PlanesFault {A}.

Section StagingBuffer.

Variable gst_d3d11_dxgi_format_get_size :
  DXGI_FORMAT -> Z -> Z -> Z -> option (list Z * Z).

(** The loop of [allocate_staging_buffer] over the planes, from plane [i]
    with [n] planes to go; the state is the buffer and the local arrays
    [stride], [offset] and [size]. *)
Fixpoint staging_planes (dev : GstD3D11Device) (desc : list D3D11_TEXTURE2D_DESC)
    (i n : nat) (buffer : GstBuffer) (stride offset size : list Z)
  : Planes (GstBuffer * list Z * list Z) * GstD3D11Device :=
  match n with
  | O => (PlanesDone (buffer, stride, offset), dev)
  | S n' =>
      match desc !! i with
      | None => (PlanesFault, dev)
      | Some d =>
          if (GST_VIDEO_MAX_PLANES <=? i)%nat then (PlanesFault, dev)
          else
            match gst_d3d11_allocator_alloc_staging
                    gst_d3d11_dxgi_format_get_size dev d with
            | (None, dev1) => (PlanesError buffer, dev1)
            | (Some (mem, s), dev1) =>
                let stride1 := <[i:=s]> stride in
                let size1 := <[i:=maxsize mem]> size in
                let offset1 :=
                  if (0 <? i)%nat
                  then <[i:=wrap_gsize (nth (i - 1) offset 0
                                        + nth (i - 1) size1 0)]> offset
                  else offset in
                staging_planes dev1 desc (S i) n'
                  (gst_buffer_append_memory buffer mem) stride1 offset1 size1
            end
      end
  end.

(** [allocate_staging_buffer].  The outer [None] is an abort (the
    assertion on the number of planes, an array read out of range); the
    inner one is the [NULL] result. *)
Definition allocate_staging_buffer (p : GstD3D11AllocatorPrivate)
    (dev : GstD3D11Device) (vinfo : GstVideoInfo) (format : GstD3D11Format)
    (desc : list D3D11_TEXTURE2D_DESC) (add_videometa : bool)
  : option (option GstBuffer * GstD3D11AllocatorPrivate * GstD3D11Device) :=
  let zeros := replicate GST_VIDEO_MAX_PLANES 0 in
  let finish buffer stride offset dev1 :=
    Some (Some (if add_videometa
                then gst_buffer_add_video_meta_full buffer vinfo offset stride
                else buffer), p, dev1) in
  let error buffer dev1 :=
    match gst_buffer_unref p dev1 buffer with
    | None => None
    | Some (p1, dev2) => Some (None, p1, dev2)
    end in
  if DXGI_FORMAT_eqb (dxgi_format format) DXGI_FORMAT_UNKNOWN then
    match staging_planes dev desc 0 (Z.to_nat (n_planes (finfo vinfo)))
            gst_buffer_new zeros zeros zeros with
    | (PlanesFault, _) => None
    | (PlanesError buffer, dev1) => error buffer dev1
    | (PlanesDone (buffer, stride, offset), dev1) =>
        finish buffer stride offset dev1
    end
  else if negb (n_planes (finfo vinfo) <=? 2) then None
  else
    match desc !! 0%nat with
    | None => None
    | Some d0 =>
        match gst_d3d11_allocator_alloc_staging
                gst_d3d11_dxgi_format_get_size dev d0 with
        | (None, dev1) => error gst_buffer_new dev1
        | (Some (mem, s), dev1) =>
            let buffer := gst_buffer_append_memory gst_buffer_new mem in
            let stride := <[0%nat:=s]> zeros in
            if n_planes (finfo vinfo) =? 2 then
              finish buffer (<[1%nat:=s]> stride)
                (<[1%nat:=wrap_gsize (wrap_guint (s * Height d0))]> zeros) dev1
            else finish buffer stride zeros dev1
        end
    end.

End StagingBuffer.

(** The scan of [gst_d3d11_buffer_pool_set_config] for the largest
    [ArraySize] of the described planes, from plane [i] with [n] to go. *)
Fixpoint max_array_size_from (desc : list D3D11_TEXTURE2D_DESC) (i n : nat)
    (max_array_size : Z) : Z :=
  match n with
  | O => max_array_size
  | S n' =>
      let d := nth i desc zero_desc in
      if DXGI_FORMAT_eqb (Format d) DXGI_FORMAT_UNKNOWN then max_array_size
      else
        max_array_size_from desc (S i) n'
          (if max_array_size <? ArraySize d then ArraySize d
           else max_array_size)
  end.

(** The block of [gst_d3d11_buffer_pool_set_config] under
    [if ((priv->d3d11_params->flags & GST_D3D11_ALLOCATION_FLAG_TEXTURE_ARRAY))]:
    the [max_buffers] that goes back into the config. *)
Definition set_config_max_buffers (params : GstD3D11AllocationParams)
    (max_buffers : Z) : Z :=
  if negb (Z.land (params_flags params)
             GST_D3D11_ALLOCATION_FLAG_TEXTURE_ARRAY =? 0)
  then
    let max_array_size :=
      max_array_size_from (params_desc params) 0 GST_VIDEO_MAX_PLANES 0 in
    if (max_buffers =? 0) || (max_array_size <? max_buffers)
    then max_array_size else max_buffers
  else max_buffers.

(** [GstD3D11BufferPoolPrivate], without the device; [pool_stride],
    [pool_size] and [pool_offset] are its arrays [stride], [size] and
    [offset]. *)
Record GstD3D11BufferPoolPrivate := {
  allocator : option GstD3D11AllocatorPrivate;
  d3d11_params : option GstD3D11AllocationParams;
  add_videometa : bool;
  pool_stride : list Z;
  pool_size : list Z;
  pool_offset : list Z
}.

Definition set_allocator (pool : GstD3D11BufferPoolPrivate)
    (a : option GstD3D11AllocatorPrivate) : GstD3D11BufferPoolPrivate :=
  {| allocator := a; d3d11_params := d3d11_params pool;
     add_videometa := add_videometa pool; pool_stride := pool_stride pool;
     pool_size := pool_size pool; pool_offset := pool_offset pool |}.

(** How [gst_d3d11_buffer_pool_alloc] leaves its thread: [GST_FLOW_OK]
    with the buffer, [GST_FLOW_ERROR], parked inside the allocation of
    plane [i] with the buffer built so far, or aborted. *)
Inductive FlowReturn :=
| GST_FLOW_OK (buf : GstBuffer)
| GST_FLOW_ERROR
| FlowParked (i : nat) (buf : GstBuffer)
| FlowFault.

(** The loop of [gst_d3d11_buffer_pool_alloc] over the planes, from plane
    [i] with [n] planes to go. *)
Fixpoint pool_alloc_planes (p : GstD3D11AllocatorPrivate)
    (dev : GstD3D11Device) (tid : nat) (params : GstD3D11AllocationParams)
    (sizes : list Z) (i n : nat) (buf : GstBuffer)
  : FlowReturn * GstD3D11AllocatorPrivate * GstD3D11Device :=
  match n with
  | O => (GST_FLOW_OK buf, p, dev)
  | S n' =>
      match params_desc params !! i, sizes !! i with
      | Some d, Some sz =>
          match gst_d3d11_allocator_alloc p dev tid d (params_flags params)
                  sz with
          | (AllocMem mem, p1, dev1) =>
              pool_alloc_planes p1 dev1 tid params sizes (S i) n'
                (gst_buffer_append_memory buf mem)
          | (AllocNULL, p1, dev1) =>
              match gst_buffer_unref p1 dev1 buf with
              | Some (p2, dev2) => (GST_FLOW_ERROR, p2, dev2)
              | None => (FlowFault, p1, dev1)
              end
          | (AllocWait, p1, dev1) => (FlowParked i buf, p1, dev1)
          | (AllocFault, p1, dev1) => (FlowFault, p1, dev1)
          end
      | _, _ => (FlowFault, p, dev)
      end
  end.

(** [gst_d3d11_buffer_pool_alloc], run by thread [tid] until it returns
    or parks.  Without [priv->d3d11_params] the function reads through
    [NULL]; without an allocator every [gst_d3d11_allocator_alloc] fails
    its [GST_IS_D3D11_ALLOCATOR] check and gives [NULL]. *)
Definition gst_d3d11_buffer_pool_alloc (pool : GstD3D11BufferPoolPrivate)
    (dev : GstD3D11Device) (tid : nat)
  : FlowReturn * GstD3D11BufferPoolPrivate * GstD3D11Device :=
  match d3d11_params pool with
  | None => (FlowFault, pool, dev)
  | Some params =>
      let vinfo := info params in
      let planes :=
        if DXGI_FORMAT_eqb (dxgi_format (d3d11_format params))
             DXGI_FORMAT_UNKNOWN
        then Z.to_nat (n_planes (finfo vinfo)) else 1%nat in
      let with_meta buf :=
        if add_videometa pool
        then gst_buffer_add_video_meta_full buf vinfo (pool_offset pool)
               (pool_stride pool)
        else buf in
      match allocator pool with
      | None =>
          match planes with
          | O => (GST_FLOW_OK (with_meta gst_buffer_new), pool, dev)
          | S _ => (GST_FLOW_ERROR, pool, dev)
          end
      | Some p =>
          match pool_alloc_planes p dev tid params (pool_size pool) 0 planes
                  gst_buffer_new with
          | (GST_FLOW_OK buf, p1, dev1) =>
              (GST_FLOW_OK (with_meta buf), set_allocator pool (Some p1), dev1)
          | (r, p1, dev1) => (r, set_allocator pool (Some p1), dev1)
          end
      end
  end.

(** [gst_d3d11_buffer_pool_flush_start] and
    [gst_d3d11_buffer_pool_flush_stop]. *)
Definition gst_d3d11_buffer_pool_flush_start
    (pool : GstD3D11BufferPoolPrivate) : GstD3D11BufferPoolPrivate :=
  match allocator pool with
  | Some a => set_allocator pool (Some (gst_d3d11_allocator_set_flushing a true))
  | None => pool
  end.

Definition gst_d3d11_buffer_pool_flush_stop
    (pool : GstD3D11BufferPoolPrivate) : GstD3D11BufferPoolPrivate :=
  match allocator pool with
  | Some a =>
      set_allocator pool (Some (gst_d3d11_allocator_set_flushing a false))
  | None => pool
  end.

(* ===================================================================== *)
(** ** Notions used in the statements *)
(* ===================================================================== *)

Definition need_upload (m : GstD3D11Memory) : bool :=
  mem_flag_is_set m GST_D3D11_MEMORY_TRANSFER_NEED_UPLOAD.
Definition need_download (m : GstD3D11Memory) : bool :=
  mem_flag_is_set m GST_D3D11_MEMORY_TRANSFER_NEED_DOWNLOAD.

(** What the CPU branch of [gst_d3d11_memory_unmap_full] leaves of the
    object. *)
Definition cpu_unmap_mem (info_flags : Z) (m : GstD3D11Memory)
  : GstD3D11Memory :=
  let m1 :=
    if has_flags info_flags GST_MAP_WRITE
    then mem_flag_set m GST_D3D11_MEMORY_TRANSFER_NEED_UPLOAD else m in
  set_cpu_map_count m1 (wrap_gint (cpu_map_count m1 - 1)).

(** The tail of the CPU branch of [gst_d3d11_memory_map], after the
    [if (priv->cpu_map_count == 0)] block. *)
Definition cpu_map_tail (flags : Z) (m : GstD3D11Memory) : GstD3D11Memory :=
  let m2 :=
    if has_flags flags GST_MAP_WRITE
    then mem_flag_set m GST_D3D11_MEMORY_TRANSFER_NEED_UPLOAD else m in
  let m3 := mem_flag_unset m2 GST_D3D11_MEMORY_TRANSFER_NEED_DOWNLOAD in
  set_cpu_map_count m3 (wrap_gint (cpu_map_count m3 + 1)).

(** The hardware part of a first CPU map, once a staging texture exists. *)
Definition cpu_map_hw (dev : GstD3D11Device) (m : GstD3D11Memory)
    (flags : Z) (ty : D3D11_MAP)
  : option (option Z * GstD3D11Device * GstD3D11Memory) :=
  let dev1 :=
    if need_download m
    then log_call dev (CopySubresourceRegion (staging m) 0 (texture m)
                         (subresource_index m))
    else dev in
  let hr := next_hresult dev in
  let dev2 := log_call (consume_hresult dev1) (Map (staging m) 0 ty hr) in
  if gst_d3d11_result hr
  then Some (pData (mapping dev (staging m)), dev2,
             cpu_map_tail flags (set_map m (mapping dev (staging m))))
  else Some (None, dev2, m).

(** Sample objects: a driver that maps every resource at one address and
    answers the coming fallible calls with [hrs], and a fresh stand-alone
    texture object. *)
Definition sample_device (hrs : list HRESULT) : GstD3D11Device :=
  {| hresults := hrs; next_handle := 100;
     mapping := fun _ => {| pData := Some 4096; RowPitch := 256;
                            DepthPitch := 0 |};
     calls := [] |}.

(** A driver that works, and one that creates the next texture and then
    fails the next map. *)
Definition working_device : GstD3D11Device := sample_device [].
Definition failing_map_device : GstD3D11Device := sample_device [S_OK; E_FAIL].

Definition sample_desc : D3D11_TEXTURE2D_DESC :=
  default_desc 64 64 DXGI_FORMAT_B8G8R8A8_UNORM 0.

Definition sample_memory : GstD3D11Memory :=
  new_memory 16384 (Some 7) sample_desc GST_D3D11_MEMORY_TYPE_TEXTURE 0.

(** [sample_memory] while mapped once for a CPU write, and after the unmap
    of that write. *)
Definition mapped_memory : GstD3D11Memory :=
  match gst_d3d11_memory_map working_device sample_memory GST_MAP_WRITE with
  | Some (_, _, m) => m
  | None => sample_memory
  end.

Definition written_memory : GstD3D11Memory :=
  snd (gst_d3d11_memory_unmap_full working_device mapped_memory
         GST_MAP_WRITE).

(** The hardware map and unmap calls of a log. *)
Definition is_map_or_unmap (c : DeviceCall) : bool :=
  match c with
  | Map _ _ _ _ | Unmap _ _ => true
  | _ => false
  end.

Definition hw_map_calls (dev : GstD3D11Device) : list DeviceCall :=
  List.filter is_map_or_unmap (calls dev).

Definition driver_succeeds (dev : GstD3D11Device) : Prop :=
  Forall (fun hr => gst_d3d11_result hr = true) (hresults dev).

(** [k] is the lowest index of [arr] whose entry is free. *)
Definition lowest_free (arr : list Z) (k : nat) : Prop :=
  arr !! k = Some 0
  /\ forall j, (j < k)%nat -> exists v, arr !! j = Some v /\ v <> 0.

(** While flushing is set no thread is parked on the condition variable. *)
Definition no_waiter_while_flushing (p : GstD3D11AllocatorPrivate) : Prop :=
  flushing p = true -> waiters (cond p) = [].

(** A descriptor of a texture array with [n] slices. *)
Definition array_desc (n : Z) : D3D11_TEXTURE2D_DESC :=
  {| Width := 64; Height := 64; MipLevels := 1; ArraySize := n;
     Format := DXGI_FORMAT_NV12; SampleDesc_Count := 1;
     SampleDesc_Quality := 0; Usage := D3D11_USAGE_DEFAULT;
     BindFlags := D3D11_BIND_DECODER; CPUAccessFlags := 0; MiscFlags := 0 |}.

Definition fresh_allocator : GstD3D11AllocatorPrivate :=
  priv gst_d3d11_allocator_init.

(** An allocator with a three-slot array of which slots 0 and 1 are handed
    out. *)
Definition busy_allocator : GstD3D11AllocatorPrivate :=
  match
    run [CallAlloc 0%nat (array_desc 3)
           GST_D3D11_ALLOCATION_FLAG_TEXTURE_ARRAY 16384;
         CallAlloc 0%nat (array_desc 3)
           GST_D3D11_ALLOCATION_FLAG_TEXTURE_ARRAY 16384]
      (priv gst_d3d11_allocator_init, sample_device [])
  with
  | Some (p, _) => p
  | None => priv gst_d3d11_allocator_init
  end.

Definition nv12_info (w h : Z) : GstVideoInfo :=
  {| finfo := nv12_finfo; width := w; height := h |}.

(** The first-plane width and height of allocation params. *)
Definition plane0_size (p : GstD3D11AllocationParams) : Z * Z :=
  let d0 := nth 0 (params_desc p) zero_desc in (Width d0, Height d0).

(** The alignment that the pool's resolution fix asks for. *)
Definition fix_alignment (params : GstD3D11AllocationParams)
  : GstVideoAlignment :=
  let d0 := nth 0 (params_desc params) zero_desc in
  {| padding_top := 0;
     padding_bottom :=
       wrap_guint (wrap_gint (GST_ROUND_UP_2 (Height d0)) - Height d0);
     padding_left := 0;
     padding_right :=
       wrap_guint (wrap_gint (GST_ROUND_UP_2 (Width d0)) - Width d0) |}.

(** The handles the driver gives to [n] objects created in a row, the
    first of them named [h]. *)
Definition fresh_handles (h : Z) (n : nat) : list Handle :=
  List.map (fun k => h + Z.of_nat k) (seq 0 n).

(** The COM pointers an object holds, in the order in which
    [gst_d3d11_allocator_free] goes through them. *)
Definition memory_handles (dmem : GstD3D11Memory) : list Handle :=
  omap id
    (flat_map (fun rs => [fst rs; snd rs])
       (zip (render_target_view dmem) (shader_resource_view dmem))
     ++ [decoder_output_view dmem; processor_input_view dmem;
         processor_output_view dmem; texture dmem; staging dmem]).

(** The number of slots a bitmap marks as handed out. *)
Definition slots_in_use (arr : list Z) : nat :=
  length (List.filter (fun v => negb (v =? 0)) arr).

(** The counter of the allocator agrees with its bitmap. *)
Definition counter_matches (p : GstD3D11AllocatorPrivate) : Prop :=
  num_array_textures_in_use p
  = wrap_guint (Z.of_nat (slots_in_use (default [] (array_in_use p)))).

(** A video device that does not fail. *)
Definition video_driver_succeeds (vd : ID3D11VideoDevice) : Prop :=
  Forall (fun hr => gst_d3d11_result hr = true) (video_hresults vd).

(** The texture formats that the [switch] of
    [create_shader_resource_views] names, and the ones that the [switch]
    of [create_render_target_views] names. *)
Definition shader_resource_view_cases : list DXGI_FORMAT :=
  [DXGI_FORMAT_B8G8R8A8_UNORM; DXGI_FORMAT_R8G8B8A8_UNORM;
   DXGI_FORMAT_R10G10B10A2_UNORM; DXGI_FORMAT_R8_UNORM;
   DXGI_FORMAT_R8G8_UNORM; DXGI_FORMAT_R16_UNORM; DXGI_FORMAT_R16G16_UNORM;
   DXGI_FORMAT_G8R8_G8B8_UNORM; DXGI_FORMAT_R8G8_B8G8_UNORM;
   DXGI_FORMAT_R16G16B16A16_UNORM; DXGI_FORMAT_AYUV; DXGI_FORMAT_YUY2;
   DXGI_FORMAT_NV12; DXGI_FORMAT_P010; DXGI_FORMAT_P016; DXGI_FORMAT_Y210;
   DXGI_FORMAT_Y410].

Definition render_target_view_cases : list DXGI_FORMAT :=
  [DXGI_FORMAT_B8G8R8A8_UNORM; DXGI_FORMAT_R8G8B8A8_UNORM;
   DXGI_FORMAT_R10G10B10A2_UNORM; DXGI_FORMAT_R8_UNORM;
   DXGI_FORMAT_R8G8_UNORM; DXGI_FORMAT_R16_UNORM; DXGI_FORMAT_R16G16_UNORM;
   DXGI_FORMAT_AYUV; DXGI_FORMAT_NV12; DXGI_FORMAT_P010; DXGI_FORMAT_P016].

(** Sample objects: a stand-alone texture of format [f] that can be bound
    as shader resource and as render target, slice [k] of the array of
    [busy_allocator], and a video device that works. *)
Definition bindable_memory (f : DXGI_FORMAT) : GstD3D11Memory :=
  new_memory 16384 (Some 7)
    (default_desc 64 64 f
       (Z.lor D3D11_BIND_SHADER_RESOURCE D3D11_BIND_RENDER_TARGET))
    GST_D3D11_MEMORY_TYPE_TEXTURE 0.

Definition slice_memory (k : Z) : GstD3D11Memory :=
  new_memory 16384 (Some 100) (array_desc 3) GST_D3D11_MEMORY_TYPE_ARRAY k.

Definition working_video_device : ID3D11VideoDevice :=
  {| video_hresults := []; video_next_handle := 500; decode_profiles := [];
     video_calls := [] |}.

(** A video device whose next call fails. *)
Definition failing_video_device : ID3D11VideoDevice :=
  {| video_hresults := [E_FAIL]; video_next_handle := 500;
     decode_profiles := []; video_calls := [] |}.

(** [gst_d3d11_memory_ensure_decoder_output_view] from the call of
    [CreateVideoDecoderOutputView] on, for an object that holds no view. *)
Definition decoder_view_create (p : GstD3D11AllocatorPrivate)
    (dev : GstD3D11Device) (vd : ID3D11VideoDevice) (mem : GstD3D11Memory)
    (profile : GUID) : option (bool * ViewState) :=
  let idx := Z.to_nat (subresource_index mem) in
  let '(hr, out, vd1) :=
    ID3D11VideoDevice_CreateVideoDecoderOutputView vd (texture mem) profile
      (subresource_index mem) None in
  let mem1 := set_decoder_output_view mem out in
  if negb (gst_d3d11_result hr) then Some (false, (p, dev, vd1, mem1))
  else
    match decoder_output_view_array p, out with
    | Some arr, Some created =>
        match arr !! idx with
        | None => None
        | Some old =>
            Some (true,
                  (set_decoder_output_view_array p
                     (Some (<[idx:=Some created]> arr)),
                   COM_AddRef (release_if dev old) created, vd1, mem1))
        end
    | _, _ => Some (true, (p, dev, vd1, mem1))
    end.

(** The same function from the look into the allocator's view array on,
    for an object that holds no view. *)
Definition decoder_view_lookup (p : GstD3D11AllocatorPrivate)
    (dev : GstD3D11Device) (vd : ID3D11VideoDevice) (mem : GstD3D11Memory)
    (profile : GUID) : option (bool * ViewState) :=
  let idx := Z.to_nat (subresource_index mem) in
  match decoder_output_view_array p with
  | None => decoder_view_create p dev vd mem profile
  | Some arr =>
      match arr !! idx with
      | None => None
      | Some None => decoder_view_create p dev vd mem profile
      | Some (Some view) =>
          if IsEqualGUID (GetDesc_DecodeProfile vd view) profile
          then Some (true, (p, COM_AddRef dev view, vd,
                            set_decoder_output_view mem (Some view)))
          else decoder_view_create
                 (set_decoder_output_view_array p (Some (<[idx:=None]> arr)))
                 (COM_Release dev view) vd mem profile
      end
  end.

(** Sample params: an NV12 array pool with three slices, and a pool of
    three-plane textures, one stand-alone texture per plane. *)
Definition nv12_array_params : GstD3D11AllocationParams :=
  {| info := nv12_info 64 64; aligned_info := nv12_info 64 64;
     params_desc := array_desc 3 :: replicate 3 zero_desc;
     d3d11_format := nv12_d3d11_format;
     params_flags := GST_D3D11_ALLOCATION_FLAG_TEXTURE_ARRAY |}.

Definition planar_finfo : GstVideoFormatInfo :=
  {| n_planes := 3; w_sub := [0; 1; 1; 0]; h_sub := [0; 1; 1; 0] |}.

Definition planar_params : GstD3D11AllocationParams :=
  {| info := {| finfo := planar_finfo; width := 64; height := 64 |};
     aligned_info := {| finfo := planar_finfo; width := 64; height := 64 |};
     params_desc :=
       [default_desc 64 64 DXGI_FORMAT_R8_UNORM 0;
        default_desc 32 32 DXGI_FORMAT_R8_UNORM 0;
        default_desc 32 32 DXGI_FORMAT_R8_UNORM 0; zero_desc];
     d3d11_format :=
       {| dxgi_format := DXGI_FORMAT_UNKNOWN;
          resource_format :=
            [DXGI_FORMAT_R8_UNORM; DXGI_FORMAT_R8_UNORM;
             DXGI_FORMAT_R8_UNORM; DXGI_FORMAT_UNKNOWN] |};
     params_flags := 0 |}.

Definition sample_pool (a : GstD3D11AllocatorPrivate)
    (params : GstD3D11AllocationParams) : GstD3D11BufferPoolPrivate :=
  {| allocator := Some a; d3d11_params := Some params;
     add_videometa := true; pool_stride := [64; 32; 32; 0];
     pool_size := [4096; 1024; 1024; 0]; pool_offset := [0; 4096; 5120; 0] |}.

(* ===================================================================== *)
(** ** Properties *)
(* ===================================================================== *)

(** *** Flag words *)

Section FlagBits.
Variables (f k : Z).
Hypothesis Hk : 0 <= k.

Lemma land_bit :
  Z.land f (Z.shiftl 1 k) = if Z.testbit f k then Z.shiftl 1 k else 0.
Proof.
  apply Z.bits_inj'; intros n Hn.
  rewrite Z.land_spec, Z.shiftl_1_l, Z.pow2_bits_eqb by lia.
  destruct (Z.eqb_spec k n) as [->|Hne].
  - destruct (Z.testbit f n);
      rewrite ?Z.pow2_bits_eqb, ?Z.eqb_refl, ?Z.bits_0 by lia; reflexivity.
  - rewrite andb_false_r.
    destruct (Z.testbit f k); rewrite ?Z.bits_0; try reflexivity.
    rewrite Z.pow2_bits_eqb by lia. symmetry. now apply Z.eqb_neq.
Qed.

Lemma bit_nonzero : Z.shiftl 1 k <> 0.
Proof. rewrite Z.shiftl_1_l. apply Z.pow_nonzero; lia. Qed.

Lemma FLAG_IS_SET_bit : FLAG_IS_SET f (Z.shiftl 1 k) = Z.testbit f k.
Proof.
  unfold FLAG_IS_SET. rewrite land_bit.
  destruct (Z.testbit f k); [|reflexivity].
  apply negb_true_iff, Z.eqb_neq, bit_nonzero.
Qed.

Lemma has_flags_bit : has_flags f (Z.shiftl 1 k) = Z.testbit f k.
Proof.
  unfold has_flags. rewrite land_bit.
  destruct (Z.testbit f k); [apply Z.eqb_refl|].
  apply Z.eqb_neq. intros E. now apply bit_nonzero.
Qed.

Lemma nonzero_land_bit :
  negb (Z.land f (Z.shiftl 1 k) =? 0) = Z.testbit f k.
Proof. apply FLAG_IS_SET_bit. Qed.

Lemma testbit_FLAG_SET j :
  0 <= j ->
  Z.testbit (FLAG_SET f (Z.shiftl 1 k)) j = Z.testbit f j || (k =? j).
Proof.
  intros Hj. unfold FLAG_SET.
  now rewrite Z.lor_spec, Z.shiftl_1_l, Z.pow2_bits_eqb by lia.
Qed.

Lemma testbit_FLAG_UNSET j :
  0 <= j ->
  Z.testbit (FLAG_UNSET f (Z.shiftl 1 k)) j = Z.testbit f j && negb (k =? j).
Proof.
  intros Hj. unfold FLAG_UNSET.
  now rewrite Z.land_spec, Z.lnot_spec, Z.shiftl_1_l, Z.pow2_bits_eqb by lia.
Qed.
End FlagBits.

Ltac mem_simpl :=
  cbn [mini_object_flags maxsize type texture desc subresource_index staging
       shader_resource_view num_shader_resource_views render_target_view
       num_render_target_views decoder_output_view processor_input_view
       processor_output_view map cpu_map_count
       set_flags set_staging set_map set_cpu_map_count
       mem_flag_set mem_flag_unset mem_flag_is_set
       hresults next_handle mapping calls log_call consume_hresult
       fst snd] in *.

Ltac flag_bits :=
  unfold GST_MAP_READ, GST_MAP_WRITE, GST_MAP_D3D11,
    GST_D3D11_MEMORY_TRANSFER_NEED_DOWNLOAD,
    GST_D3D11_MEMORY_TRANSFER_NEED_UPLOAD,
    GST_D3D11_ALLOCATION_FLAG_TEXTURE_ARRAY,
    mem_flag_set, mem_flag_unset, mem_flag_is_set in *;
  mem_simpl;
  rewrite ?FLAG_IS_SET_bit, ?has_flags_bit, ?nonzero_land_bit,
    ?testbit_FLAG_SET, ?testbit_FLAG_UNSET in * by lia.

(** *** The two pending-transfer flags *)

(** Setters that write back what is already there change nothing. *)
Lemma set_staging_same m : set_staging m (staging m) = m.
Proof. now destruct m. Qed.

Lemma set_map_same m : set_map m (map m) = m.
Proof. now destruct m. Qed.

Lemma need_upload_set_upload m :
  need_upload (mem_flag_set m GST_D3D11_MEMORY_TRANSFER_NEED_UPLOAD) = true.
Proof. unfold need_upload. flag_bits. simpl. apply orb_true_r. Qed.

Lemma need_upload_unset_upload m :
  need_upload (mem_flag_unset m GST_D3D11_MEMORY_TRANSFER_NEED_UPLOAD) = false.
Proof. unfold need_upload. flag_bits. simpl. apply andb_false_r. Qed.

Lemma need_upload_set_download m :
  need_upload (mem_flag_set m GST_D3D11_MEMORY_TRANSFER_NEED_DOWNLOAD)
  = need_upload m.
Proof. unfold need_upload. flag_bits. simpl. apply orb_false_r. Qed.

Lemma need_upload_unset_download m :
  need_upload (mem_flag_unset m GST_D3D11_MEMORY_TRANSFER_NEED_DOWNLOAD)
  = need_upload m.
Proof. unfold need_upload. flag_bits. simpl. apply andb_true_r. Qed.

Lemma need_download_set_download m :
  need_download (mem_flag_set m GST_D3D11_MEMORY_TRANSFER_NEED_DOWNLOAD) = true.
Proof. unfold need_download. flag_bits. simpl. apply orb_true_r. Qed.

Lemma need_download_unset_download m :
  need_download (mem_flag_unset m GST_D3D11_MEMORY_TRANSFER_NEED_DOWNLOAD)
  = false.
Proof. unfold need_download. flag_bits. simpl. apply andb_false_r. Qed.

Lemma need_download_set_upload m :
  need_download (mem_flag_set m GST_D3D11_MEMORY_TRANSFER_NEED_UPLOAD)
  = need_download m.
Proof. unfold need_download. flag_bits. simpl. apply orb_false_r. Qed.

Lemma need_download_unset_upload m :
  need_download (mem_flag_unset m GST_D3D11_MEMORY_TRANSFER_NEED_UPLOAD)
  = need_download m.
Proof. unfold need_download. flag_bits. simpl. apply andb_true_r. Qed.

Lemma need_upload_set_count m n :
  need_upload (set_cpu_map_count m n) = need_upload m.
Proof. reflexivity. Qed.

Lemma need_download_set_count m n :
  need_download (set_cpu_map_count m n) = need_download m.
Proof. reflexivity. Qed.

(** *** Map and unmap in closed form *)

(** The GPU-direct branch of [gst_d3d11_memory_map] in closed form. *)
Lemma gpu_map_closed_form dev dmem flags t :
  is_staging (type dmem) = false ->
  has_flags flags GST_MAP_D3D11 = true ->
  texture dmem = Some t ->
  exists dev' dmem',
    gst_d3d11_memory_map dev dmem flags = Some (Some t, dev', dmem')
    /\ calls dev' =
       calls dev ++
         (if non_null (staging dmem) && need_upload dmem
          then [CopySubresourceRegion (Some t) (subresource_index dmem)
                  (staging dmem) 0]
          else [])
    /\ need_upload dmem' = false
    /\ need_download dmem'
       = (has_flags flags GST_MAP_WRITE || need_download dmem)
    /\ cpu_map_count dmem' = cpu_map_count dmem
    /\ staging dmem' = staging dmem
    /\ texture dmem' = texture dmem
    /\ type dmem' = type dmem.
Proof.
  intros Hty Hgpu Htex. unfold gst_d3d11_memory_map.
  rewrite Hty, Hgpu. fold (need_upload dmem).
  set (dev1 := if non_null (staging dmem) && need_upload dmem then _ else dev).
  set (dmem2 := if has_flags flags GST_MAP_WRITE then _ else _).
  assert (Ht2 : texture dmem2 = Some t).
  { subst dmem2. destruct (has_flags flags GST_MAP_WRITE); exact Htex. }
  rewrite Ht2. exists dev1, dmem2. split; [reflexivity|].
  split.
  { subst dev1. rewrite Htex.
    destruct (non_null (staging dmem) && need_upload dmem); simpl;
      [reflexivity | now rewrite app_nil_r]. }
  subst dmem2.
  destruct (has_flags flags GST_MAP_WRITE); repeat split;
    rewrite ?need_upload_set_download, ?need_upload_unset_upload,
      ?need_download_set_download, ?need_download_unset_upload;
    reflexivity.
Qed.

Lemma cpu_unmap_mem_facts info_flags m :
  cpu_map_count (cpu_unmap_mem info_flags m) = wrap_gint (cpu_map_count m - 1)
  /\ need_download (cpu_unmap_mem info_flags m) = need_download m
  /\ need_upload (cpu_unmap_mem info_flags m)
     = (has_flags info_flags GST_MAP_WRITE || need_upload m)
  /\ staging (cpu_unmap_mem info_flags m) = staging m
  /\ texture (cpu_unmap_mem info_flags m) = texture m
  /\ type (cpu_unmap_mem info_flags m) = type m
  /\ subresource_index (cpu_unmap_mem info_flags m) = subresource_index m.
Proof.
  unfold cpu_unmap_mem. cbv zeta.
  destruct (has_flags info_flags GST_MAP_WRITE); repeat split;
    rewrite ?need_download_set_count, ?need_upload_set_count,
      ?need_download_set_upload, ?need_upload_set_upload; reflexivity.
Qed.

(** The CPU branch of [gst_d3d11_memory_unmap_full] in closed form. *)
Lemma cpu_unmap_closed_form dev dmem info_flags :
  is_staging (type dmem) = false ->
  has_flags info_flags GST_MAP_D3D11 = false ->
  gst_d3d11_memory_unmap_full dev dmem info_flags =
  (if 0 <? wrap_gint (cpu_map_count dmem - 1) then dev
   else log_call dev (Unmap (staging dmem) 0),
   cpu_unmap_mem info_flags dmem).
Proof.
  intros Hty Hcpu. unfold gst_d3d11_memory_unmap_full.
  rewrite Hty, Hcpu. cbn [negb andb].
  replace (negb (Z.land info_flags GST_MAP_WRITE =? 0))
    with (has_flags info_flags GST_MAP_WRITE) by (now flag_bits).
  cbv zeta. fold (cpu_unmap_mem info_flags dmem).
  destruct (cpu_unmap_mem_facts info_flags dmem)
    as (-> & _ & _ & Hs & _ & Ht & _).
  destruct (0 <? wrap_gint (cpu_map_count dmem - 1)); [reflexivity|].
  unfold unmap_cpu_access_data, ID3D11DeviceContext_Unmap.
  now rewrite Ht, Hty, Hs.
Qed.

Lemma cpu_map_tail_facts flags m :
  cpu_map_count (cpu_map_tail flags m) = wrap_gint (cpu_map_count m + 1)
  /\ need_download (cpu_map_tail flags m) = false
  /\ need_upload (cpu_map_tail flags m)
     = (has_flags flags GST_MAP_WRITE || need_upload m)
  /\ staging (cpu_map_tail flags m) = staging m
  /\ texture (cpu_map_tail flags m) = texture m
  /\ type (cpu_map_tail flags m) = type m
  /\ subresource_index (cpu_map_tail flags m) = subresource_index m
  /\ map (cpu_map_tail flags m) = map m.
Proof.
  unfold cpu_map_tail. cbv zeta.
  destruct (has_flags flags GST_MAP_WRITE); repeat split;
    rewrite ?need_download_set_count, ?need_upload_set_count,
      ?need_download_unset_download, ?need_upload_unset_download,
      ?need_upload_set_upload; reflexivity.
Qed.

Lemma next_hresult_log dev c : next_hresult (log_call dev c) = next_hresult dev.
Proof. reflexivity. Qed.

Lemma map_cpu_access_data_hw dev m flags ty :
  (let '(ok, dev2, m2) := map_cpu_access_data dev m ty in
   if negb ok then Some (None, dev2, m2)
   else Some (pData (map (cpu_map_tail flags m2)), dev2, cpu_map_tail flags m2))
  = cpu_map_hw dev m flags ty.
Proof.
  unfold map_cpu_access_data, cpu_map_hw, ID3D11DeviceContext_Map,
    ID3D11DeviceContext_CopySubresourceRegion, need_download.
  destruct (mem_flag_is_set m GST_D3D11_MEMORY_TRANSFER_NEED_DOWNLOAD);
    cbv zeta; rewrite ?next_hresult_log;
    destruct (gst_d3d11_result (next_hresult dev)) eqn:E;
    cbv beta iota; rewrite ?next_hresult_log, ?E; cbn [negb];
    rewrite ?set_map_same; try reflexivity;
    cbn [mapping log_call];
    destruct (cpu_map_tail_facts flags (set_map m (mapping dev (staging m))))
      as (_ & _ & _ & _ & _ & _ & _ & ->); reflexivity.
Qed.

(** The CPU branch of [gst_d3d11_memory_map] in closed form. *)
Lemma cpu_map_closed_form dev dmem flags ty :
  is_staging (type dmem) = false ->
  has_flags flags GST_MAP_D3D11 = false ->
  gst_map_flags_to_d3d11 flags = Some ty ->
  gst_d3d11_memory_map dev dmem flags =
  if cpu_map_count dmem =? 0 then
    match staging dmem with
    | Some _ => cpu_map_hw dev dmem flags ty
    | None =>
        let hr := next_hresult dev in
        let dev1 :=
          log_call (consume_hresult dev)
            (CreateTexture2D
               {| Width := Width (desc dmem); Height := Height (desc dmem);
                  MipLevels := 1; ArraySize := 1;
                  Format := Format (desc dmem); SampleDesc_Count := 1;
                  SampleDesc_Quality := 0; Usage := D3D11_USAGE_STAGING;
                  BindFlags := 0;
                  CPUAccessFlags :=
                    Z.lor D3D11_CPU_ACCESS_READ D3D11_CPU_ACCESS_WRITE;
                  MiscFlags := 0 |} hr) in
        if gst_d3d11_result hr then
          cpu_map_hw
            {| hresults := hresults dev1; next_handle := next_handle dev + 1;
               mapping := mapping dev; calls := calls dev1 |}
            (mem_flag_set (set_staging dmem (Some (next_handle dev)))
               GST_D3D11_MEMORY_TRANSFER_NEED_DOWNLOAD)
            flags ty
        else Some (None, dev1, dmem)
    end
  else Some (pData (map dmem), dev, cpu_map_tail flags dmem).
Proof.
  intros Hty Hcpu Hmt. unfold gst_d3d11_memory_map.
  rewrite Hty, Hcpu, Hmt.
  destruct (cpu_map_count dmem =? 0).
  - destruct (staging dmem) as [s|] eqn:Hs.
    + apply map_cpu_access_data_hw.
    + unfold create_staging_texture, ID3D11Device_CreateTexture2D. cbv zeta.
      destruct (gst_d3d11_result (next_hresult dev)) eqn:E;
        cbv beta iota; rewrite ?E; cbn [negb].
      * apply (map_cpu_access_data_hw _ _ flags ty).
      * rewrite <- Hs, set_staging_same. reflexivity.
  - destruct (cpu_map_tail_facts flags dmem)
      as (_ & _ & _ & _ & _ & _ & _ & E).
    rewrite <- E. reflexivity.
Qed.


Lemma wrap_gint_small z : - 2 ^ 31 <= z < 2 ^ 31 -> wrap_gint z = z.
Proof. intros H. unfold wrap_gint. rewrite Z.mod_small; lia. Qed.

(** *** CPU map: failure and success *)




(** *** Nested CPU maps *)

Lemma driver_succeeds_next dev :
  driver_succeeds dev -> gst_d3d11_result (next_hresult dev) = true.
Proof.
  unfold driver_succeeds, next_hresult.
  destruct (hresults dev); [reflexivity|]. now inversion 1.
Qed.

Lemma driver_succeeds_tl dev n m cs :
  driver_succeeds dev ->
  driver_succeeds
    {| hresults := tl (hresults dev); next_handle := n; mapping := m;
       calls := cs |}.
Proof.
  unfold driver_succeeds. cbn [hresults].
  destruct (hresults dev); cbn [tl]; [auto|]. now inversion 1.
Qed.

Lemma cpu_map_hw_succeeds dev m flags ty :
  driver_succeeds dev ->
  exists dev1,
    cpu_map_hw dev m flags ty
    = Some (pData (mapping dev (staging m)), dev1,
            cpu_map_tail flags (set_map m (mapping dev (staging m))))
    /\ hw_map_calls dev1
       = hw_map_calls dev ++ [Map (staging m) 0 ty (next_hresult dev)]
    /\ mapping dev1 = mapping dev.
Proof.
  intros Hok. unfold cpu_map_hw. cbv zeta.
  rewrite (driver_succeeds_next dev Hok).
  eexists. split; [reflexivity|]. split; [|now destruct (need_download m)].
  unfold hw_map_calls.
  destruct (need_download m); cbn [calls log_call consume_hresult];
    rewrite !List.filter_app; cbn [List.filter is_map_or_unmap];
    now rewrite ?app_nil_r.
Qed.

(** A first CPU map under a driver that does not fail: one hardware
    [Map], on the staging texture, and the tail of the call. *)
Lemma first_cpu_map_succeeds dev dmem flags ty :
  is_staging (type dmem) = false ->
  cpu_map_count dmem = 0 ->
  has_flags flags GST_MAP_D3D11 = false ->
  gst_map_flags_to_d3d11 flags = Some ty ->
  driver_succeeds dev ->
  exists p1 dev1 m0 hr,
    gst_d3d11_memory_map dev dmem flags
    = Some (p1, dev1, cpu_map_tail flags m0)
    /\ hw_map_calls dev1 = hw_map_calls dev ++ [Map (staging m0) 0 ty hr]
    /\ staging m0 <> None
    /\ type m0 = type dmem
    /\ cpu_map_count m0 = 0.
Proof.
  intros Hty Hc0 Hf Ht Hok.
  rewrite (cpu_map_closed_form dev dmem flags ty Hty Hf Ht), Hc0.
  cbn [Z.eqb].
  destruct (staging dmem) as [s|] eqn:Hs.
  - destruct (cpu_map_hw_succeeds dev dmem flags ty Hok) as (dev1 & E & Hc & _).
    rewrite E. eexists _, _, _, _. split; [reflexivity|].
    mem_simpl. rewrite Hs in *. split; [exact Hc|]. now repeat split.
  - cbv zeta. rewrite (driver_succeeds_next dev Hok).
    match goal with
    | |- context [cpu_map_hw ?d ?m flags ty] =>
        destruct (cpu_map_hw_succeeds d m flags ty) as (dev1 & E & Hc & _);
          [apply driver_succeeds_tl, Hok | rewrite E]
    end.
    eexists _, _, _, _. split; [reflexivity|].
    mem_simpl. split; [|now repeat split].
    rewrite Hc. unfold hw_map_calls. cbn [calls].
    rewrite List.filter_app. cbn [List.filter is_map_or_unmap].
    now rewrite app_nil_r.
Qed.

(** C6: from a map counter of 0, two nested CPU maps followed by two unmaps
    make exactly one hardware [Map] call, on the first map (counter 0 to 1),
    and exactly one hardware [Unmap] call, on the last unmap (counter 1 to
    0), in that order; the two calls in between touch no hardware and only
    move the counter (1 to 2, 2 to 1). *)
Theorem nested_cpu_map_single_hardware_map dev dmem f1 f2 u1 u2 ty1 ty2 :
  is_staging (type dmem) = false ->
  cpu_map_count dmem = 0 ->
  has_flags f1 GST_MAP_D3D11 = false ->
  has_flags f2 GST_MAP_D3D11 = false ->
  has_flags u1 GST_MAP_D3D11 = false ->
  has_flags u2 GST_MAP_D3D11 = false ->
  gst_map_flags_to_d3d11 f1 = Some ty1 ->
  gst_map_flags_to_d3d11 f2 = Some ty2 ->
  driver_succeeds dev ->
  exists p1 dev1 m1 p2 m2 m3 dev4 m4 st hr,
    gst_d3d11_memory_map dev dmem f1 = Some (p1, dev1, m1)
    /\ gst_d3d11_memory_map dev1 m1 f2 = Some (p2, dev1, m2)
    /\ gst_d3d11_memory_unmap_full dev1 m2 u1 = (dev1, m3)
    /\ gst_d3d11_memory_unmap_full dev1 m3 u2 = (dev4, m4)
    /\ hw_map_calls dev1 = hw_map_calls dev ++ [Map st 0 ty1 hr]
    /\ calls dev4 = calls dev1 ++ [Unmap st 0]
    /\ hw_map_calls dev4 = hw_map_calls dev ++ [Map st 0 ty1 hr; Unmap st 0]
    /\ st = staging m1 /\ st <> None
    /\ cpu_map_count m1 = 1 /\ cpu_map_count m2 = 2
    /\ cpu_map_count m3 = 1 /\ cpu_map_count m4 = 0.
Proof.
  intros Hty Hc0 Hf1 Hf2 Hu1 Hu2 Ht1 Ht2 Hok.
  destruct (first_cpu_map_succeeds dev dmem f1 ty1 Hty Hc0 Hf1 Ht1 Hok)
    as (p1 & dev1 & m0 & hr & E1 & Hcalls & Hst & Hty0 & Hc00).
  set (m1 := cpu_map_tail f1 m0) in *.
  destruct (cpu_map_tail_facts f1 m0)
    as (Hc1 & _ & _ & Hs1 & _ & Hty1 & _). fold m1 in Hc1, Hs1, Hty1.
  rewrite Hc00 in Hc1. change (wrap_gint (0 + 1)) with 1 in Hc1.
  assert (Hn1 : is_staging (type m1) = false) by now rewrite Hty1, Hty0.
  (* second map *)
  pose proof (cpu_map_closed_form dev1 m1 f2 ty2 Hn1 Hf2 Ht2) as E2.
  rewrite Hc1 in E2. cbn [Z.eqb Pos.eqb] in E2.
  set (m2 := cpu_map_tail f2 m1) in *.
  destruct (cpu_map_tail_facts f2 m1)
    as (Hc2 & _ & _ & Hs2 & _ & Hty2 & _). fold m2 in Hc2, Hs2, Hty2.
  rewrite Hc1 in Hc2. change (wrap_gint (1 + 1)) with 2 in Hc2.
  assert (Hn2 : is_staging (type m2) = false) by now rewrite Hty2.
  (* first unmap *)
  pose proof (cpu_unmap_closed_form dev1 m2 u1 Hn2 Hu1) as E3.
  rewrite Hc2 in E3. change (0 <? wrap_gint (2 - 1)) with true in E3.
  cbv iota in E3.
  set (m3 := cpu_unmap_mem u1 m2) in *.
  destruct (cpu_unmap_mem_facts u1 m2)
    as (Hc3 & _ & _ & Hs3 & _ & Hty3 & _). fold m3 in Hc3, Hs3, Hty3.
  rewrite Hc2 in Hc3. change (wrap_gint (2 - 1)) with 1 in Hc3.
  assert (Hn3 : is_staging (type m3) = false) by now rewrite Hty3.
  (* second unmap *)
  pose proof (cpu_unmap_closed_form dev1 m3 u2 Hn3 Hu2) as E4.
  rewrite Hc3 in E4. change (0 <? wrap_gint (1 - 1)) with false in E4.
  cbv iota in E4.
  destruct (cpu_unmap_mem_facts u2 m3) as (Hc4 & _).
  rewrite Hc3 in Hc4. change (wrap_gint (1 - 1)) with 0 in Hc4.
  rewrite Hs3, Hs2 in E4.
  exists p1, dev1, m1, (pData (map m1)), m2, m3,
    (log_call dev1 (Unmap (staging m1) 0)), (cpu_unmap_mem u2 m3),
    (staging m1), hr.
  rewrite <- Hs1 in Hcalls, Hst.
  repeat split; try assumption; try reflexivity.
  unfold hw_map_calls in *. cbn [calls log_call].
  rewrite List.filter_app, Hcalls. cbn [List.filter is_map_or_unmap].
  now rewrite <- app_assoc.
Qed.

Lemma nested_cpu_map_single_hardware_map_witness :
  is_staging (type sample_memory) = false
  /\ cpu_map_count sample_memory = 0
  /\ has_flags GST_MAP_READ GST_MAP_D3D11 = false
  /\ has_flags GST_MAP_READWRITE GST_MAP_D3D11 = false
  /\ gst_map_flags_to_d3d11 GST_MAP_READ = Some D3D11_MAP_READ
  /\ gst_map_flags_to_d3d11 GST_MAP_READWRITE = Some D3D11_MAP_READ_WRITE
  /\ driver_succeeds working_device
  /\ exists p1 dev1 m1 p2 m2 m3 dev4 m4 st hr,
       gst_d3d11_memory_map working_device sample_memory GST_MAP_READ
       = Some (p1, dev1, m1)
       /\ gst_d3d11_memory_map dev1 m1 GST_MAP_READWRITE = Some (p2, dev1, m2)
       /\ gst_d3d11_memory_unmap_full dev1 m2 GST_MAP_READWRITE = (dev1, m3)
       /\ gst_d3d11_memory_unmap_full dev1 m3 GST_MAP_READ = (dev4, m4)
       /\ hw_map_calls dev1
          = hw_map_calls working_device ++ [Map st 0 D3D11_MAP_READ hr]
       /\ calls dev4 = calls dev1 ++ [Unmap st 0]
       /\ hw_map_calls dev4
          = hw_map_calls working_device
            ++ [Map st 0 D3D11_MAP_READ hr; Unmap st 0]
       /\ st = staging m1 /\ st <> None
       /\ cpu_map_count m1 = 1 /\ cpu_map_count m2 = 2
       /\ cpu_map_count m3 = 1 /\ cpu_map_count m4 = 0.
Proof.
  do 6 (split; [reflexivity|]).
  split; [constructor|].
  apply (nested_cpu_map_single_hardware_map working_device sample_memory
           GST_MAP_READ GST_MAP_READWRITE GST_MAP_READWRITE GST_MAP_READ
           D3D11_MAP_READ D3D11_MAP_READ_WRITE);
    try reflexivity; constructor.
Defined.

(** *** GPU-direct map after a CPU write *)

(** C1: for a non-staging object, a map with [GST_MAP_D3D11] makes one
    [CopySubresourceRegion] from the staging texture into the texture exactly
    when a staging texture exists and the pending flag that a CPU write
    leaves set ([GST_D3D11_MEMORY_TRANSFER_NEED_UPLOAD]) is set, and no
    native call otherwise; it clears that flag and returns the texture
    handle, and leaves the map counter and the staging texture alone.  After
    the unmap of a CPU write on an object that has a staging texture the flag
    is set, and the GPU-direct map that follows makes exactly that one
    copy and clears it. *)
Theorem gpu_map_uploads_after_cpu_write dev dmem flags t :
  is_staging (type dmem) = false ->
  has_flags flags GST_MAP_D3D11 = true ->
  texture dmem = Some t ->
  (exists dev' dmem',
      gst_d3d11_memory_map dev dmem flags = Some (Some t, dev', dmem')
      /\ calls dev' =
         calls dev ++
           (if non_null (staging dmem) && need_upload dmem
            then [CopySubresourceRegion (Some t) (subresource_index dmem)
                    (staging dmem) 0]
            else [])
      /\ need_upload dmem' = false
      /\ cpu_map_count dmem' = cpu_map_count dmem
      /\ staging dmem' = staging dmem)
  /\ (forall wflags s,
         has_flags wflags GST_MAP_D3D11 = false ->
         has_flags wflags GST_MAP_WRITE = true ->
         staging dmem = Some s ->
         exists dev1 m1 dev2 m2,
           gst_d3d11_memory_unmap_full dev dmem wflags = (dev1, m1)
           /\ need_upload m1 = true
           /\ gst_d3d11_memory_map dev1 m1 flags = Some (Some t, dev2, m2)
           /\ calls dev2 =
              calls dev1 ++
                [CopySubresourceRegion (Some t) (subresource_index dmem)
                   (Some s) 0]
           /\ need_upload m2 = false).
Proof.
  intros Hty Hgpu Htex. split.
  - destruct (gpu_map_closed_form dev dmem flags t Hty Hgpu Htex)
      as (dev' & dmem' & E & Hc & Hu & _ & Hn & Hs & _).
    now exists dev', dmem'.
  - intros wflags s Hw1 Hw2 Hs.
    rewrite (cpu_unmap_closed_form dev dmem wflags Hty Hw1).
    set (dev1 := if 0 <? _ then dev else _).
    set (m1 := cpu_unmap_mem wflags dmem).
    destruct (cpu_unmap_mem_facts wflags dmem)
      as (_ & _ & Hu1 & Hs1 & Ht1 & Hty1 & Hi1).
    fold m1 in Hu1, Hs1, Ht1, Hty1, Hi1. rewrite Hw2 in Hu1. cbn [orb] in Hu1.
    destruct (gpu_map_closed_form dev1 m1 flags t) as
      (dev2 & m2 & E & Hc & Hu & _); [congruence..|].
    exists dev1, m1, dev2, m2. repeat split; try assumption.
    rewrite Hc, Hu1, Hs1, Hs, Hi1. reflexivity.
Qed.

Lemma gpu_map_uploads_after_cpu_write_witness :
  is_staging (type written_memory) = false
  /\ has_flags GST_MAP_D3D11 GST_MAP_D3D11 = true
  /\ texture written_memory = Some 7
  /\ (exists dev' dmem',
         gst_d3d11_memory_map working_device written_memory GST_MAP_D3D11
         = Some (Some 7, dev', dmem')
         /\ calls dev' =
            calls working_device ++
              (if non_null (staging written_memory)
                  && need_upload written_memory
               then [CopySubresourceRegion (Some 7)
                       (subresource_index written_memory)
                       (staging written_memory) 0]
               else [])
         /\ need_upload dmem' = false
         /\ cpu_map_count dmem' = cpu_map_count written_memory
         /\ staging dmem' = staging written_memory)
  /\ (forall wflags s,
         has_flags wflags GST_MAP_D3D11 = false ->
         has_flags wflags GST_MAP_WRITE = true ->
         staging written_memory = Some s ->
         exists dev1 m1 dev2 m2,
           gst_d3d11_memory_unmap_full working_device written_memory wflags
           = (dev1, m1)
           /\ need_upload m1 = true
           /\ gst_d3d11_memory_map dev1 m1 GST_MAP_D3D11
              = Some (Some 7, dev2, m2)
           /\ calls dev2 =
              calls dev1 ++
                [CopySubresourceRegion (Some 7)
                   (subresource_index written_memory) (Some s) 0]
           /\ need_upload m2 = false).
Proof.
  do 3 (split; [reflexivity|]).
  apply (gpu_map_uploads_after_cpu_write working_device written_memory
           GST_MAP_D3D11 7); reflexivity.
Defined.

(** *** Unmap of a CPU write *)

(** C7, as the code has it: the unmap of a CPU mapping with write intent
    on a non-staging object sets the pending-upload flag, leaves the
    pending-download flag as it was (the CPU map clears it, the unmap does
    not touch it), and takes one off the map counter; the hardware [Unmap] is
    called exactly when the new counter is not positive, which for a counter
    of at least 1 before the call means: when it reaches 0. *)
Theorem cpu_write_unmap_effects dev dmem info_flags :
  is_staging (type dmem) = false ->
  has_flags info_flags GST_MAP_D3D11 = false ->
  has_flags info_flags GST_MAP_WRITE = true ->
  exists dev' dmem',
    gst_d3d11_memory_unmap_full dev dmem info_flags = (dev', dmem')
    /\ need_upload dmem' = true
    /\ need_download dmem' = need_download dmem
    /\ cpu_map_count dmem' = wrap_gint (cpu_map_count dmem - 1)
    /\ calls dev' =
       calls dev ++
         (if 0 <? cpu_map_count dmem' then [] else [Unmap (staging dmem) 0])
    /\ (1 <= cpu_map_count dmem < 2 ^ 31 ->
        cpu_map_count dmem' = cpu_map_count dmem - 1
        /\ (cpu_map_count dmem' = 0 ->
            calls dev' = calls dev ++ [Unmap (staging dmem) 0])
        /\ (cpu_map_count dmem' <> 0 -> calls dev' = calls dev)).
Proof.
  intros Hty Hcpu Hw.
  rewrite (cpu_unmap_closed_form dev dmem info_flags Hty Hcpu).
  destruct (cpu_unmap_mem_facts info_flags dmem) as (Hc & Hd & Hu & _).
  rewrite Hw in Hu. eexists _, _. split; [reflexivity|].
  rewrite Hc.
  assert (Hcalls :
    calls (if 0 <? wrap_gint (cpu_map_count dmem - 1) then dev
           else log_call dev (Unmap (staging dmem) 0))
    = calls dev ++ (if 0 <? wrap_gint (cpu_map_count dmem - 1) then []
                    else [Unmap (staging dmem) 0])).
  { destruct (0 <? wrap_gint (cpu_map_count dmem - 1));
      [now rewrite app_nil_r | reflexivity]. }
  repeat split; try assumption.
  - rewrite wrap_gint_small by lia. reflexivity.
  - intros E0. rewrite Hcalls, E0. reflexivity.
  - intros Hne. rewrite Hcalls.
    rewrite wrap_gint_small in * by lia.
    destruct (Z.ltb_spec 0 (cpu_map_count dmem - 1));
      [now rewrite app_nil_r | lia].
Qed.

Lemma cpu_write_unmap_effects_witness :
  is_staging (type mapped_memory) = false
  /\ has_flags GST_MAP_WRITE GST_MAP_D3D11 = false
  /\ has_flags GST_MAP_WRITE GST_MAP_WRITE = true
  /\ exists dev' dmem',
       gst_d3d11_memory_unmap_full working_device mapped_memory GST_MAP_WRITE
       = (dev', dmem')
       /\ need_upload dmem' = true
       /\ need_download dmem' = need_download mapped_memory
       /\ cpu_map_count dmem' = wrap_gint (cpu_map_count mapped_memory - 1)
       /\ calls dev' =
          calls working_device ++
            (if 0 <? cpu_map_count dmem' then []
             else [Unmap (staging mapped_memory) 0])
       /\ (1 <= cpu_map_count mapped_memory < 2 ^ 31 ->
           cpu_map_count dmem' = cpu_map_count mapped_memory - 1
           /\ (cpu_map_count dmem' = 0 ->
               calls dev' =
               calls working_device ++ [Unmap (staging mapped_memory) 0])
           /\ (cpu_map_count dmem' <> 0 ->
               calls dev' = calls working_device)).
Proof.
  do 3 (split; [reflexivity|]).
  apply (cpu_write_unmap_effects working_device mapped_memory GST_MAP_WRITE);
    reflexivity.
Defined.

(** C7 as stated fails: map for a CPU write, take a GPU-direct write
    mapping meanwhile (which sets the pending-download flag), then unmap the
    CPU write: the pending-download flag is still set after the unmap. *)
Lemma cpu_write_unmap_keeps_need_download :
  exists dev1 m1 dev2 m2 dev3 m3,
    gst_d3d11_memory_map working_device sample_memory GST_MAP_WRITE
    = Some (Some 4096, dev1, m1)
    /\ gst_d3d11_memory_map dev1 m1 (Z.lor GST_MAP_D3D11 GST_MAP_WRITE)
       = Some (Some 7, dev2, m2)
    /\ gst_d3d11_memory_unmap_full dev2 m2 GST_MAP_WRITE = (dev3, m3)
    /\ is_staging (type m2) = false
    /\ need_download m2 = true
    /\ need_download m3 = true
    /\ need_upload m3 = true.
Proof.
  eexists _, _, _, _, _, _.
  split; [vm_compute; reflexivity|].
  split; [vm_compute; reflexivity|].
  split; [vm_compute; reflexivity|].
  repeat split.
Qed.

(** *** Sharing *)

(** C10: [gst_d3d11_memory_share], which [gst_d3d11_allocator_init]
    installs as the [mem_share] slot of the allocator, returns [NULL] for
    every object, offset and size, and leaves the object as it is. *)
Theorem memory_share_unsupported (mem : GstD3D11Memory) (offset size : Z) :
  gst_d3d11_memory_share mem offset size = (None, mem)
  /\ mem_share gst_d3d11_allocator_init mem offset size = (None, mem).
Proof. split; reflexivity. Qed.

(** *** Slot allocation *)

Lemma scan_from_finds arr n : forall i k,
  (i <= k < i + n)%nat ->
  arr !! k = Some 0 ->
  (forall j, (i <= j < k)%nat -> exists v, arr !! j = Some v /\ v <> 0) ->
  scan_from arr i n = ScanFound k.
Proof.
  induction n as [|n IH]; intros i k Hk Hfree Hused; [lia|].
  cbn [scan_from].
  destruct (decide (i = k)) as [->|Hne].
  - rewrite Hfree. reflexivity.
  - destruct (Hused i) as (v & Hv & Hnz); [lia|].
    rewrite Hv. destruct (Z.eqb_spec v 0); [contradiction|].
    apply IH; [lia|assumption|]. intros j Hj. apply Hused. lia.
Qed.

Lemma scan_from_full arr n : forall i,
  (forall j, (i <= j < i + n)%nat -> exists v, arr !! j = Some v /\ v <> 0) ->
  scan_from arr i n = ScanFull.
Proof.
  induction n as [|n IH]; intros i Hused; [reflexivity|].
  cbn [scan_from].
  destruct (Hused i) as (v & Hv & Hnz); [lia|].
  rewrite Hv. destruct (Z.eqb_spec v 0); [contradiction|].
  apply IH. intros j Hj. apply Hused. lia.
Qed.

Lemma hresults_release_if dev h : hresults (release_if dev h) = hresults dev.
Proof. now destruct h. Qed.

Lemma next_handle_release_if dev h :
  next_handle (release_if dev h) = next_handle dev.
Proof. now destruct h. Qed.

Lemma hresults_release_views vs : forall dev,
  hresults
    (fold_left (fun dv rs => release_if (release_if dv (fst rs)) (snd rs))
       vs dev) = hresults dev.
Proof.
  induction vs as [|v vs IH]; intros dev; [reflexivity|].
  cbn [fold_left]. now rewrite IH, !hresults_release_if.
Qed.

(** [gst_d3d11_allocator_free] on an allocator that has its bitmap. *)
Lemma free_with_bitmap p dev dmem arr :
  array_in_use p = Some arr ->
  (Z.to_nat (subresource_index dmem) < length arr)%nat ->
  exists dev',
    gst_d3d11_allocator_free p dev dmem =
    Some (set_cond
            (set_in_use p (<[Z.to_nat (subresource_index dmem):=0]> arr)
               (wrap_guint (num_array_textures_in_use p - 1)))
            (g_cond_broadcast (cond p)), dev')
    /\ next_hresult dev' = next_hresult dev.
Proof.
  intros Harr Hlt. unfold gst_d3d11_allocator_free. rewrite Harr.
  rewrite bool_decide_eq_true_2 by exact Hlt.
  eexists. split; [reflexivity|].
  unfold next_hresult.
  now rewrite !hresults_release_if, hresults_release_views.
Qed.

(** [gst_d3d11_allocator_free] on an allocator without a bitmap. *)
Lemma free_without_bitmap p dev dmem :
  array_in_use p = None ->
  exists dev', gst_d3d11_allocator_free p dev dmem = Some (p, dev').
Proof.
  intros Harr. unfold gst_d3d11_allocator_free. rewrite Harr.
  eexists. reflexivity.
Qed.

Lemma array_alloc_takes_lowest p dev tid d flags size k :
  0 < size ->
  Z.land flags GST_D3D11_ALLOCATION_FLAG_TEXTURE_ARRAY <> 0 ->
  flushing p = false ->
  lowest_free (bitmap_at_scan p d) k ->
  (k < Z.to_nat (ArraySize d))%nat ->
  (parent_texture p = None -> gst_d3d11_result (next_hresult dev) = true) ->
  exists mem p' dev',
    gst_d3d11_allocator_alloc p dev tid d flags size = (AllocMem mem, p', dev')
    /\ subresource_index mem = Z.of_nat k
    /\ type mem = GST_D3D11_MEMORY_TYPE_ARRAY
    /\ texture mem = parent_texture p'
    /\ parent_texture p' <> None
    /\ array_in_use p' = Some (<[k:=1]> (bitmap_at_scan p d))
    /\ num_array_textures_in_use p'
       = wrap_guint (num_array_textures_in_use p + 1)
    /\ cond p' = cond p
    /\ flushing p' = false.
Proof.
  intros Hsize Hflag Hfl (Hfree & Hused) Hk Htex.
  unfold gst_d3d11_allocator_alloc.
  destruct (Z.ltb_spec 0 size) as [_|]; [|lia]. cbn [negb].
  destruct (Z.eqb_spec (Z.land flags GST_D3D11_ALLOCATION_FLAG_TEXTURE_ARRAY) 0)
    as [|_]; [contradiction|]. cbn [negb].
  unfold alloc_locked. rewrite Hfl.
  rewrite (scan_from_finds _ _ 0%nat k); [|lia|exact Hfree|].
  2:{ intros j Hj. apply Hused. lia. }
  set (p1 := match array_in_use p with None => _ | Some _ => p end).
  assert (Hp1 : parent_texture p1 = parent_texture p
                /\ num_array_textures_in_use p1 = num_array_textures_in_use p
                /\ cond p1 = cond p /\ flushing p1 = flushing p).
  { subst p1. destruct (array_in_use p); repeat split. }
  destruct Hp1 as (Hpt & Hnum & Hcond & Hflush).
  cbn [parent_texture set_in_use]. rewrite Hpt.
  destruct (parent_texture p) as [t|] eqn:Hparent.
  - eexists _, _, _. split; [reflexivity|].
    cbn. rewrite Hnum, Hcond, Hflush, Hpt. repeat split; congruence.
  - unfold ID3D11Device_CreateTexture2D. cbv zeta.
    rewrite (Htex eq_refl). cbv beta iota. rewrite (Htex eq_refl).
    cbn [negb].
    eexists _, _, _. split; [reflexivity|].
    cbn. rewrite Hnum, Hcond, Hflush. repeat split; congruence.
Qed.

Lemma scan_from_found_inv arr n : forall i k,
  scan_from arr i n = ScanFound k ->
  (i <= k < i + n)%nat
  /\ arr !! k = Some 0
  /\ forall j, (i <= j < k)%nat -> exists v, arr !! j = Some v /\ v <> 0.
Proof.
  induction n as [|n IH]; intros i k Hscan; cbn [scan_from] in Hscan;
    [discriminate|].
  destruct (arr !! i) as [v|] eqn:Hv; [|discriminate].
  destruct (Z.eqb_spec v 0) as [->|Hnz].
  - inversion Hscan; subst. repeat split; [lia..|exact Hv|]. intros j Hj. lia.
  - destruct (IH (S i) k Hscan) as (Hk & Hfree & Hused).
    repeat split; [lia..|exact Hfree|].
    intros j Hj. destruct (decide (j = i)) as [->|Hne].
    + exists v. now split.
    + apply Hused. lia.
Qed.

(** An array-mode call of [gst_d3d11_allocator_alloc] that returns a memory
    object took the lowest free index. *)
Lemma array_alloc_success_inv p dev tid d flags size mem p' dev' :
  Z.land flags GST_D3D11_ALLOCATION_FLAG_TEXTURE_ARRAY <> 0 ->
  gst_d3d11_allocator_alloc p dev tid d flags size = (AllocMem mem, p', dev') ->
  exists k,
    subresource_index mem = Z.of_nat k
    /\ lowest_free (bitmap_at_scan p d) k
    /\ (k < Z.to_nat (ArraySize d))%nat
    /\ flushing p = false.
Proof.
  intros Hflag. unfold gst_d3d11_allocator_alloc.
  destruct (negb (0 <? size)); [discriminate|].
  destruct (Z.eqb_spec (Z.land flags GST_D3D11_ALLOCATION_FLAG_TEXTURE_ARRAY) 0)
    as [|_]; [contradiction|]. cbn [negb].
  unfold alloc_locked.
  destruct (flushing p); [discriminate|].
  destruct (scan_from (bitmap_at_scan p d) 0 (Z.to_nat (ArraySize d)))
    as [k| |] eqn:Hscan; try discriminate.
  destruct (scan_from_found_inv _ _ _ _ Hscan) as (Hk & Hfree & Hused).
  intros E. exists k.
  assert (Hidx : subresource_index mem = Z.of_nat k).
  { revert E. cbv zeta.
    match goal with
    | |- context [parent_texture ?q] => destruct (parent_texture q)
    end.
    - intros E; inversion E; reflexivity.
    - unfold ID3D11Device_CreateTexture2D. cbv zeta.
      destruct (gst_d3d11_result (next_hresult dev)) eqn:Hhr;
        cbv beta iota; rewrite ?Hhr; cbn [negb];
        intros E; inversion E; reflexivity. }
  repeat split; try assumption; try lia.
  intros j Hj. apply Hused. lia.
Qed.

(** The error path of the array branch: the slot found by the scan stays
    marked and counted when the parent texture cannot be created. *)
Lemma array_alloc_texture_failure p dev tid d flags size k :
  0 < size ->
  Z.land flags GST_D3D11_ALLOCATION_FLAG_TEXTURE_ARRAY <> 0 ->
  flushing p = false ->
  lowest_free (bitmap_at_scan p d) k ->
  (k < Z.to_nat (ArraySize d))%nat ->
  parent_texture p = None ->
  gst_d3d11_result (next_hresult dev) = false ->
  exists p' dev',
    gst_d3d11_allocator_alloc p dev tid d flags size = (AllocNULL, p', dev')
    /\ array_in_use p' = Some (<[k:=1]> (bitmap_at_scan p d))
    /\ num_array_textures_in_use p'
       = wrap_guint (num_array_textures_in_use p + 1).
Proof.
  intros Hsize Hflag Hfl (Hfree & Hused) Hk Hparent Hhr.
  unfold gst_d3d11_allocator_alloc.
  destruct (Z.ltb_spec 0 size) as [_|]; [|lia]. cbn [negb].
  destruct (Z.eqb_spec (Z.land flags GST_D3D11_ALLOCATION_FLAG_TEXTURE_ARRAY) 0)
    as [|_]; [contradiction|]. cbn [negb].
  unfold alloc_locked. rewrite Hfl.
  rewrite (scan_from_finds _ _ 0%nat k); [|lia|exact Hfree|].
  2:{ intros j Hj. apply Hused. lia. }
  set (p1 := match array_in_use p with None => _ | Some _ => p end).
  assert (Hp1 : parent_texture p1 = parent_texture p
                /\ num_array_textures_in_use p1 = num_array_textures_in_use p).
  { subst p1. destruct (array_in_use p); repeat split. }
  destruct Hp1 as (Hpt & Hnum).
  cbn [parent_texture set_in_use]. rewrite Hpt, Hparent.
  unfold ID3D11Device_CreateTexture2D. cbv zeta.
  rewrite Hhr. cbv beta iota. rewrite Hhr. cbn [negb].
  eexists _, _. split; [reflexivity|].
  cbn. rewrite Hnum. split; reflexivity.
Qed.

Lemma freed_slot_is_lowest (arr : list Z) (j : nat) :
  (forall i, (i < j)%nat -> exists v, arr !! i = Some v /\ v <> 0) ->
  (j < length arr)%nat ->
  lowest_free (<[j:=0]> arr) j.
Proof.
  intros Hlower Hj. split.
  - now apply list_lookup_insert_eq.
  - intros i Hi. rewrite list_lookup_insert_ne by lia. now apply Hlower.
Qed.

(** C8, as the code has it: an array-mode call that finds a free slot
    does not block and takes the lowest index whose bitmap entry is 0 at
    scan time: the returned object carries that index, the entry is set to
    1 and the in-use counter goes up by one.  Every array-mode call that
    returns an object took the lowest free index.  After a free of slot
    [j] while every lower slot is in use (so in particular when all slots
    were in use), the next array-mode call returns slot [j] again; after a
    free of slot [j] while a lower slot is free, it returns the lowest free
    slot, not [j]. *)
Theorem array_alloc_first_fit p dev tid d flags size :
  0 < size ->
  Z.land flags GST_D3D11_ALLOCATION_FLAG_TEXTURE_ARRAY <> 0 ->
  flushing p = false ->
  (parent_texture p = None -> gst_d3d11_result (next_hresult dev) = true) ->
  (forall k,
      lowest_free (bitmap_at_scan p d) k ->
      (k < Z.to_nat (ArraySize d))%nat ->
      exists mem p' dev',
        gst_d3d11_allocator_alloc p dev tid d flags size
        = (AllocMem mem, p', dev')
        /\ subresource_index mem = Z.of_nat k
        /\ type mem = GST_D3D11_MEMORY_TYPE_ARRAY
        /\ array_in_use p' = Some (<[k:=1]> (bitmap_at_scan p d))
        /\ num_array_textures_in_use p'
           = wrap_guint (num_array_textures_in_use p + 1)
        /\ (0 <= num_array_textures_in_use p < 2 ^ 32 - 1 ->
            num_array_textures_in_use p' = num_array_textures_in_use p + 1)
        /\ cond p' = cond p)
  /\ (forall mem p' dev',
         gst_d3d11_allocator_alloc p dev tid d flags size
         = (AllocMem mem, p', dev') ->
         exists k,
           subresource_index mem = Z.of_nat k
           /\ lowest_free (bitmap_at_scan p d) k
           /\ (k < Z.to_nat (ArraySize d))%nat
           /\ array_in_use p' = Some (<[k:=1]> (bitmap_at_scan p d)))
  /\ (forall arr dmem,
         array_in_use p = Some arr ->
         (forall i, (i < Z.to_nat (subresource_index dmem))%nat ->
                    exists v, arr !! i = Some v /\ v <> 0) ->
         0 <= subresource_index dmem < ArraySize d ->
         (Z.to_nat (subresource_index dmem) < length arr)%nat ->
         exists p1 dev1 mem p2 dev2,
           gst_d3d11_allocator_free p dev dmem = Some (p1, dev1)
           /\ gst_d3d11_allocator_alloc p1 dev1 tid d flags size
              = (AllocMem mem, p2, dev2)
           /\ subresource_index mem = subresource_index dmem)
  /\ (forall arr dmem k,
         array_in_use p = Some arr ->
         lowest_free arr k ->
         (k < Z.to_nat (subresource_index dmem))%nat ->
         0 <= subresource_index dmem < ArraySize d ->
         (Z.to_nat (subresource_index dmem) < length arr)%nat ->
         exists p1 dev1 mem p2 dev2,
           gst_d3d11_allocator_free p dev dmem = Some (p1, dev1)
           /\ gst_d3d11_allocator_alloc p1 dev1 tid d flags size
              = (AllocMem mem, p2, dev2)
           /\ subresource_index mem = Z.of_nat k
           /\ subresource_index mem < subresource_index dmem).
Proof.
  intros Hsize Hflag Hfl Htex. split; [|split; [|split]].
  - intros k Hlow Hk.
    destruct (array_alloc_takes_lowest p dev tid d flags size k)
      as (mem & p' & dev' & E & Hi & Hty & _ & _ & Harr & Hnum & Hcond & _);
      try assumption.
    exists mem, p', dev'. repeat split; try assumption.
    intros Hb. rewrite Hnum. unfold wrap_guint. apply Z.mod_small. lia.
  - intros mem p' dev' E.
    destruct (array_alloc_success_inv p dev tid d flags size mem p' dev'
                Hflag E) as (k & Hi & Hlow & Hk & _).
    exists k. repeat split; try assumption; try apply Hlow.
    destruct (array_alloc_takes_lowest p dev tid d flags size k)
      as (mem2 & p2 & dev2 & E2 & _ & _ & _ & _ & Harr & _);
      try assumption.
    rewrite E in E2. inversion E2; subst. exact Harr.
  - intros arr dmem Harr Hfull Hidx Hlen.
    destruct (free_with_bitmap p dev dmem arr Harr Hlen) as (dev1 & E & Hhr).
    set (j := Z.to_nat (subresource_index dmem)) in *.
    set (p1 := set_cond _ _) in E.
    destruct (array_alloc_takes_lowest p1 dev1 tid d flags size j)
      as (mem & p2 & dev2 & E2 & Hi & _); try assumption.
    + apply (freed_slot_is_lowest arr j Hfull Hlen).
    + subst j. lia.
    + intros Hp. rewrite Hhr. apply Htex. exact Hp.
    + exists p1, dev1, mem, p2, dev2. repeat split; try assumption.
      rewrite Hi. subst j. lia.
  - intros arr dmem k Harr [Hk0 Hklow] Hkj Hidx Hlen.
    destruct (free_with_bitmap p dev dmem arr Harr Hlen) as (dev1 & E & Hhr).
    set (j := Z.to_nat (subresource_index dmem)) in *.
    set (p1 := set_cond _ _) in E.
    destruct (array_alloc_takes_lowest p1 dev1 tid d flags size k)
      as (mem & p2 & dev2 & E2 & Hi & _); try assumption.
    + split.
      * cbn. rewrite list_lookup_insert_ne by lia. exact Hk0.
      * intros i Hi. cbn. rewrite list_lookup_insert_ne by lia.
        now apply Hklow.
    + subst j. lia.
    + intros Hp. rewrite Hhr. apply Htex. exact Hp.
    + exists p1, dev1, mem, p2, dev2. repeat split; try assumption.
      rewrite Hi. subst j. lia.
Qed.

Lemma array_alloc_first_fit_witness :
  0 < 16384
  /\ Z.land GST_D3D11_ALLOCATION_FLAG_TEXTURE_ARRAY
       GST_D3D11_ALLOCATION_FLAG_TEXTURE_ARRAY <> 0
  /\ flushing busy_allocator = false
  /\ (parent_texture busy_allocator = None ->
      gst_d3d11_result (next_hresult working_device) = true)
  /\ bitmap_at_scan busy_allocator (array_desc 3) = [1; 1; 0]
  /\ (forall k,
         lowest_free (bitmap_at_scan busy_allocator (array_desc 3)) k ->
         (k < Z.to_nat (ArraySize (array_desc 3)))%nat ->
         exists mem p' dev',
           gst_d3d11_allocator_alloc busy_allocator working_device 0%nat
             (array_desc 3) GST_D3D11_ALLOCATION_FLAG_TEXTURE_ARRAY 16384
           = (AllocMem mem, p', dev')
           /\ subresource_index mem = Z.of_nat k
           /\ type mem = GST_D3D11_MEMORY_TYPE_ARRAY
           /\ array_in_use p'
              = Some (<[k:=1]> (bitmap_at_scan busy_allocator (array_desc 3)))
           /\ num_array_textures_in_use p'
              = wrap_guint (num_array_textures_in_use busy_allocator + 1)
           /\ (0 <= num_array_textures_in_use busy_allocator < 2 ^ 32 - 1 ->
               num_array_textures_in_use p'
               = num_array_textures_in_use busy_allocator + 1)
           /\ cond p' = cond busy_allocator)
  /\ (forall mem p' dev',
         gst_d3d11_allocator_alloc busy_allocator working_device 0%nat
           (array_desc 3) GST_D3D11_ALLOCATION_FLAG_TEXTURE_ARRAY 16384
         = (AllocMem mem, p', dev') ->
         exists k,
           subresource_index mem = Z.of_nat k
           /\ lowest_free (bitmap_at_scan busy_allocator (array_desc 3)) k
           /\ (k < Z.to_nat (ArraySize (array_desc 3)))%nat
           /\ array_in_use p'
              = Some (<[k:=1]> (bitmap_at_scan busy_allocator (array_desc 3))))
  /\ (forall arr dmem,
         array_in_use busy_allocator = Some arr ->
         (forall i, (i < Z.to_nat (subresource_index dmem))%nat ->
                    exists v, arr !! i = Some v /\ v <> 0) ->
         0 <= subresource_index dmem < ArraySize (array_desc 3) ->
         (Z.to_nat (subresource_index dmem) < length arr)%nat ->
         exists p1 dev1 mem p2 dev2,
           gst_d3d11_allocator_free busy_allocator working_device dmem
           = Some (p1, dev1)
           /\ gst_d3d11_allocator_alloc p1 dev1 0%nat (array_desc 3)
                GST_D3D11_ALLOCATION_FLAG_TEXTURE_ARRAY 16384
              = (AllocMem mem, p2, dev2)
           /\ subresource_index mem = subresource_index dmem)
  /\ (forall arr dmem k,
         array_in_use busy_allocator = Some arr ->
         lowest_free arr k ->
         (k < Z.to_nat (subresource_index dmem))%nat ->
         0 <= subresource_index dmem < ArraySize (array_desc 3) ->
         (Z.to_nat (subresource_index dmem) < length arr)%nat ->
         exists p1 dev1 mem p2 dev2,
           gst_d3d11_allocator_free busy_allocator working_device dmem
           = Some (p1, dev1)
           /\ gst_d3d11_allocator_alloc p1 dev1 0%nat (array_desc 3)
                GST_D3D11_ALLOCATION_FLAG_TEXTURE_ARRAY 16384
              = (AllocMem mem, p2, dev2)
           /\ subresource_index mem = Z.of_nat k
           /\ subresource_index mem < subresource_index dmem).
Proof.
  split; [reflexivity|]. split; [discriminate|]. split; [reflexivity|].
  split; [reflexivity|]. split; [reflexivity|].
  apply (array_alloc_first_fit busy_allocator working_device 0%nat
           (array_desc 3) GST_D3D11_ALLOCATION_FLAG_TEXTURE_ARRAY 16384);
    [reflexivity | discriminate | reflexivity | reflexivity].
Defined.

(** C8 as stated fails: the slot that was freed is not the one the next
    call takes when a lower slot is free as well.  Three calls take the
    slots 0, 1 and 2; the object of slot 0 and then the object of slot 2
    are freed; the next call returns slot 0, not the slot 2 freed last. *)
Lemma freed_slot_not_reused_while_lower_slot_is_free :
  exists m0 p1 dev1 m1 p2 dev2 m2 p3 dev3 p4 dev4 p5 dev5 m p6 dev6,
    gst_d3d11_allocator_alloc fresh_allocator working_device 0%nat
      (array_desc 3) GST_D3D11_ALLOCATION_FLAG_TEXTURE_ARRAY 16384
    = (AllocMem m0, p1, dev1)
    /\ gst_d3d11_allocator_alloc p1 dev1 0%nat (array_desc 3)
         GST_D3D11_ALLOCATION_FLAG_TEXTURE_ARRAY 16384
       = (AllocMem m1, p2, dev2)
    /\ gst_d3d11_allocator_alloc p2 dev2 0%nat (array_desc 3)
         GST_D3D11_ALLOCATION_FLAG_TEXTURE_ARRAY 16384
       = (AllocMem m2, p3, dev3)
    /\ subresource_index m0 = 0
    /\ subresource_index m1 = 1
    /\ subresource_index m2 = 2
    /\ gst_d3d11_allocator_free p3 dev3 m0 = Some (p4, dev4)
    /\ gst_d3d11_allocator_free p4 dev4 m2 = Some (p5, dev5)
    /\ array_in_use p5 = Some [0; 1; 0]
    /\ gst_d3d11_allocator_alloc p5 dev5 0%nat (array_desc 3)
         GST_D3D11_ALLOCATION_FLAG_TEXTURE_ARRAY 16384
       = (AllocMem m, p6, dev6)
    /\ subresource_index m = 0
    /\ subresource_index m <> subresource_index m2.
Proof.
  eexists _, _, _, _, _, _, _, _, _, _, _, _, _, _, _, _.
  split; [vm_compute; reflexivity|].
  split; [vm_compute; reflexivity|].
  split; [vm_compute; reflexivity|].
  do 3 (split; [reflexivity|]).
  split; [vm_compute; reflexivity|].
  split; [vm_compute; reflexivity|].
  split; [reflexivity|].
  split; [vm_compute; reflexivity|].
  split; [reflexivity|]. discriminate.
Qed.

(** *** Flushing *)

Lemma alloc_locked_flushing p tid d :
  flushing p = true -> alloc_locked p tid d = (LockedFlushing, p).
Proof. intros H. unfold alloc_locked. now rewrite H. Qed.

Lemma alloc_locked_keeps_flushing p tid d :
  flushing (snd (alloc_locked p tid d)) = flushing p.
Proof.
  unfold alloc_locked. destruct (flushing p) eqn:Hf; [exact Hf|].
  destruct (scan_from _ _ _); destruct (array_in_use p); exact Hf.
Qed.

Lemma alloc_under_flushing p dev tid d flags size :
  flushing p = true ->
  Z.land flags GST_D3D11_ALLOCATION_FLAG_TEXTURE_ARRAY <> 0 ->
  gst_d3d11_allocator_alloc p dev tid d flags size = (AllocNULL, p, dev).
Proof.
  intros Hf Hflag. unfold gst_d3d11_allocator_alloc.
  destruct (negb (0 <? size)); [reflexivity|].
  destruct (Z.eqb_spec (Z.land flags GST_D3D11_ALLOCATION_FLAG_TEXTURE_ARRAY) 0)
    as [|_]; [contradiction|]. cbn [negb].
  now rewrite alloc_locked_flushing.
Qed.

Lemma alloc_keeps_invariant p dev tid d flags size :
  no_waiter_while_flushing p ->
  no_waiter_while_flushing
    (snd (fst (gst_d3d11_allocator_alloc p dev tid d flags size))).
Proof.
  intros Hinv. unfold gst_d3d11_allocator_alloc.
  destruct (negb (0 <? size)); [exact Hinv|].
  destruct (negb (Z.land flags GST_D3D11_ALLOCATION_FLAG_TEXTURE_ARRAY =? 0)).
  - pose proof (alloc_locked_keeps_flushing p tid d) as Hk.
    destruct (flushing p) eqn:Hf.
    + rewrite (alloc_locked_flushing p tid d Hf). exact Hinv.
    + destruct (alloc_locked p tid d) as [[| | i |] p1]; cbn [snd fst] in *;
        try (intros Hc; congruence).
      destruct (parent_texture p1).
      * cbv beta zeta iota. cbn [snd fst]. intros Hc; congruence.
      * unfold ID3D11Device_CreateTexture2D. cbv zeta.
        destruct (gst_d3d11_result (next_hresult dev)) eqn:Hhr;
          cbv beta iota; rewrite ?Hhr;
          cbn [negb snd fst]; intros Hc; cbn in Hc; congruence.
  - unfold ID3D11Device_CreateTexture2D. cbv zeta.
    destruct (gst_d3d11_result (next_hresult dev)) eqn:Hhr;
      cbv beta iota; rewrite ?Hhr; cbn [negb snd fst]; exact Hinv.
Qed.

Lemma step_keeps_invariant a w w' :
  no_waiter_while_flushing (fst w) ->
  step a w = Some w' ->
  no_waiter_while_flushing (fst w').
Proof.
  destruct w as [p dev]. cbn [fst]. intros Hinv Hstep.
  destruct a as [tid d flags size | dmem | b | tid]; cbn [step] in Hstep.
  - destruct (parked p tid); [discriminate|].
    pose proof (alloc_keeps_invariant p dev tid d flags size Hinv) as Hk.
    destruct (gst_d3d11_allocator_alloc p dev tid d flags size)
      as [[r p1] dev1].
    cbn [snd fst] in Hk.
    destruct r; inversion Hstep; subst; exact Hk.
  - unfold gst_d3d11_allocator_free in Hstep.
    destruct (array_in_use p) as [arr|].
    + destruct (bool_decide _); [|discriminate].
      inversion Hstep; subst. intros _. reflexivity.
    + inversion Hstep; subst. exact Hinv.
  - inversion Hstep; subst. intros _. reflexivity.
  - inversion Hstep; subst. cbn [fst]. intros Hf.
    cbn. cbn in Hf. rewrite (Hinv Hf). reflexivity.
Qed.

Lemma run_keeps_invariant acts : forall w w',
  no_waiter_while_flushing (fst w) ->
  run acts w = Some w' ->
  no_waiter_while_flushing (fst w').
Proof.
  induction acts as [|a acts IH]; intros w w' Hinv Hrun; cbn [run] in Hrun.
  - now inversion Hrun; subst.
  - destruct (step a w) as [w1|] eqn:Hstep; [|discriminate].
    apply (IH w1 w'); [|exact Hrun].
    exact (step_keeps_invariant a w w1 Hinv Hstep).
Qed.

(** C5: while [flushing] is set, a pass through the locked region of an
    array-mode [gst_d3d11_allocator_alloc] (a fresh call or the pass after a
    wake-up, both start at [do_again]) sees the flag and the call returns
    [NULL] with the allocator untouched: no scan, no wait.
    [gst_d3d11_allocator_set_flushing] stores the flag and broadcasts, which
    leaves no thread parked.  Hence in every state reached from a fresh
    allocator, and from any state in which it holds, by calls of alloc,
    free, set_flushing and spurious wake-ups: if [flushing] is set, no
    thread is parked on the condition variable. *)
Theorem flushing_fails_alloc_and_wakes_waiters :
  (forall p dev tid d flags size,
      flushing p = true ->
      Z.land flags GST_D3D11_ALLOCATION_FLAG_TEXTURE_ARRAY <> 0 ->
      alloc_locked p tid d = (LockedFlushing, p)
      /\ gst_d3d11_allocator_alloc p dev tid d flags size
         = (AllocNULL, p, dev))
  /\ (forall p,
         let p' := gst_d3d11_allocator_set_flushing p true in
         flushing p' = true
         /\ waiters (cond p') = []
         /\ broadcasts (cond p') = S (broadcasts (cond p))
         /\ array_in_use p' = array_in_use p
         /\ num_array_textures_in_use p' = num_array_textures_in_use p)
  /\ (forall acts dev w',
         run acts (priv gst_d3d11_allocator_init, dev) = Some w' ->
         flushing (fst w') = true -> waiters (cond (fst w')) = [])
  /\ (forall acts w w',
         no_waiter_while_flushing (fst w) ->
         run acts w = Some w' ->
         no_waiter_while_flushing (fst w')).
Proof.
  split; [|split; [|split]].
  - intros p dev tid d flags size Hf Hflag. split.
    + now apply alloc_locked_flushing.
    + now apply alloc_under_flushing.
  - intros p. cbn. repeat split.
  - intros acts dev w' Hrun.
    apply (run_keeps_invariant acts (priv gst_d3d11_allocator_init, dev) w');
      [|exact Hrun].
    intros Hf. discriminate Hf.
  - apply run_keeps_invariant.
Qed.

Lemma flushing_fails_alloc_and_wakes_waiters_witness :
  flushing (gst_d3d11_allocator_set_flushing fresh_allocator true) = true
  /\ gst_d3d11_allocator_alloc
       (gst_d3d11_allocator_set_flushing fresh_allocator true)
       (sample_device []) 2%nat (array_desc 1)
       GST_D3D11_ALLOCATION_FLAG_TEXTURE_ARRAY 16384
     = (AllocNULL, gst_d3d11_allocator_set_flushing fresh_allocator true,
        sample_device [])
  /\ exists w1 w2,
       run [CallAlloc 1%nat (array_desc 1)
              GST_D3D11_ALLOCATION_FLAG_TEXTURE_ARRAY 16384;
            CallAlloc 2%nat (array_desc 1)
              GST_D3D11_ALLOCATION_FLAG_TEXTURE_ARRAY 16384]
         (fresh_allocator, sample_device []) = Some w1
       /\ waiters (cond (fst w1)) = [2%nat]
       /\ run [CallSetFlushing true] w1 = Some w2
       /\ flushing (fst w2) = true
       /\ waiters (cond (fst w2)) = [].
Proof.
  destruct flushing_fails_alloc_and_wakes_waiters as (Hfail & _ & Hrun & _).
  split; [reflexivity|].
  split.
  { apply Hfail; [reflexivity | discriminate]. }
  eexists _, _.
  split; [vm_compute; reflexivity|].
  split; [reflexivity|].
  split; [vm_compute; reflexivity|].
  split; [reflexivity|].
  apply (Hrun [CallAlloc 1%nat (array_desc 1)
                 GST_D3D11_ALLOCATION_FLAG_TEXTURE_ARRAY 16384;
               CallAlloc 2%nat (array_desc 1)
                 GST_D3D11_ALLOCATION_FLAG_TEXTURE_ARRAY 16384;
               CallSetFlushing true] (sample_device []));
    [vm_compute; reflexivity | reflexivity].
Defined.

(** *** Free and the error path of alloc, run on the code *)

(** C2: [gst_d3d11_allocator_free] tests [priv->array_in_use], not the type
    of the object.  On an allocator whose two-slot array is handed out in
    full, freeing a stand-alone texture object of that allocator clears
    bitmap entry 0, takes the counter from 2 to 1 and broadcasts; the next
    array-mode call then hands out slot 0 while its first owner is still
    alive.  Freeing, in that state, a staging object that
    [gst_d3d11_allocator_alloc_staging] made has the same effect. *)
Theorem free_of_plain_texture_releases_array_slot :
  exists mA p1 dev1 mB p2 dev2 mT p3 dev3 p4 dev4 mC p5 dev5
         mS stride dev3' p6 dev6,
    gst_d3d11_allocator_alloc fresh_allocator working_device 0%nat
      (array_desc 2) GST_D3D11_ALLOCATION_FLAG_TEXTURE_ARRAY 16384
    = (AllocMem mA, p1, dev1)
    /\ gst_d3d11_allocator_alloc p1 dev1 0%nat (array_desc 2)
         GST_D3D11_ALLOCATION_FLAG_TEXTURE_ARRAY 16384
       = (AllocMem mB, p2, dev2)
    /\ gst_d3d11_allocator_alloc p2 dev2 0%nat sample_desc 0 16384
       = (AllocMem mT, p3, dev3)
    /\ type mA = GST_D3D11_MEMORY_TYPE_ARRAY /\ subresource_index mA = 0
    /\ type mB = GST_D3D11_MEMORY_TYPE_ARRAY /\ subresource_index mB = 1
    /\ type mT = GST_D3D11_MEMORY_TYPE_TEXTURE
    /\ array_in_use p3 = Some [1; 1]
    /\ num_array_textures_in_use p3 = 2
    /\ gst_d3d11_allocator_free p3 dev3 mT = Some (p4, dev4)
    /\ array_in_use p4 = Some [0; 1]
    /\ num_array_textures_in_use p4 = 1
    /\ broadcasts (cond p4) = S (broadcasts (cond p3))
    /\ gst_d3d11_allocator_alloc p4 dev4 0%nat (array_desc 2)
         GST_D3D11_ALLOCATION_FLAG_TEXTURE_ARRAY 16384
       = (AllocMem mC, p5, dev5)
    /\ type mC = GST_D3D11_MEMORY_TYPE_ARRAY
    /\ subresource_index mC = subresource_index mA
    /\ gst_d3d11_allocator_alloc_staging one_plane_get_size dev3 sample_desc
       = (Some (mS, stride), dev3')
    /\ type mS = GST_D3D11_MEMORY_TYPE_STAGING
    /\ gst_d3d11_allocator_free p3 dev3' mS = Some (p6, dev6)
    /\ array_in_use p6 = Some [0; 1]
    /\ num_array_textures_in_use p6 = 1
    /\ broadcasts (cond p6) = S (broadcasts (cond p3)).
Proof.
  eexists _, _, _, _, _, _, _, _, _, _, _, _, _, _, _, _, _, _, _.
  split; [vm_compute; reflexivity|].
  split; [vm_compute; reflexivity|].
  split; [vm_compute; reflexivity|].
  do 7 (split; [reflexivity|]).
  split; [vm_compute; reflexivity|].
  do 3 (split; [reflexivity|]).
  split; [vm_compute; reflexivity|].
  do 2 (split; [reflexivity|]).
  split; [vm_compute; reflexivity|].
  split; [reflexivity|].
  split; [vm_compute; reflexivity|].
  repeat split.
Qed.

(** C3: the error path of the array branch gives nothing back.  On a fresh
    allocator with a one-slot array, a call whose texture creation fails
    returns [NULL] with bitmap entry 0 left at 1 and the counter left at 1,
    though no object exists; the next call finds no free slot and parks its
    thread on the condition variable. *)
Theorem array_alloc_leaks_slot_on_texture_failure :
  exists p1 dev1 p2 dev2,
    gst_d3d11_allocator_alloc fresh_allocator (sample_device [E_FAIL]) 0%nat
      (array_desc 1) GST_D3D11_ALLOCATION_FLAG_TEXTURE_ARRAY 16384
    = (AllocNULL, p1, dev1)
    /\ calls dev1 = [CreateTexture2D (array_desc 1) E_FAIL]
    /\ bitmap_at_scan fresh_allocator (array_desc 1) = [0]
    /\ num_array_textures_in_use fresh_allocator = 0
    /\ array_in_use p1 = Some [1]
    /\ num_array_textures_in_use p1 = 1
    /\ parent_texture p1 = None
    /\ gst_d3d11_allocator_alloc p1 dev1 0%nat (array_desc 1)
         GST_D3D11_ALLOCATION_FLAG_TEXTURE_ARRAY 16384
       = (AllocWait, p2, dev2)
    /\ waiters (cond p2) = [0%nat].
Proof.
  eexists _, _, _, _.
  split; [vm_compute; reflexivity|].
  do 6 (split; [reflexivity|]).
  split; [vm_compute; reflexivity|].
  reflexivity.
Qed.

(** *** The pool's resolution fix *)

(** [gst_d3d11_allocation_params_alignment] asks
    [gst_video_info_set_format] one question; two versions of the latter that
    answer it alike give the same result. *)
Lemma alignment_congr
    (sf sf' : GstVideoFormatInfo -> Z -> Z -> option GstVideoInfo)
    params align :
  sf (finfo (info params))
    (wrap_guint (width (info params)
                 + wrap_guint (padding_left align + padding_right align)))
    (wrap_guint (height (info params)
                 + wrap_guint (padding_top align + padding_bottom align)))
  = sf' (finfo (info params))
      (wrap_guint (width (info params)
                   + wrap_guint (padding_left align + padding_right align)))
      (wrap_guint (height (info params)
                   + wrap_guint (padding_top align + padding_bottom align))) ->
  gst_d3d11_allocation_params_alignment sf params align
  = gst_d3d11_allocation_params_alignment sf' params align.
Proof.
  intros E. unfold gst_d3d11_allocation_params_alignment. cbv zeta.
  now rewrite E.
Qed.

Lemma fix_resolution_congr
    (sf sf' : GstVideoFormatInfo -> Z -> Z -> option GstVideoInfo) params :
  gst_d3d11_allocation_params_alignment sf params (fix_alignment params)
  = gst_d3d11_allocation_params_alignment sf' params (fix_alignment params) ->
  set_config_fix_resolution sf params = set_config_fix_resolution sf' params.
Proof.
  intros E. unfold set_config_fix_resolution. cbv zeta.
  destruct (is_semi_planar _); [|reflexivity].
  destruct (_ || _); [|reflexivity].
  change (snd (gst_d3d11_allocation_params_alignment sf params
                 (fix_alignment params))
          = snd (gst_d3d11_allocation_params_alignment sf' params
                   (fix_alignment params))).
  now rewrite E.
Qed.

(** C9: the pool computes the padding from the first descriptor, and
    [gst_d3d11_allocation_params_alignment] adds it to the size of the video
    info.  For NV12 params of a 100x100 video that were aligned with a right
    padding of 5 (first descriptor 105x100) before they reached the pool,
    the fix asks for a right padding of 1 and the first descriptor ends up
    101x100: an odd width, below the 105 it started from.  This holds for
    every [gst_video_info_set_format] that accepts the two sizes asked
    for. *)
Theorem pool_fix_on_padded_params
    (set_format : GstVideoFormatInfo -> Z -> Z -> option GstVideoInfo) :
  set_format nv12_finfo 105 100 = Some (nv12_info 105 100) ->
  set_format nv12_finfo 101 100 = Some (nv12_info 101 100) ->
  exists params padded fixed,
    gst_d3d11_allocation_params_new (Some nv12_d3d11_format)
      (nv12_info 100 100) 0 0 = Some (Some params)
    /\ plane0_size params = (100, 100)
    /\ gst_d3d11_allocation_params_alignment set_format params
         {| padding_top := 0; padding_bottom := 0; padding_left := 0;
            padding_right := 5 |} = (true, padded)
    /\ plane0_size padded = (105, 100)
    /\ is_semi_planar (Format (nth 0 (params_desc padded) zero_desc)) = true
    /\ set_config_d3d11_params set_format (Some padded)
         (Some nv12_d3d11_format) (nv12_info 100 100) = Some fixed
    /\ plane0_size fixed = (101, 100).
Proof.
  intros H105 H101.
  eexists _, _, _.
  split; [vm_compute; reflexivity|]. split; [reflexivity|].
  split.
  { rewrite (alignment_congr set_format video_info_set_format_upto_maxint);
      [vm_compute; reflexivity | vm_compute; exact H105]. }
  split; [reflexivity|]. split; [reflexivity|].
  split.
  { unfold set_config_d3d11_params. cbv beta iota.
    rewrite (fix_resolution_congr set_format video_info_set_format_upto_maxint);
      [vm_compute; reflexivity|].
    apply alignment_congr. vm_compute. exact H101. }
  reflexivity.
Qed.

Lemma pool_fix_on_padded_params_witness :
  video_info_set_format_upto_maxint nv12_finfo 105 100
  = Some (nv12_info 105 100)
  /\ video_info_set_format_upto_maxint nv12_finfo 101 100
     = Some (nv12_info 101 100)
  /\ exists params padded fixed,
       gst_d3d11_allocation_params_new (Some nv12_d3d11_format)
         (nv12_info 100 100) 0 0 = Some (Some params)
       /\ plane0_size params = (100, 100)
       /\ gst_d3d11_allocation_params_alignment
            video_info_set_format_upto_maxint params
            {| padding_top := 0; padding_bottom := 0; padding_left := 0;
               padding_right := 5 |} = (true, padded)
       /\ plane0_size padded = (105, 100)
       /\ is_semi_planar (Format (nth 0 (params_desc padded) zero_desc))
          = true
       /\ set_config_d3d11_params video_info_set_format_upto_maxint
            (Some padded) (Some nv12_d3d11_format) (nv12_info 100 100)
          = Some fixed
       /\ plane0_size fixed = (101, 100).
Proof.
  split; [reflexivity|]. split; [reflexivity|].
  apply (pool_fix_on_padded_params video_info_set_format_upto_maxint);
    reflexivity.
Defined.

Lemma GST_ROUND_UP_2_even w :
  0 <= w < 2 ^ 32 - 1 -> GST_ROUND_UP_2 w = 2 * ((w + 1) / 2).
Proof.
  intros Hw. unfold GST_ROUND_UP_2, wrap_guint.
  rewrite (Z.mod_small (w + 1)) by lia.
  change (Z.lnot 1 mod 2 ^ 32) with (Z.land (Z.lnot (Z.ones 1)) (Z.ones 32)).
  rewrite Z.land_assoc, Z.land_ones by lia.
  rewrite <- Z.ldiff_land, Z.ldiff_ones_r by lia.
  rewrite Z.shiftl_mul_pow2, Z.shiftr_div_pow2 by lia.
  change (2 ^ 1) with 2.
  rewrite Z.mod_small; [lia|].
  pose proof (Z.div_mod (w + 1) 2 ltac:(lia)).
  pose proof (Z.mod_pos_bound (w + 1) 2 ltac:(lia)). lia.
Qed.

Lemma GST_VIDEO_SUB_SCALE_0 v :
  - 2 ^ 31 <= v < 2 ^ 31 -> GST_VIDEO_SUB_SCALE 0 v = v.
Proof.
  intros Hv. unfold GST_VIDEO_SUB_SCALE, wrap_gint.
  rewrite Z.mod_small by lia. rewrite Z.shiftr_0_r. lia.
Qed.

(** What the resolution fix gives on params whose first descriptor still
    has the size of the video info, as [gst_d3d11_allocation_params_new]
    builds them for a format with a native equivalent: an odd size of a
    semi-planar texture is rounded up and handed to
    [gst_video_info_set_format], whose answer sets the first plane; its
    refusal leaves the descriptors as they were. *)
Lemma fix_resolution_on_unpadded_params
    (sf : GstVideoFormatInfo -> Z -> Z -> option GstVideoInfo)
    params d0 rest :
  params_desc params = d0 :: rest ->
  Width d0 = width (info params) ->
  Height d0 = height (info params) ->
  0 <= Width d0 < 2 ^ 31 - 1 ->
  0 <= Height d0 < 2 ^ 31 - 1 ->
  1 <= n_planes (finfo (info params)) ->
  plane0_size (set_config_fix_resolution sf params) =
  if is_semi_planar (Format d0)
     && (negb (Width d0 mod 2 =? 0) || negb (Height d0 mod 2 =? 0))
  then
    match sf (finfo (info params))
            (2 * ((Width d0 + 1) / 2)) (2 * ((Height d0 + 1) / 2)) with
    | Some new_info =>
        (wrap_guint (GST_VIDEO_INFO_COMP_WIDTH new_info 0),
         wrap_guint (GST_VIDEO_INFO_COMP_HEIGHT new_info 0))
    | None => (Width d0, Height d0)
    end
  else (Width d0, Height d0).
Proof.
  intros Hdesc Hw Hh Hwb Hhb Hpl.
  unfold set_config_fix_resolution, plane0_size. rewrite Hdesc.
  cbn [nth]. cbv zeta.
  destruct (is_semi_planar (Format d0)); cbn [andb]; [|now rewrite Hdesc].
  pose proof (Z.div_mod (Width d0 + 1) 2 ltac:(lia)) as Hdw.
  pose proof (Z.mod_pos_bound (Width d0 + 1) 2 ltac:(lia)) as Hmw.
  pose proof (Z.div_mod (Height d0 + 1) 2 ltac:(lia)) as Hdh.
  pose proof (Z.mod_pos_bound (Height d0 + 1) 2 ltac:(lia)) as Hmh.
  destruct (negb (Width d0 mod 2 =? 0) || negb (Height d0 mod 2 =? 0));
    [|now rewrite Hdesc].
  rewrite !GST_ROUND_UP_2_even by lia.
  set (W := 2 * ((Width d0 + 1) / 2)). set (H := 2 * ((Height d0 + 1) / 2)).
  unfold gst_d3d11_allocation_params_alignment.
  cbn [padding_left padding_right padding_top padding_bottom
       gst_video_alignment_reset].
  rewrite (wrap_gint_small W), (wrap_gint_small H) by (subst W H; lia).
  unfold wrap_guint.
  rewrite (Z.mod_small (W - Width d0)), (Z.mod_small (H - Height d0))
    by (subst W H; lia).
  rewrite !Z.add_0_l.
  rewrite (Z.mod_small (W - Width d0)), (Z.mod_small (H - Height d0))
    by (subst W H; lia).
  rewrite <- Hw, <- Hh.
  replace (Width d0 + (W - Width d0)) with W by lia.
  replace (Height d0 + (H - Height d0)) with H by lia.
  rewrite (Z.mod_small W), (Z.mod_small H) by (subst W H; lia).
  destruct (sf (finfo (info params)) W H) as [new_info|];
    cbn [snd params_desc]; rewrite Hdesc; [|reflexivity].
  cbn [imap nth].
  destruct (Z.to_nat (n_planes (finfo (info params)))) as [|n] eqn:Hn; [lia|].
  cbn [Nat.ltb Nat.leb set_dims Width Height]. reflexivity.
Qed.

(* ===================================================================== *)
(** ** Further properties of the mapping protocol *)
(* ===================================================================== *)

Lemma access_bits_give_map_type flags :
  negb (Z.land flags GST_MAP_READWRITE =? 0) = true ->
  exists ty, gst_map_flags_to_d3d11 flags = Some ty.
Proof.
  intros H. unfold gst_map_flags_to_d3d11.
  destruct (has_flags flags GST_MAP_READWRITE); [eauto|].
  destruct (has_flags flags GST_MAP_WRITE) eqn:Hw; [eauto|].
  destruct (has_flags flags GST_MAP_READ) eqn:Hr; [eauto|].
  exfalso. unfold GST_MAP_READWRITE in H.
  rewrite Z.land_lor_distr_r in H.
  unfold GST_MAP_READ, GST_MAP_WRITE in *.
  rewrite has_flags_bit in Hw, Hr by lia.
  rewrite !land_bit in H by lia.
  rewrite Hw, Hr in H. discriminate.
Qed.

(** X1 (gst_d3d11_memory_map): a map call on an object whose texture
    pointer is set, with the read or the write bit among the flags, runs
    to its end: it hits neither the assertion on the texture nor the one
    of gst_map_flags_to_d3d11. *)
Theorem map_with_access_bits_returns dev dmem flags :
  texture dmem <> None ->
  negb (Z.land flags GST_MAP_READWRITE =? 0) = true ->
  exists ptr dev' dmem',
    gst_d3d11_memory_map dev dmem flags = Some (ptr, dev', dmem').
Proof.
  intros Htex Hacc.
  destruct (access_bits_give_map_type flags Hacc) as [ty Hty].
  unfold gst_d3d11_memory_map, gst_d3d11_memory_map_staging.
  rewrite Hty.
  destruct (is_staging (type dmem)).
  - destruct (has_flags flags GST_MAP_D3D11); [eauto|].
    destruct (cpu_map_count dmem =? 0); [|eauto].
    destruct (ID3D11DeviceContext_Map dev (texture dmem) 0 ty (map dmem))
      as [[hr mp] dev1].
    destruct (negb (gst_d3d11_result hr)); eauto.
  - destruct (has_flags flags GST_MAP_D3D11).
    + match goal with
      | |- context [match texture ?m with _ => _ end] =>
          assert (Ht : texture m = texture dmem)
            by (destruct (has_flags flags GST_MAP_WRITE); reflexivity);
          destruct (texture m) eqn:E
      end.
      * eauto.
      * congruence.
    + destruct (cpu_map_count dmem =? 0); [|eauto].
      destruct (staging dmem).
      * destruct (map_cpu_access_data dev dmem ty) as [[ok dev2] dmem2].
        destruct (negb ok); eauto.
      * destruct (create_staging_texture dev (desc dmem)) as [st dev1].
        destruct st; [|eauto].
        match goal with
        | |- context [map_cpu_access_data ?d ?m ?t] =>
            destruct (map_cpu_access_data d m t) as [[ok dev2] dmem2]
        end.
        destruct (negb ok); eauto.
Qed.

Lemma map_with_access_bits_returns_witness :
  texture sample_memory <> None
  /\ negb (Z.land GST_MAP_READ GST_MAP_READWRITE =? 0) = true
  /\ exists ptr dev' dmem',
       gst_d3d11_memory_map working_device sample_memory GST_MAP_READ
       = Some (ptr, dev', dmem').
Proof.
  split; [discriminate|]. split; [reflexivity|].
  apply (map_with_access_bits_returns working_device sample_memory
           GST_MAP_READ); [discriminate | reflexivity].
Defined.

(** X2 (gst_d3d11_memory_map, gst_d3d11_memory_map_staging,
    gst_d3d11_memory_unmap_full): on a staging object, map and unmap never
    touch the flag word (no pending upload or download is ever recorded),
    never set the [staging] pointer, and make no native call other than
    [Map] and [Unmap]: such an object is never copied. *)
Theorem staging_object_is_never_copied dev dmem flags :
  is_staging (type dmem) = true ->
  (forall ptr dev' dmem',
      gst_d3d11_memory_map dev dmem flags = Some (ptr, dev', dmem') ->
      mini_object_flags dmem' = mini_object_flags dmem
      /\ staging dmem' = staging dmem
      /\ texture dmem' = texture dmem
      /\ exists suffix,
           calls dev' = calls dev ++ suffix
           /\ Forall (fun c => is_map_or_unmap c = true) suffix)
  /\ (forall dev' dmem',
         gst_d3d11_memory_unmap_full dev dmem flags = (dev', dmem') ->
         mini_object_flags dmem' = mini_object_flags dmem
         /\ staging dmem' = staging dmem
         /\ texture dmem' = texture dmem
         /\ exists suffix,
              calls dev' = calls dev ++ suffix
              /\ Forall (fun c => is_map_or_unmap c = true) suffix).
Proof.
  intros Hst. split.
  - intros ptr dev' dmem'.
    unfold gst_d3d11_memory_map, gst_d3d11_memory_map_staging. rewrite Hst.
    destruct (has_flags flags GST_MAP_D3D11).
    + intros [= <- <- <-]. repeat split; try reflexivity.
      exists []. now rewrite app_nil_r.
    + destruct (cpu_map_count dmem =? 0).
      * destruct (gst_map_flags_to_d3d11 flags) as [ty|]; [|discriminate].
        unfold ID3D11DeviceContext_Map. cbv zeta.
        destruct (gst_d3d11_result (next_hresult dev)) eqn:E;
          cbv beta iota zeta; rewrite ?E; cbn [negb]; cbv beta iota zeta;
          intros [= <- <- <-]; mem_simpl; repeat split; try reflexivity;
          (eexists; split; [reflexivity|]); repeat constructor.
      * intros [= <- <- <-]. mem_simpl. repeat split; try reflexivity.
        exists []. now rewrite app_nil_r.
  - intros dev' dmem'. unfold gst_d3d11_memory_unmap_full.
    rewrite Hst. cbn [negb andb].
    destruct (has_flags flags GST_MAP_D3D11).
    + intros [= <- <-]. repeat split; try reflexivity.
      exists []. now rewrite app_nil_r.
    + destruct (0 <? _); intros [= <- <-]; mem_simpl;
        repeat split; try reflexivity.
      * exists []. now rewrite app_nil_r.
      * unfold unmap_cpu_access_data, ID3D11DeviceContext_Unmap. mem_simpl.
        eexists; split; [reflexivity|]. repeat constructor.
Qed.

(** A staging object as [gst_d3d11_allocator_alloc_staging] makes it. *)
Lemma staging_object_is_never_copied_witness :
  is_staging (type (new_memory 16384 (Some 7) sample_desc
                      GST_D3D11_MEMORY_TYPE_STAGING 0)) = true
  /\ forall dev' dmem',
       gst_d3d11_memory_unmap_full working_device
         (new_memory 16384 (Some 7) sample_desc
            GST_D3D11_MEMORY_TYPE_STAGING 0) GST_MAP_WRITE = (dev', dmem') ->
       mini_object_flags dmem' = 0.
Proof.
  split; [reflexivity|]. intros dev' dmem' H.
  destruct (staging_object_is_never_copied working_device
              (new_memory 16384 (Some 7) sample_desc
                 GST_D3D11_MEMORY_TYPE_STAGING 0) GST_MAP_WRITE eq_refl)
    as [_ Hun].
  destruct (Hun dev' dmem' H) as [Hf _]. exact Hf.
Defined.

(** X3 (gst_d3d11_memory_map_staging, unmap_cpu_access_data): from map
    counter 0 a CPU map of a staging object followed by its unmap makes
    exactly the native calls [Map] and [Unmap], both on the object's own
    texture, gives the address the driver mapped it at, and leaves the
    object as it was except for the mapping it remembers. *)
Theorem staging_map_unmap_round_trip dev dmem flags uflags ty :
  is_staging (type dmem) = true ->
  cpu_map_count dmem = 0 ->
  has_flags flags GST_MAP_D3D11 = false ->
  has_flags uflags GST_MAP_D3D11 = false ->
  gst_map_flags_to_d3d11 flags = Some ty ->
  gst_d3d11_result (next_hresult dev) = true ->
  exists dev1 m1 dev2,
    gst_d3d11_memory_map dev dmem flags
    = Some (pData (mapping dev (texture dmem)), dev1, m1)
    /\ cpu_map_count m1 = 1
    /\ gst_d3d11_memory_unmap_full dev1 m1 uflags
       = (dev2, set_map dmem (mapping dev (texture dmem)))
    /\ calls dev2
       = calls dev ++ [Map (texture dmem) 0 ty (next_hresult dev);
                       Unmap (texture dmem) 0].
Proof.
  intros Hst Hc Hf Hu Hty Hok.
  unfold gst_d3d11_memory_map, gst_d3d11_memory_map_staging.
  rewrite Hst, Hf, Hc, Hty. cbn [Z.eqb].
  unfold ID3D11DeviceContext_Map. cbv zeta. rewrite Hok.
  cbv beta iota. rewrite Hok. cbn [negb]. cbv beta iota.
  do 3 eexists. split; [reflexivity|]. mem_simpl. rewrite Hc.
  split; [reflexivity|].
  unfold gst_d3d11_memory_unmap_full. mem_simpl. rewrite Hst, Hu.
  cbn [negb andb]. mem_simpl.
  change (wrap_gint (wrap_gint (0 + 1) - 1)) with 0. cbn [Z.ltb Z.compare].
  split.
  - f_equal. destruct dmem; cbn in *. subst. reflexivity.
  - unfold unmap_cpu_access_data, ID3D11DeviceContext_Unmap. mem_simpl.
    rewrite Hst. now rewrite <- app_assoc.
Qed.

Lemma staging_map_unmap_round_trip_witness :
  let m := new_memory 16384 (Some 7) sample_desc
             GST_D3D11_MEMORY_TYPE_STAGING 0 in
  is_staging (type m) = true
  /\ cpu_map_count m = 0
  /\ has_flags GST_MAP_READ GST_MAP_D3D11 = false
  /\ gst_map_flags_to_d3d11 GST_MAP_READ = Some D3D11_MAP_READ
  /\ gst_d3d11_result (next_hresult working_device) = true
  /\ exists dev1 m1 dev2,
       gst_d3d11_memory_map working_device m GST_MAP_READ
       = Some (pData (mapping working_device (texture m)), dev1, m1)
       /\ cpu_map_count m1 = 1
       /\ gst_d3d11_memory_unmap_full dev1 m1 GST_MAP_READ
          = (dev2, set_map m (mapping working_device (texture m)))
       /\ calls dev2
          = calls working_device
            ++ [Map (texture m) 0 D3D11_MAP_READ (next_hresult working_device);
                Unmap (texture m) 0].
Proof.
  cbv zeta. repeat (split; [reflexivity|]).
  apply (staging_map_unmap_round_trip working_device
           (new_memory 16384 (Some 7) sample_desc
              GST_D3D11_MEMORY_TYPE_STAGING 0)
           GST_MAP_READ GST_MAP_READ D3D11_MAP_READ); reflexivity.
Defined.

(** X4 (gst_d3d11_memory_unmap_full, gst_d3d11_memory_map,
    map_cpu_access_data): after the unmap of a GPU-direct write, the next
    first CPU map of the object copies the texture into the existing
    staging texture before it maps it, and clears the pending download. *)
Theorem gpu_write_then_cpu_map_downloads dev dmem gflags flags ty s :
  is_staging (type dmem) = false ->
  cpu_map_count dmem = 0 ->
  staging dmem = Some s ->
  has_flags gflags GST_MAP_D3D11 = true ->
  has_flags gflags GST_MAP_WRITE = true ->
  has_flags flags GST_MAP_D3D11 = false ->
  gst_map_flags_to_d3d11 flags = Some ty ->
  gst_d3d11_result (next_hresult dev) = true ->
  exists m1 dev2 m2,
    gst_d3d11_memory_unmap_full dev dmem gflags = (dev, m1)
    /\ need_download m1 = true
    /\ gst_d3d11_memory_map dev m1 flags
       = Some (pData (mapping dev (Some s)), dev2, m2)
    /\ calls dev2
       = calls dev
         ++ [CopySubresourceRegion (Some s) 0 (texture dmem)
               (subresource_index dmem);
             Map (Some s) 0 ty (next_hresult dev)]
    /\ need_download m2 = false.
Proof.
  intros Hst Hc Hs Hg Hw Hf Hty Hok.
  exists (mem_flag_set dmem GST_D3D11_MEMORY_TRANSFER_NEED_DOWNLOAD).
  unfold gst_d3d11_memory_unmap_full at 1. rewrite Hg, Hst, Hw.
  cbn [negb andb].
  rewrite (cpu_map_closed_form dev _ flags ty) by (mem_simpl; assumption).
  mem_simpl. rewrite Hc, Hs. cbn [Z.eqb].
  unfold cpu_map_hw. cbv zeta.
  rewrite need_download_set_download, Hok. mem_simpl. rewrite Hs.
  do 2 eexists. split; [reflexivity|]. split; [reflexivity|].
  split; [reflexivity|]. split.
  - cbn [calls log_call consume_hresult]. now rewrite <- app_assoc.
  - apply cpu_map_tail_facts.
Qed.

Lemma gpu_write_then_cpu_map_downloads_witness :
  is_staging (type written_memory) = false
  /\ cpu_map_count written_memory = 0
  /\ staging written_memory = Some 100
  /\ exists m1 dev2 m2,
       gst_d3d11_memory_unmap_full working_device written_memory
         (Z.lor GST_MAP_D3D11 GST_MAP_WRITE) = (working_device, m1)
       /\ need_download m1 = true
       /\ gst_d3d11_memory_map working_device m1 GST_MAP_READ
          = Some (pData (mapping working_device (Some 100)), dev2, m2)
       /\ calls dev2
          = calls working_device
            ++ [CopySubresourceRegion (Some 100) 0 (texture written_memory)
                  (subresource_index written_memory);
                Map (Some 100) 0 D3D11_MAP_READ
                  (next_hresult working_device)]
       /\ need_download m2 = false.
Proof.
  split; [reflexivity|]. split; [reflexivity|]. split; [reflexivity|].
  apply (gpu_write_then_cpu_map_downloads working_device written_memory
           (Z.lor GST_MAP_D3D11 GST_MAP_WRITE) GST_MAP_READ D3D11_MAP_READ
           100); reflexivity.
Defined.

(** X5 (gst_d3d11_memory_map, create_staging_texture,
    map_cpu_access_data): the first CPU map of an object without staging
    texture, on a driver that does not fail, makes exactly three native
    calls: it creates a staging texture of the object's size and format,
    copies the texture into it (whatever the map flags ask for), and maps
    it. *)
Theorem first_cpu_map_creates_staging_and_downloads dev dmem flags ty :
  is_staging (type dmem) = false ->
  cpu_map_count dmem = 0 ->
  staging dmem = None ->
  has_flags flags GST_MAP_D3D11 = false ->
  gst_map_flags_to_d3d11 flags = Some ty ->
  driver_succeeds dev ->
  exists ptr dev' dmem' d hr1 hr2,
    gst_d3d11_memory_map dev dmem flags = Some (ptr, dev', dmem')
    /\ staging dmem' = Some (next_handle dev)
    /\ calls dev'
       = calls dev
         ++ [CreateTexture2D d hr1;
             CopySubresourceRegion (Some (next_handle dev)) 0 (texture dmem)
               (subresource_index dmem);
             Map (Some (next_handle dev)) 0 ty hr2]
    /\ Usage d = D3D11_USAGE_STAGING
    /\ (Width d, Height d, Format d)
       = (Width (desc dmem), Height (desc dmem), Format (desc dmem))
    /\ (ArraySize d, BindFlags d) = (1, 0)
    /\ need_download dmem' = false
    /\ cpu_map_count dmem' = 1.
Proof.
  intros Hst Hc Hs Hf Hty Hdrv.
  rewrite (cpu_map_closed_form dev dmem flags ty) by assumption.
  rewrite Hc, Hs. cbn [Z.eqb]. cbv zeta.
  rewrite (driver_succeeds_next dev Hdrv).
  unfold cpu_map_hw. cbv zeta.
  rewrite need_download_set_download.
  match goal with
  | |- context [gst_d3d11_result (next_hresult ?d)] =>
      assert (Hok2 : gst_d3d11_result (next_hresult d) = true)
        by (apply driver_succeeds_next; mem_simpl;
            apply driver_succeeds_tl; exact Hdrv);
      rewrite Hok2
  end.
  mem_simpl.
  do 6 eexists. split; [reflexivity|].
  destruct (cpu_map_tail_facts flags
              (set_map
                 (mem_flag_set (set_staging dmem (Some (next_handle dev)))
                    GST_D3D11_MEMORY_TRANSFER_NEED_DOWNLOAD)
                 (mapping dev (Some (next_handle dev)))))
    as (Hcnt & Hnd & _ & Hstg & _).
  split; [rewrite Hstg; reflexivity|].
  split; [cbn [calls log_call consume_hresult];
          rewrite <- !app_assoc; reflexivity|].
  repeat (split; [reflexivity|]).
  split; [exact Hnd|].
  rewrite Hcnt. mem_simpl. now rewrite Hc.
Qed.

Lemma first_cpu_map_creates_staging_and_downloads_witness :
  is_staging (type sample_memory) = false
  /\ cpu_map_count sample_memory = 0
  /\ staging sample_memory = None
  /\ driver_succeeds working_device
  /\ exists ptr dev' dmem' d hr1 hr2,
       gst_d3d11_memory_map working_device sample_memory GST_MAP_WRITE
       = Some (ptr, dev', dmem')
       /\ staging dmem' = Some (next_handle working_device)
       /\ calls dev'
          = calls working_device
            ++ [CreateTexture2D d hr1;
                CopySubresourceRegion (Some (next_handle working_device)) 0
                  (texture sample_memory) (subresource_index sample_memory);
                Map (Some (next_handle working_device)) 0 D3D11_MAP_WRITE hr2]
       /\ Usage d = D3D11_USAGE_STAGING
       /\ (Width d, Height d, Format d)
          = (Width (desc sample_memory), Height (desc sample_memory),
             Format (desc sample_memory))
       /\ (ArraySize d, BindFlags d) = (1, 0)
       /\ need_download dmem' = false
       /\ cpu_map_count dmem' = 1.
Proof.
  split; [reflexivity|]. split; [reflexivity|]. split; [reflexivity|].
  split; [constructor|].
  apply (first_cpu_map_creates_staging_and_downloads working_device
           sample_memory GST_MAP_WRITE D3D11_MAP_WRITE);
    try reflexivity; constructor.
Defined.

(** X6 (gst_d3d11_memory_unmap_full, gst_d3d11_memory_map): a CPU unmap of
    an object that is not mapped takes the map counter from 0 to -1 and
    still calls the native [Unmap] on the staging pointer; the CPU map
    that follows finds a counter that is not 0, makes no native call at
    all and returns the address the object remembered before. *)
Theorem unmap_without_map_skips_next_hardware_map dev dev1 dmem uflags flags ty :
  is_staging (type dmem) = false ->
  cpu_map_count dmem = 0 ->
  has_flags uflags GST_MAP_D3D11 = false ->
  has_flags flags GST_MAP_D3D11 = false ->
  gst_map_flags_to_d3d11 flags = Some ty ->
  exists m1 m2,
    gst_d3d11_memory_unmap_full dev dmem uflags
    = (log_call dev (Unmap (staging dmem) 0), m1)
    /\ cpu_map_count m1 = -1
    /\ gst_d3d11_memory_map dev1 m1 flags = Some (pData (map dmem), dev1, m2)
    /\ cpu_map_count m2 = 0.
Proof.
  intros Hst Hc Hu Hf Hty.
  rewrite (cpu_unmap_closed_form dev dmem uflags Hst Hu). rewrite Hc.
  change (0 <? wrap_gint (0 - 1)) with false. cbv iota.
  destruct (cpu_unmap_mem_facts uflags dmem)
    as (Hcnt & _ & _ & _ & _ & Hty1 & _).
  rewrite Hc in Hcnt. change (wrap_gint (0 - 1)) with (-1) in Hcnt.
  assert (Hmap : map (cpu_unmap_mem uflags dmem) = map dmem).
  { unfold cpu_unmap_mem. destruct (has_flags uflags GST_MAP_WRITE);
      reflexivity. }
  do 2 eexists. split; [reflexivity|]. split; [exact Hcnt|].
  rewrite (cpu_map_closed_form dev1 _ flags ty)
    by (rewrite ?Hty1; assumption).
  rewrite Hcnt. cbn [Z.eqb]. rewrite Hmap.
  split; [reflexivity|].
  destruct (cpu_map_tail_facts flags (cpu_unmap_mem uflags dmem))
    as (Hcnt2 & _).
  rewrite Hcnt2, Hcnt. reflexivity.
Qed.

Lemma unmap_without_map_skips_next_hardware_map_witness :
  is_staging (type sample_memory) = false
  /\ cpu_map_count sample_memory = 0
  /\ exists m1 m2,
       gst_d3d11_memory_unmap_full working_device sample_memory GST_MAP_READ
       = (log_call working_device (Unmap (staging sample_memory) 0), m1)
       /\ cpu_map_count m1 = -1
       /\ gst_d3d11_memory_map working_device m1 GST_MAP_READ
          = Some (pData (map sample_memory), working_device, m2)
       /\ cpu_map_count m2 = 0.
Proof.
  split; [reflexivity|]. split; [reflexivity|].
  apply (unmap_without_map_skips_next_hardware_map working_device
           working_device sample_memory GST_MAP_READ GST_MAP_READ
           D3D11_MAP_READ); reflexivity.
Defined.

(** X7 (gst_d3d11_memory_unmap_full): the unmap of a GPU-direct mapping
    makes no native call and leaves the map counter, the staging pointer
    and the pending upload alone; it records a pending download exactly
    when the mapping was for writing and the object is not a staging
    object. *)
Theorem gpu_unmap_effects dev dmem info_flags :
  has_flags info_flags GST_MAP_D3D11 = true ->
  exists dmem',
    gst_d3d11_memory_unmap_full dev dmem info_flags = (dev, dmem')
    /\ cpu_map_count dmem' = cpu_map_count dmem
    /\ staging dmem' = staging dmem
    /\ map dmem' = map dmem
    /\ need_upload dmem' = need_upload dmem
    /\ need_download dmem'
       = (need_download dmem
          || negb (is_staging (type dmem))
             && has_flags info_flags GST_MAP_WRITE).
Proof.
  intros Hg. unfold gst_d3d11_memory_unmap_full. rewrite Hg.
  destruct (negb (is_staging (type dmem)) && has_flags info_flags GST_MAP_WRITE).
  - eexists. split; [reflexivity|]. repeat (split; [reflexivity|]).
    split; [apply need_upload_set_download|].
    rewrite need_download_set_download. now rewrite orb_true_r.
  - exists dmem. split; [reflexivity|]. repeat (split; [reflexivity|]).
    now rewrite orb_false_r.
Qed.

Lemma gpu_unmap_effects_witness :
  has_flags (Z.lor GST_MAP_D3D11 GST_MAP_WRITE) GST_MAP_D3D11 = true
  /\ exists dmem',
       gst_d3d11_memory_unmap_full working_device sample_memory
         (Z.lor GST_MAP_D3D11 GST_MAP_WRITE) = (working_device, dmem')
       /\ cpu_map_count dmem' = cpu_map_count sample_memory
       /\ staging dmem' = staging sample_memory
       /\ map dmem' = map sample_memory
       /\ need_upload dmem' = need_upload sample_memory
       /\ need_download dmem'
          = (need_download sample_memory
             || negb (is_staging (type sample_memory))
                && has_flags (Z.lor GST_MAP_D3D11 GST_MAP_WRITE)
                     GST_MAP_WRITE).
Proof.
  split; [reflexivity|].
  apply (gpu_unmap_effects working_device sample_memory
           (Z.lor GST_MAP_D3D11 GST_MAP_WRITE)); reflexivity.
Defined.

(* ===================================================================== *)
(** ** Further properties of the allocator *)
(* ===================================================================== *)

(** X8 (gst_d3d11_allocator_alloc): a call without the texture-array flag
    never looks at the allocator: whatever the flushing flag and the
    bitmap are, it leaves the allocator as it is, never parks, makes the
    one native call [CreateTexture2D] and returns a stand-alone texture
    object exactly when that call succeeds. *)
Theorem plain_alloc_ignores_allocator_state p dev tid d flags size :
  Z.land flags GST_D3D11_ALLOCATION_FLAG_TEXTURE_ARRAY = 0 ->
  0 < size ->
  exists dev',
    gst_d3d11_allocator_alloc p dev tid d flags size
    = (if gst_d3d11_result (next_hresult dev)
       then AllocMem (new_memory size (Some (next_handle dev)) d
                        GST_D3D11_MEMORY_TYPE_TEXTURE 0)
       else AllocNULL, p, dev')
    /\ calls dev' = calls dev ++ [CreateTexture2D d (next_hresult dev)]
    /\ hresults dev' = tl (hresults dev).
Proof.
  intros Hflag Hsize. unfold gst_d3d11_allocator_alloc.
  destruct (Z.ltb_spec 0 size) as [_|]; [|lia]. cbn [negb].
  rewrite Hflag. cbn [Z.eqb negb].
  unfold ID3D11Device_CreateTexture2D. cbv zeta.
  destruct (gst_d3d11_result (next_hresult dev)) eqn:E;
    cbv beta iota; rewrite ?E; cbn [negb release_if];
    eexists; (split; [reflexivity|]); split; reflexivity.
Qed.

Lemma plain_alloc_ignores_allocator_state_witness :
  Z.land 0 GST_D3D11_ALLOCATION_FLAG_TEXTURE_ARRAY = 0
  /\ 0 < 16384
  /\ flushing (gst_d3d11_allocator_set_flushing busy_allocator true) = true
  /\ exists dev',
       gst_d3d11_allocator_alloc
         (gst_d3d11_allocator_set_flushing busy_allocator true)
         working_device 0%nat sample_desc 0 16384
       = (if gst_d3d11_result (next_hresult working_device)
          then AllocMem (new_memory 16384
                           (Some (next_handle working_device)) sample_desc
                           GST_D3D11_MEMORY_TYPE_TEXTURE 0)
          else AllocNULL,
          gst_d3d11_allocator_set_flushing busy_allocator true, dev')
       /\ calls dev'
          = calls working_device
            ++ [CreateTexture2D sample_desc (next_hresult working_device)]
       /\ hresults dev' = tl (hresults working_device).
Proof.
  split; [reflexivity|]. split; [reflexivity|]. split; [reflexivity|].
  apply (plain_alloc_ignores_allocator_state
           (gst_d3d11_allocator_set_flushing busy_allocator true)
           working_device 0%nat sample_desc 0 16384); reflexivity.
Defined.

(** X9 (gst_d3d11_allocator_alloc): an array call that finds every slot
    of the scan taken (also when [ArraySize] is 0) parks its thread on the
    condition variable; it makes no native call and changes neither the
    marks of the bitmap nor the counter. *)
Theorem array_alloc_on_full_array_parks p dev tid d flags size :
  0 < size ->
  Z.land flags GST_D3D11_ALLOCATION_FLAG_TEXTURE_ARRAY <> 0 ->
  flushing p = false ->
  (forall j, (j < Z.to_nat (ArraySize d))%nat ->
             exists v, bitmap_at_scan p d !! j = Some v /\ v <> 0) ->
  exists p',
    gst_d3d11_allocator_alloc p dev tid d flags size = (AllocWait, p', dev)
    /\ array_in_use p' = Some (bitmap_at_scan p d)
    /\ num_array_textures_in_use p' = num_array_textures_in_use p
    /\ parent_texture p' = parent_texture p
    /\ waiters (cond p') = tid :: waiters (cond p)
    /\ flushing p' = false.
Proof.
  intros Hsize Hflag Hfl Hfull.
  unfold gst_d3d11_allocator_alloc.
  destruct (Z.ltb_spec 0 size) as [_|]; [|lia]. cbn [negb].
  destruct (Z.eqb_spec (Z.land flags GST_D3D11_ALLOCATION_FLAG_TEXTURE_ARRAY) 0)
    as [|_]; [contradiction|]. cbn [negb].
  unfold alloc_locked. rewrite Hfl.
  rewrite scan_from_full by (intros j Hj; apply Hfull; lia).
  eexists. split; [reflexivity|].
  unfold bitmap_at_scan.
  destruct (array_in_use p) eqn:Harr; cbn; rewrite ?Harr, ?Hfl;
    repeat split; reflexivity.
Qed.

Lemma array_alloc_on_full_array_parks_witness :
  0 < 16384
  /\ Z.land GST_D3D11_ALLOCATION_FLAG_TEXTURE_ARRAY
       GST_D3D11_ALLOCATION_FLAG_TEXTURE_ARRAY <> 0
  /\ flushing busy_allocator = false
  /\ bitmap_at_scan busy_allocator (array_desc 2) = [1; 1; 0]
  /\ exists p',
       gst_d3d11_allocator_alloc busy_allocator working_device 5%nat
         (array_desc 2) GST_D3D11_ALLOCATION_FLAG_TEXTURE_ARRAY 16384
       = (AllocWait, p', working_device)
       /\ array_in_use p' = Some (bitmap_at_scan busy_allocator (array_desc 2))
       /\ num_array_textures_in_use p'
          = num_array_textures_in_use busy_allocator
       /\ parent_texture p' = parent_texture busy_allocator
       /\ waiters (cond p') = 5%nat :: waiters (cond busy_allocator)
       /\ flushing p' = false.
Proof.
  split; [reflexivity|]. split; [discriminate|]. split; [reflexivity|].
  split; [reflexivity|].
  apply (array_alloc_on_full_array_parks busy_allocator working_device 5%nat
           (array_desc 2) GST_D3D11_ALLOCATION_FLAG_TEXTURE_ARRAY 16384);
    [reflexivity | discriminate | reflexivity |].
  intros j Hj. change (Z.to_nat (ArraySize (array_desc 2))) with 2%nat in Hj.
  destruct j as [|[|j]]; [exists 1; split; [reflexivity|discriminate]..|lia].
Defined.

(** *** The counter and the bitmap *)

Lemma slots_in_use_replicate n : slots_in_use (replicate n 0) = 0%nat.
Proof. induction n as [|n IH]; [reflexivity|exact IH]. Qed.

Lemma slots_in_use_mark arr : forall k,
  arr !! k = Some 0 ->
  slots_in_use (<[k:=1]> arr) = S (slots_in_use arr).
Proof.
  unfold slots_in_use.
  induction arr as [|a arr IH]; intros [|k] H; try discriminate.
  - cbn in H. injection H as ->. reflexivity.
  - cbn [lookup list_lookup] in H. specialize (IH k H).
    change (<[S k:=1]> (a :: arr)) with (a :: <[k:=1]> arr).
    cbn [List.filter].
    destruct (negb (a =? 0)); cbn [length]; now rewrite IH.
Qed.

Lemma slots_in_use_clear arr : forall k v,
  arr !! k = Some v -> v <> 0 ->
  S (slots_in_use (<[k:=0]> arr)) = slots_in_use arr.
Proof.
  unfold slots_in_use.
  induction arr as [|a arr IH]; intros [|k] v H Hv; try discriminate.
  - cbn in H. injection H as ->.
    change (<[0%nat:=0]> (v :: arr)) with (0 :: arr). cbn [List.filter].
    destruct (Z.eqb_spec v 0); [contradiction|]. reflexivity.
  - cbn [lookup list_lookup] in H. specialize (IH k v H Hv).
    change (<[S k:=0]> (a :: arr)) with (a :: <[k:=0]> arr).
    cbn [List.filter].
    destruct (negb (a =? 0)); cbn [length]; now rewrite <- IH.
Qed.

Lemma wrap_guint_succ a : wrap_guint (wrap_guint a + 1) = wrap_guint (a + 1).
Proof. unfold wrap_guint. now rewrite Zplus_mod_idemp_l. Qed.

Lemma wrap_guint_pred a : wrap_guint (wrap_guint a - 1) = wrap_guint (a - 1).
Proof. unfold wrap_guint. now rewrite Zminus_mod_idemp_l. Qed.

Lemma alloc_locked_counter p tid d :
  counter_matches p -> counter_matches (snd (alloc_locked p tid d)).
Proof.
  intros Hcm. unfold alloc_locked.
  destruct (flushing p); [exact Hcm|].
  set (p1 := match array_in_use p with None => _ | Some _ => p end).
  set (arr := bitmap_at_scan p d).
  assert (Hp1 : array_in_use p1 = Some arr
                /\ num_array_textures_in_use p1
                   = wrap_guint (Z.of_nat (slots_in_use arr))).
  { subst p1 arr. unfold counter_matches, bitmap_at_scan in *.
    destruct (array_in_use p) eqn:Harr.
    - now rewrite Harr.
    - cbn in *. now rewrite slots_in_use_replicate. }
  destruct Hp1 as [Harr Hnum].
  destruct (scan_from arr 0 (Z.to_nat (ArraySize d))) as [k| |] eqn:Hscan;
    cbn [snd]; unfold counter_matches.
  - cbn [num_array_textures_in_use array_in_use set_in_use default from_option id].
    destruct (scan_from_found_inv _ _ _ _ Hscan) as (_ & Hfree & _).
    rewrite (slots_in_use_mark arr k Hfree), Hnum, wrap_guint_succ.
    f_equal. lia.
  - cbn [num_array_textures_in_use array_in_use set_cond default from_option id].
    now rewrite Harr.
  - now rewrite Harr.
Qed.

Lemma counter_matches_set_parent p t :
  counter_matches p -> counter_matches (set_parent_texture p t).
Proof. intros H. exact H. Qed.

(** X10 (gst_d3d11_allocator_alloc, gst_d3d11_allocator_free,
    gst_d3d11_allocator_set_flushing): the counter
    [num_array_textures_in_use] is the number of marked slots of the
    bitmap (modulo 2^32).  This holds for the allocator as
    gst_d3d11_allocator_init leaves it, and it is kept by every call of
    alloc (also the ones that fail or park), by set_flushing, and by the
    free of an object whose slot is marked. *)
Theorem counter_counts_marked_slots :
  counter_matches (priv gst_d3d11_allocator_init)
  /\ (forall p dev tid d flags size,
         counter_matches p ->
         counter_matches
           (snd (fst (gst_d3d11_allocator_alloc p dev tid d flags size))))
  /\ (forall p b,
         counter_matches p ->
         counter_matches (gst_d3d11_allocator_set_flushing p b))
  /\ (forall p dev dmem arr v p' dev',
         counter_matches p ->
         array_in_use p = Some arr ->
         arr !! Z.to_nat (subresource_index dmem) = Some v ->
         v <> 0 ->
         gst_d3d11_allocator_free p dev dmem = Some (p', dev') ->
         counter_matches p').
Proof.
  split; [reflexivity|]. split; [|split].
  - intros p dev tid d flags size Hcm.
    unfold gst_d3d11_allocator_alloc.
    destruct (negb (0 <? size)); [exact Hcm|].
    destruct (negb (Z.land flags GST_D3D11_ALLOCATION_FLAG_TEXTURE_ARRAY =? 0)).
    + pose proof (alloc_locked_counter p tid d Hcm) as Hcm1.
      destruct (alloc_locked p tid d) as [l p1]. cbn [snd] in Hcm1.
      destruct l; try exact Hcm1.
      cbv zeta. destruct (parent_texture p1); [exact Hcm1|].
      destruct (ID3D11Device_CreateTexture2D dev d None) as [[hr tex] dev1].
      destruct (negb (gst_d3d11_result hr)); [exact Hcm1|].
      destruct tex; exact Hcm1.
    + destruct (ID3D11Device_CreateTexture2D dev d None) as [[hr tex] dev1].
      destruct (negb (gst_d3d11_result hr)); exact Hcm.
  - intros p b Hcm. exact Hcm.
  - intros p dev dmem arr v p' dev' Hcm Harr Hv Hnz.
    pose proof (lookup_lt_Some _ _ _ Hv) as Hlt.
    destruct (free_with_bitmap p dev dmem arr Harr Hlt) as (dev1 & E & _).
    rewrite E. intros [= <- _].
    unfold counter_matches in *. cbn. rewrite Harr in Hcm. cbn in Hcm.
    rewrite Hcm, wrap_guint_pred. f_equal.
    pose proof (slots_in_use_clear arr _ v Hv Hnz) as Hs.
    unfold slots_in_use in Hs. lia.
Qed.

Lemma counter_counts_marked_slots_witness :
  counter_matches busy_allocator
  /\ array_in_use busy_allocator = Some [1; 1; 0]
  /\ forall p' dev',
       gst_d3d11_allocator_free busy_allocator working_device
         (new_memory 16384 (Some 100) (array_desc 3)
            GST_D3D11_MEMORY_TYPE_ARRAY 1) = Some (p', dev') ->
       counter_matches p'.
Proof.
  split; [reflexivity|]. split; [reflexivity|].
  destruct counter_counts_marked_slots as (_ & _ & _ & Hfree).
  intros p' dev' E.
  apply (Hfree busy_allocator working_device
           (new_memory 16384 (Some 100) (array_desc 3)
              GST_D3D11_MEMORY_TYPE_ARRAY 1) [1; 1; 0] 1 p' dev');
    [reflexivity | reflexivity | reflexivity | discriminate | exact E].
Defined.

(** *** Alloc and free of one slot *)

(** What a successful array call leaves behind. *)
Lemma array_alloc_success_state p dev tid d flags size mem p' dev' :
  Z.land flags GST_D3D11_ALLOCATION_FLAG_TEXTURE_ARRAY <> 0 ->
  gst_d3d11_allocator_alloc p dev tid d flags size = (AllocMem mem, p', dev') ->
  exists k t,
    mem = new_memory size (Some t) d GST_D3D11_MEMORY_TYPE_ARRAY (Z.of_nat k)
    /\ bitmap_at_scan p d !! k = Some 0
    /\ array_in_use p' = Some (<[k:=1]> (bitmap_at_scan p d))
    /\ num_array_textures_in_use p'
       = wrap_guint (num_array_textures_in_use p + 1)
    /\ cond p' = cond p
    /\ parent_texture p' = Some t
    /\ array_texture_size p'
       = match array_in_use p with
         | Some _ => array_texture_size p
         | None => ArraySize d
         end.
Proof.
  intros Hflag. unfold gst_d3d11_allocator_alloc.
  destruct (negb (0 <? size)); [discriminate|].
  destruct (Z.eqb_spec (Z.land flags GST_D3D11_ALLOCATION_FLAG_TEXTURE_ARRAY) 0)
    as [|_]; [contradiction|]. cbn [negb].
  unfold alloc_locked.
  destruct (flushing p); [discriminate|].
  destruct (scan_from (bitmap_at_scan p d) 0 (Z.to_nat (ArraySize d)))
    as [k| |] eqn:Hscan; try discriminate.
  destruct (scan_from_found_inv _ _ _ _ Hscan) as (_ & Hfree & _).
  set (p1 := match array_in_use p with None => _ | Some _ => p end).
  assert (Hp1 : parent_texture p1 = parent_texture p
                /\ num_array_textures_in_use p1 = num_array_textures_in_use p
                /\ cond p1 = cond p
                /\ array_texture_size p1
                   = match array_in_use p with
                     | Some _ => array_texture_size p
                     | None => ArraySize d
                     end).
  { subst p1. destruct (array_in_use p); repeat split. }
  destruct Hp1 as (Hpt & Hnum & Hcond & Hsz).
  cbv zeta. cbn [parent_texture set_in_use]. rewrite Hpt.
  destruct (parent_texture p) as [t|] eqn:Hparent.
  - intros [= <- <- <-]. exists k, t. cbn.
    rewrite Hnum, Hcond, Hsz, Hpt. repeat split; assumption.
  - unfold ID3D11Device_CreateTexture2D. cbv zeta.
    destruct (gst_d3d11_result (next_hresult dev)) eqn:Hhr;
      cbv beta iota; rewrite ?Hhr; cbn [negb]; [|discriminate].
    intros [= <- <- <-]. exists k, (next_handle dev). cbn.
    rewrite Hnum, Hcond, Hsz. repeat split; assumption.
Qed.

Lemma calls_release_if dev o :
  calls (release_if dev o) = calls dev ++ List.map Release (omap id [o]).
Proof. destruct o; cbn; [reflexivity|now rewrite app_nil_r]. Qed.

Lemma calls_release_views vs : forall dev,
  calls (fold_left (fun dv rs => release_if (release_if dv (fst rs)) (snd rs))
           vs dev)
  = calls dev
    ++ List.map Release (omap id (flat_map (fun rs => [fst rs; snd rs]) vs)).
Proof.
  induction vs as [|[r s] vs IH]; intros dev.
  - cbn. now rewrite app_nil_r.
  - cbn [fold_left flat_map fst snd]. rewrite IH, !calls_release_if.
    change ([r; s] ++ ?l) with ([r] ++ [s] ++ l).
    rewrite !omap_app, !map_app, <- !app_assoc. reflexivity.
Qed.

Lemma next_handle_release_views vs : forall dev,
  next_handle
    (fold_left (fun dv rs => release_if (release_if dv (fst rs)) (snd rs))
       vs dev) = next_handle dev.
Proof.
  induction vs as [|v vs IH]; intros dev; [reflexivity|].
  cbn [fold_left]. now rewrite IH, !next_handle_release_if.
Qed.

(** The native calls of [gst_d3d11_allocator_free]. *)
Lemma free_calls p dev dmem p' dev' :
  gst_d3d11_allocator_free p dev dmem = Some (p', dev') ->
  calls dev' = calls dev ++ List.map Release (memory_handles dmem)
  /\ hresults dev' = hresults dev
  /\ next_handle dev' = next_handle dev.
Proof.
  unfold gst_d3d11_allocator_free.
  match goal with
  | |- match ?x with _ => _ end = _ -> _ => destruct x; [|discriminate]
  end.
  intros [= _ <-]. split; [|split].
  - rewrite !calls_release_if, calls_release_views.
    unfold memory_handles.
    change [decoder_output_view dmem; processor_input_view dmem;
            processor_output_view dmem; texture dmem; staging dmem]
      with ([decoder_output_view dmem] ++ [processor_input_view dmem]
            ++ [processor_output_view dmem] ++ [texture dmem]
            ++ [staging dmem]).
    rewrite !omap_app, !map_app, <- !app_assoc. reflexivity.
  - now rewrite !hresults_release_if, hresults_release_views.
  - now rewrite !next_handle_release_if, next_handle_release_views.
Qed.

(** X11 (gst_d3d11_allocator_free): free makes no native call other than
    [Release], one for each pointer the object holds that is not [NULL],
    in the order render-target and shader-resource view of plane 0, 1, 2,
    3, decoder output view, processor input view, processor output view,
    texture, staging texture; it consumes no driver result, and it leaves
    the allocator's array texture, its two view arrays and its flushing
    flag alone. *)
Theorem free_releases_each_pointer_once p dev dmem p' dev' :
  gst_d3d11_allocator_free p dev dmem = Some (p', dev') ->
  calls dev' = calls dev ++ List.map Release (memory_handles dmem)
  /\ hresults dev' = hresults dev
  /\ next_handle dev' = next_handle dev
  /\ parent_texture p' = parent_texture p
  /\ decoder_output_view_array p' = decoder_output_view_array p
  /\ processor_input_view_array p' = processor_input_view_array p
  /\ flushing p' = flushing p.
Proof.
  intros E. destruct (free_calls _ _ _ _ _ E) as (Hc & Hh & Hn).
  repeat (split; [assumption|]).
  revert E. unfold gst_d3d11_allocator_free.
  destruct (array_in_use p) as [arr|].
  - destruct (bool_decide _); [|discriminate].
    intros [= <- _]. repeat split.
  - intros [= <- _]. repeat split.
Qed.

Lemma free_releases_each_pointer_once_witness :
  exists p' dev',
    gst_d3d11_allocator_free fresh_allocator working_device written_memory
    = Some (p', dev')
    /\ calls dev' = [Release 7; Release 100].
Proof.
  destruct (gst_d3d11_allocator_free fresh_allocator working_device
              written_memory) as [[p' dev']|] eqn:E; [|discriminate E].
  exists p', dev'. split; [reflexivity|].
  destruct (free_releases_each_pointer_once _ _ _ _ _ E) as (Hc & _).
  exact Hc.
Defined.

(** X12 (gst_d3d11_allocator_alloc, gst_d3d11_allocator_free): freeing the
    object that an array call has just returned undoes the call on the
    allocator: the bitmap is the one the scan read, the counter is back
    (modulo 2^32), one broadcast has emptied the condition variable; the
    one native call is the [Release] that drops the object's reference
    on the array texture, which the allocator keeps. *)
Theorem array_alloc_then_free_restores_slot p dev tid d flags size mem p1 dev1 :
  Z.land flags GST_D3D11_ALLOCATION_FLAG_TEXTURE_ARRAY <> 0 ->
  gst_d3d11_allocator_alloc p dev tid d flags size = (AllocMem mem, p1, dev1) ->
  exists p2 dev2 t,
    gst_d3d11_allocator_free p1 dev1 mem = Some (p2, dev2)
    /\ array_in_use p2 = Some (bitmap_at_scan p d)
    /\ num_array_textures_in_use p2
       = wrap_guint (num_array_textures_in_use p)
    /\ parent_texture p2 = Some t
    /\ calls dev2 = calls dev1 ++ [Release t]
    /\ waiters (cond p2) = []
    /\ broadcasts (cond p2) = S (broadcasts (cond p)).
Proof.
  intros Hflag Halloc.
  destruct (array_alloc_success_state _ _ _ _ _ _ _ _ _ Hflag Halloc)
    as (k & t & -> & Hfree & Harr & Hnum & Hcond & Hpt & _).
  pose proof (lookup_lt_Some _ _ _ Hfree) as Hlt.
  destruct (free_with_bitmap p1 dev1
              (new_memory size (Some t) d GST_D3D11_MEMORY_TYPE_ARRAY
                 (Z.of_nat k))
              _ Harr) as (dev2 & E & _).
  { cbn [subresource_index new_memory]. rewrite Nat2Z.id, length_insert.
    exact Hlt. }
  cbn [subresource_index new_memory] in E. rewrite Nat2Z.id in E.
  destruct (free_calls _ _ _ _ _ E) as (Hcalls & _).
  eexists _, dev2, t. split; [exact E|].
  cbn. rewrite list_insert_insert_eq, (list_insert_id _ _ _ Hfree).
  rewrite Hnum, Hcond, Hpt.
  repeat split; try reflexivity.
  - unfold wrap_guint. rewrite Zminus_mod_idemp_l. f_equal. lia.
  - exact Hcalls.
Qed.

Lemma array_alloc_then_free_restores_slot_witness :
  Z.land GST_D3D11_ALLOCATION_FLAG_TEXTURE_ARRAY
    GST_D3D11_ALLOCATION_FLAG_TEXTURE_ARRAY <> 0
  /\ exists mem p1 dev1 p2 dev2 t,
       gst_d3d11_allocator_alloc busy_allocator working_device 0%nat
         (array_desc 3) GST_D3D11_ALLOCATION_FLAG_TEXTURE_ARRAY 16384
       = (AllocMem mem, p1, dev1)
       /\ gst_d3d11_allocator_free p1 dev1 mem = Some (p2, dev2)
       /\ array_in_use p2 = Some (bitmap_at_scan busy_allocator (array_desc 3))
       /\ num_array_textures_in_use p2
          = wrap_guint (num_array_textures_in_use busy_allocator)
       /\ parent_texture p2 = Some t
       /\ calls dev2 = calls dev1 ++ [Release t]
       /\ waiters (cond p2) = []
       /\ broadcasts (cond p2) = S (broadcasts (cond busy_allocator)).
Proof.
  split; [discriminate|].
  destruct (gst_d3d11_allocator_alloc busy_allocator working_device 0%nat
              (array_desc 3) GST_D3D11_ALLOCATION_FLAG_TEXTURE_ARRAY 16384)
    as [[r p1] dev1] eqn:E.
  destruct r as [| |mem|]; try discriminate E.
  exists mem, p1, dev1.
  destruct (array_alloc_then_free_restores_slot busy_allocator working_device
              0%nat (array_desc 3) GST_D3D11_ALLOCATION_FLAG_TEXTURE_ARRAY
              16384 mem p1 dev1 ltac:(discriminate) E)
    as (p2 & dev2 & t & H).
  exists p2, dev2, t. split; [reflexivity|exact H].
Defined.

(** *** Reading the bitmap *)

Lemma scan_from_in_range arr n : forall i,
  (i + n <= length arr)%nat -> scan_from arr i n <> ScanOutOfRange.
Proof.
  induction n as [|n IH]; intros i Hlen; cbn [scan_from]; [discriminate|].
  destruct (lookup_lt_is_Some_2 arr i ltac:(lia)) as [v ->].
  destruct (v =? 0); [discriminate|]. apply IH. lia.
Qed.

(** X13 (gst_d3d11_allocator_alloc): a call whose [ArraySize] is not
    larger than the bitmap the allocator already has (or that meets an
    allocator without bitmap, for which it makes one of that size) never
    reads the bitmap out of range. *)
Theorem alloc_within_bitmap_reads_in_range p dev tid d flags size :
  (forall arr, array_in_use p = Some arr ->
               (Z.to_nat (ArraySize d) <= length arr)%nat) ->
  fst (fst (gst_d3d11_allocator_alloc p dev tid d flags size)) <> AllocFault.
Proof.
  intros Hlen. unfold gst_d3d11_allocator_alloc.
  destruct (negb (0 <? size)); [discriminate|].
  destruct (negb (Z.land flags GST_D3D11_ALLOCATION_FLAG_TEXTURE_ARRAY =? 0)).
  - unfold alloc_locked. destruct (flushing p); [discriminate|].
    assert (Hscan : scan_from (bitmap_at_scan p d) 0 (Z.to_nat (ArraySize d))
                    <> ScanOutOfRange).
    { apply scan_from_in_range. unfold bitmap_at_scan.
      destruct (array_in_use p) as [arr|] eqn:Harr.
      - now apply Hlen.
      - rewrite length_replicate. lia. }
    destruct (scan_from (bitmap_at_scan p d) 0 (Z.to_nat (ArraySize d)));
      [|discriminate|contradiction].
    cbv zeta.
    match goal with
    | |- context [parent_texture ?q] => destruct (parent_texture q)
    end; [discriminate|].
    unfold ID3D11Device_CreateTexture2D. cbv zeta.
    destruct (gst_d3d11_result (next_hresult dev)) eqn:Hhr;
      cbv beta iota; rewrite ?Hhr; cbn [negb]; discriminate.
  - unfold ID3D11Device_CreateTexture2D. cbv zeta.
    destruct (gst_d3d11_result (next_hresult dev)) eqn:Hhr;
      cbv beta iota; rewrite ?Hhr; cbn [negb]; discriminate.
Qed.

Lemma alloc_within_bitmap_reads_in_range_witness :
  array_in_use busy_allocator = Some [1; 1; 0]
  /\ fst (fst (gst_d3d11_allocator_alloc busy_allocator working_device 0%nat
                 (array_desc 3) GST_D3D11_ALLOCATION_FLAG_TEXTURE_ARRAY
                 16384)) <> AllocFault.
Proof.
  split; [reflexivity|].
  apply (alloc_within_bitmap_reads_in_range busy_allocator working_device
           0%nat (array_desc 3) GST_D3D11_ALLOCATION_FLAG_TEXTURE_ARRAY 16384).
  intros arr [= <-]. cbn. lia.
Defined.

(** *** The size of the array *)




(** *** Staging objects *)



(* ===================================================================== *)
(** ** Properties of the derived views *)
(* ===================================================================== *)

Lemma fresh_handles_S h n :
  fresh_handles h (S n) = h :: fresh_handles (h + 1) n.
Proof.
  unfold fresh_handles. cbn [seq List.map]. rewrite Z.add_0_r. f_equal.
  rewrite <- seq_shift, List.map_map. apply List.map_ext. intros k. lia.
Qed.

Lemma length_fresh_handles h n : length (fresh_handles h n) = n.
Proof. unfold fresh_handles. now rewrite length_map, length_seq. Qed.

(** One successful view creation. *)
Lemma create_view_success mk dev vlog res f out :
  gst_d3d11_result (next_hresult dev) = true ->
  ID3D11Device_CreateView mk dev vlog res f out
  = (next_hresult dev, Some (next_handle dev),
     {| hresults := tl (hresults dev); next_handle := next_handle dev + 1;
        mapping := mapping dev; calls := calls dev |},
     vlog ++ [mk res f (next_hresult dev)]).
Proof. intros H. unfold ID3D11Device_CreateView. cbv zeta. now rewrite H. Qed.

Lemma create_view_failure mk dev vlog res f out :
  gst_d3d11_result (next_hresult dev) = false ->
  ID3D11Device_CreateView mk dev vlog res f out
  = (next_hresult dev, out, consume_hresult dev,
     vlog ++ [mk res f (next_hresult dev)]).
Proof. intros H. unfold ID3D11Device_CreateView. cbv zeta. now rewrite H. Qed.

(** The creation loop on a driver that does not fail: the slots from
    [length pre] on take the new views, one per format, in order. *)
Lemma create_views_loop_success mk res : forall formats pre rest dev vlog,
  driver_succeeds dev ->
  (length formats <= length rest)%nat ->
  exists dev' hrs,
    create_views_loop mk res formats (length pre) dev vlog (pre ++ rest)
    = (true, dev', vlog ++ zip_with (mk res) formats hrs,
       pre ++ List.map Some (fresh_handles (next_handle dev) (length formats))
       ++ drop (length formats) rest)
    /\ length hrs = length formats
    /\ calls dev' = calls dev
    /\ mapping dev' = mapping dev
    /\ next_handle dev' = next_handle dev + Z.of_nat (length formats)
    /\ hresults dev' = drop (length formats) (hresults dev).
Proof.
  induction formats as [|f formats IH]; intros pre rest dev vlog Hdrv Hlen.
  - exists dev, []. cbn. rewrite app_nil_r, Z.add_0_r. now repeat split.
  - destruct rest as [|y rest]; [cbn in Hlen; lia|]. cbn in Hlen.
    cbn [create_views_loop].
    rewrite (create_view_success mk dev vlog res f _
               (driver_succeeds_next dev Hdrv)).
    cbv beta iota. rewrite (driver_succeeds_next dev Hdrv). cbn [negb].
    replace (<[length pre:=Some (next_handle dev)]> (pre ++ y :: rest))
      with ((pre ++ [Some (next_handle dev)]) ++ rest).
    2:{ rewrite <- app_assoc.
        rewrite (insert_app_r_alt pre (y :: rest) (length pre)) by lia.
        now rewrite Nat.sub_diag. }
    replace (S (length pre)) with (length (pre ++ [Some (next_handle dev)]))
      by (rewrite length_app; cbn; lia).
    destruct (IH (pre ++ [Some (next_handle dev)]) rest
                {| hresults := tl (hresults dev);
                   next_handle := next_handle dev + 1;
                   mapping := mapping dev; calls := calls dev |}
                (vlog ++ [mk res f (next_hresult dev)]))
      as (dev' & hrs & E & Hh & Hc & Hm & Hn & Hr).
    { apply driver_succeeds_tl. exact Hdrv. }
    { lia. }
    exists dev', (next_hresult dev :: hrs). rewrite E.
    cbn [hresults next_handle mapping calls] in *.
    split.
    + f_equal; [f_equal|].
      * rewrite <- app_assoc. reflexivity.
      * cbn [length]. rewrite fresh_handles_S, <- app_assoc. reflexivity.
    + cbn [length]. rewrite Hh, Hc, Hm, Hn, Hr.
      repeat split; try reflexivity; try lia.
      destruct (hresults dev); [simpl; now rewrite ?drop_nil|reflexivity].
Qed.

(** The creation loop when the driver fails the call after [oks]
    successes: the views made so far stay in their slots. *)
Lemma create_views_loop_failure mk res : forall formats pre rest dev vlog
    oks bad tail,
  hresults dev = oks ++ bad :: tail ->
  Forall (fun hr => gst_d3d11_result hr = true) oks ->
  gst_d3d11_result bad = false ->
  (length oks < length formats)%nat ->
  (length formats <= length rest)%nat ->
  exists dev' vlog',
    create_views_loop mk res formats (length pre) dev vlog (pre ++ rest)
    = (false, dev', vlog',
       pre ++ List.map Some (fresh_handles (next_handle dev) (length oks))
       ++ drop (length oks) rest)
    /\ length vlog' = (length vlog + S (length oks))%nat
    /\ calls dev' = calls dev
    /\ mapping dev' = mapping dev
    /\ next_handle dev' = next_handle dev + Z.of_nat (length oks)
    /\ hresults dev' = tail.
Proof.
  induction formats as [|f formats IH];
    intros pre rest dev vlog oks bad tail Hhr Hoks Hbad Hlt Hlen;
    [cbn in Hlt; lia|].
  destruct rest as [|y rest]; [cbn in Hlen; lia|]. cbn in Hlen, Hlt.
  cbn [create_views_loop].
  destruct oks as [|o oks].
  - assert (Hnext : gst_d3d11_result (next_hresult dev) = false).
    { unfold next_hresult. now rewrite Hhr. }
    rewrite (create_view_failure mk dev vlog res f _ Hnext).
    cbv beta iota. rewrite Hnext. cbn [negb].
    rewrite list_lookup_middle by reflexivity. cbn [default from_option id].
    rewrite list_insert_id by (now apply list_lookup_middle).
    do 2 eexists. split; [reflexivity|].
    cbn. rewrite Hhr, length_app, Z.add_0_r. cbn. repeat split; lia.
  - inversion Hoks as [|? ? Ho Hoks']; subst.
    assert (Hnext : gst_d3d11_result (next_hresult dev) = true).
    { unfold next_hresult. now rewrite Hhr. }
    rewrite (create_view_success mk dev vlog res f _ Hnext).
    cbv beta iota. rewrite Hnext. cbn [negb].
    replace (<[length pre:=Some (next_handle dev)]> (pre ++ y :: rest))
      with ((pre ++ [Some (next_handle dev)]) ++ rest).
    2:{ rewrite <- app_assoc.
        rewrite (insert_app_r_alt pre (y :: rest) (length pre)) by lia.
        now rewrite Nat.sub_diag. }
    replace (S (length pre)) with (length (pre ++ [Some (next_handle dev)]))
      by (rewrite length_app; cbn; lia).
    destruct (IH (pre ++ [Some (next_handle dev)]) rest
                {| hresults := tl (hresults dev);
                   next_handle := next_handle dev + 1;
                   mapping := mapping dev; calls := calls dev |}
                (vlog ++ [mk res f (next_hresult dev)]) oks bad tail)
      as (dev' & vlog' & E & Hv & Hc & Hm & Hn & Hr);
      [now rewrite Hhr | exact Hoks' | exact Hbad | cbn in Hlt; lia | lia |].
    exists dev', vlog'. rewrite E.
    cbn [hresults next_handle mapping calls] in *.
    split.
    + f_equal. cbn [length]. rewrite fresh_handles_S, <- app_assoc.
      reflexivity.
    + cbn [length]. rewrite Hv, Hc, Hm, Hn, Hr, length_app.
      cbn [length]. repeat split; lia.
Qed.

(** The release loop of the error path. *)
Lemma release_views_loop_spec : forall n pre rest dev,
  (n <= length rest)%nat ->
  release_views_loop (length pre) n dev (pre ++ rest)
  = (fold_left release_if (take n rest) dev,
     pre ++ replicate n None ++ drop n rest).
Proof.
  induction n as [|n IH]; intros pre rest dev Hlen; [reflexivity|].
  destruct rest as [|y rest]; [cbn in Hlen; lia|]. cbn in Hlen.
  cbn [release_views_loop].
  rewrite list_lookup_middle by reflexivity. cbn [default from_option id].
  replace (<[length pre:=None]> (pre ++ y :: rest))
    with ((pre ++ [None]) ++ rest).
  2:{ rewrite <- app_assoc.
      rewrite (insert_app_r_alt pre (y :: rest) (length pre)) by lia.
      now rewrite Nat.sub_diag. }
  replace (S (length pre)) with (length (pre ++ [@None Handle]))
    by (rewrite length_app; cbn; lia).
  rewrite IH by lia. cbn [take fold_left replicate drop].
  now rewrite <- app_assoc.
Qed.

Lemma calls_fold_release vs : forall dev,
  calls (fold_left release_if vs dev)
  = calls dev ++ List.map Release (omap id vs).
Proof.
  induction vs as [|v vs IH]; intros dev.
  - cbn. now rewrite app_nil_r.
  - cbn [fold_left]. rewrite IH, calls_release_if.
    change (v :: vs) with ([v] ++ vs).
    now rewrite omap_app, map_app, <- app_assoc.
Qed.

Lemma hresults_fold_release vs : forall dev,
  hresults (fold_left release_if vs dev) = hresults dev.
Proof.
  induction vs as [|v vs IH]; intros dev; [reflexivity|].
  cbn [fold_left]. now rewrite IH, hresults_release_if.
Qed.

Lemma omap_fresh_views h k n :
  omap id (List.map Some (fresh_handles h k) ++ replicate n (@None Handle))
  = fresh_handles h k.
Proof.
  rewrite omap_app.
  assert (H1 : forall l : list Handle, omap id (List.map Some l) = l).
  { induction l as [|x l IH]; [reflexivity|]. cbn. now rewrite IH. }
  assert (H2 : omap id (replicate n (@None Handle)) = []).
  { induction n as [|n IH]; [reflexivity|]. exact IH. }
  now rewrite H1, H2, app_nil_r.
Qed.

Lemma single_bit_tests flags k :
  0 <= k ->
  (Z.land flags (Z.shiftl 1 k) =? 0) = negb (has_flags flags (Z.shiftl 1 k)).
Proof.
  intros Hk. rewrite has_flags_bit by exact Hk.
  rewrite <- (nonzero_land_bit flags k Hk). now rewrite negb_involutive.
Qed.

Lemma shader_resource_view_formats_length f formats :
  shader_resource_view_formats f = Some formats ->
  length formats = if is_semi_planar f then 2%nat else 1%nat.
Proof. destruct f; intros [= <-]; reflexivity. Qed.

Lemma render_target_view_formats_length f formats :
  render_target_view_formats f = Some formats ->
  length formats = if is_semi_planar f then 2%nat else 1%nat.
Proof. destruct f; intros [= <-]; reflexivity. Qed.

(** *** Shader resource views and render target views *)

(** X16 (gst_d3d11_memory_ensure_shader_resource_view,
    create_shader_resource_views, gst_d3d11_memory_get_shader_resource_view):
    on an object with the shader-resource bind flag and no views yet, a
    driver that does not fail makes one view per plane of the format, in
    plane order, on the object's texture: two for NV12, P010 and P016,
    one for every other format; afterwards
    gst_d3d11_memory_get_shader_resource_view gives view [index] for every
    index below that count and [NULL] from the count on, without a further
    native call. *)
Theorem shader_resource_views_created dev vlog mem formats :
  Z.land (BindFlags (desc mem)) D3D11_BIND_SHADER_RESOURCE <> 0 ->
  num_shader_resource_views mem = 0 ->
  shader_resource_view_formats (Format (desc mem)) = Some formats ->
  length (shader_resource_view mem) = GST_VIDEO_MAX_PLANES ->
  driver_succeeds dev ->
  exists dev' hrs mem',
    gst_d3d11_memory_ensure_shader_resource_view dev vlog mem
    = Some (true, dev',
            vlog ++ zip_with (CreateShaderResourceView (texture mem))
                      formats hrs, mem')
    /\ length hrs = length formats
    /\ calls dev' = calls dev
    /\ num_shader_resource_views mem'
       = (if is_semi_planar (Format (desc mem)) then 2 else 1)
    /\ forall index dev2 vlog2,
         0 <= index ->
         gst_d3d11_memory_get_shader_resource_view dev2 vlog2 mem' index
         = Some (if index <? num_shader_resource_views mem'
                 then Some (next_handle dev + index) else None,
                 dev2, vlog2, mem').
Proof.
  intros Hbind Hnum Hfmt Hlen Hdrv.
  pose proof (shader_resource_view_formats_length _ _ Hfmt) as Hn.
  assert (Hbit : (Z.land (BindFlags (desc mem)) D3D11_BIND_SHADER_RESOURCE =? 0)
                 = false) by now apply Z.eqb_neq.
  assert (Hhas : has_flags (BindFlags (desc mem)) D3D11_BIND_SHADER_RESOURCE
                 = true).
  { change D3D11_BIND_SHADER_RESOURCE with (Z.shiftl 1 3) in *.
    rewrite single_bit_tests in Hbit by lia.
    now destruct (has_flags (BindFlags (desc mem)) (Z.shiftl 1 3)). }
  destruct (create_views_loop_success CreateShaderResourceView (texture mem)
              formats [] (shader_resource_view mem) dev vlog Hdrv)
    as (dev' & hrs & E & Hh & Hc & _).
  { rewrite Hlen, Hn. destruct (is_semi_planar _); unfold GST_VIDEO_MAX_PLANES; lia. }
  cbn [length app] in E.
  unfold gst_d3d11_memory_ensure_shader_resource_view.
  rewrite Hbit, Hnum. cbn [Z.eqb negb].
  unfold create_shader_resource_views. rewrite Hfmt, Hhas, E.
  do 3 eexists. split; [reflexivity|].
  split; [exact Hh|]. split; [exact Hc|].
  cbn [num_shader_resource_views set_shader_resource_views].
  split; [rewrite Hn; now destruct (is_semi_planar _)|].
  intros index dev2 vlog2 Hidx.
  unfold gst_d3d11_memory_get_shader_resource_view,
    gst_d3d11_memory_ensure_shader_resource_view.
  cbn [desc num_shader_resource_views shader_resource_view
         set_shader_resource_views].
  rewrite Hbit, Hn.
  destruct (shader_resource_view mem) as [|v0 [|v1 views]];
    [discriminate Hlen..|].
  destruct (is_semi_planar (Format (desc mem)));
    unfold fresh_handles; cbn [seq List.map length app drop];
    change (Z.of_nat 2) with 2; change (Z.of_nat 1) with 1;
    change (Z.of_nat 0) with 0; rewrite Z.add_0_r;
    cbn [Z.eqb negb num_shader_resource_views shader_resource_view
           set_shader_resource_views].
  - assert (Hcase : index = 0 \/ index = 1 \/ 2 <= index) by lia.
    destruct Hcase as [->|[->|Hge]]; [rewrite ?Z.add_0_r; reflexivity..|].
    destruct (Z.leb_spec 2 index); [|lia].
    destruct (Z.ltb_spec index 2); [lia|]. reflexivity.
  - assert (Hcase : index = 0 \/ 1 <= index) by lia.
    destruct Hcase as [->|Hge]; [rewrite ?Z.add_0_r; reflexivity|].
    destruct (Z.leb_spec 1 index); [|lia].
    destruct (Z.ltb_spec index 1); [lia|]. reflexivity.
Qed.

Lemma shader_resource_views_created_witness :
  exists dev' hrs mem',
    gst_d3d11_memory_ensure_shader_resource_view working_device []
      (bindable_memory DXGI_FORMAT_NV12)
    = Some (true, dev',
            [] ++ zip_with (CreateShaderResourceView (Some 7))
                    [DXGI_FORMAT_R8_UNORM; DXGI_FORMAT_R8G8_UNORM] hrs, mem')
    /\ num_shader_resource_views mem' = 2
    /\ gst_d3d11_memory_get_shader_resource_view dev' [] mem' 1
       = Some (Some 101, dev', [], mem').
Proof.
  destruct (shader_resource_views_created working_device []
              (bindable_memory DXGI_FORMAT_NV12)
              [DXGI_FORMAT_R8_UNORM; DXGI_FORMAT_R8G8_UNORM])
    as (dev' & hrs & mem' & E & _ & _ & Hnum & Hget);
    [discriminate | reflexivity | reflexivity | reflexivity | constructor |].
  exists dev', hrs, mem'. split; [exact E|]. split; [exact Hnum|].
  rewrite (Hget 1 dev' []) by lia. rewrite Hnum. reflexivity.
Defined.

(** X17 (gst_d3d11_memory_ensure_shader_resource_view): views are made
    once.  After a call that returned [TRUE], every further call returns
    [TRUE] without a native call and leaves the object, with its views,
    as it is. *)
Theorem shader_resource_views_are_made_once dev vlog mem dev1 vlog1 mem1 :
  gst_d3d11_memory_ensure_shader_resource_view dev vlog mem
  = Some (true, dev1, vlog1, mem1) ->
  forall dev2 vlog2,
    gst_d3d11_memory_ensure_shader_resource_view dev2 vlog2 mem1
    = Some (true, dev2, vlog2, mem1).
Proof.
  unfold gst_d3d11_memory_ensure_shader_resource_view.
  destruct (Z.land (BindFlags (desc mem)) D3D11_BIND_SHADER_RESOURCE =? 0)
    eqn:Hbit; [discriminate|].
  destruct (num_shader_resource_views mem =? 0) eqn:Hnum; cbn [negb].
  - unfold create_shader_resource_views.
    destruct (shader_resource_view_formats (Format (desc mem)))
      as [formats|] eqn:Hfmt; [|discriminate].
    destruct (has_flags _ _); [|discriminate].
    destruct (create_views_loop _ _ _ _ _ _ _) as [[[ok dev'] vlog'] views'].
    destruct ok.
    + intros [= <- <- <-] dev2 vlog2.
      cbn [desc num_shader_resource_views set_shader_resource_views].
      rewrite Hbit.
      rewrite (shader_resource_view_formats_length _ _ Hfmt).
      now destruct (is_semi_planar _).
    + destruct (release_views_loop _ _ _ _). discriminate.
  - intros [= <- <- <-] dev2 vlog2. now rewrite Hbit, Hnum.
Qed.

Lemma shader_resource_views_are_made_once_witness :
  exists dev1 vlog1 mem1,
    gst_d3d11_memory_ensure_shader_resource_view working_device []
      (bindable_memory DXGI_FORMAT_NV12) = Some (true, dev1, vlog1, mem1)
    /\ gst_d3d11_memory_ensure_shader_resource_view dev1 vlog1 mem1
       = Some (true, dev1, vlog1, mem1).
Proof.
  eexists _, _, _. split; [vm_compute; reflexivity|].
  eapply (shader_resource_views_are_made_once working_device []
            (bindable_memory DXGI_FORMAT_NV12)).
  vm_compute. reflexivity.
Defined.

(** X18 (create_shader_resource_views): when the driver fails a view
    after [oks] views have been made, the error path releases exactly
    the views this call made and the object is back as it was before the
    call: no view pointer is left and the view count is 0. *)
Theorem shader_resource_view_failure_releases_views dev vlog mem formats
    oks bad tail :
  Z.land (BindFlags (desc mem)) D3D11_BIND_SHADER_RESOURCE <> 0 ->
  num_shader_resource_views mem = 0 ->
  shader_resource_view mem = replicate GST_VIDEO_MAX_PLANES None ->
  shader_resource_view_formats (Format (desc mem)) = Some formats ->
  hresults dev = oks ++ bad :: tail ->
  Forall (fun hr => gst_d3d11_result hr = true) oks ->
  gst_d3d11_result bad = false ->
  (length oks < length formats)%nat ->
  exists dev' vlog',
    gst_d3d11_memory_ensure_shader_resource_view dev vlog mem
    = Some (false, dev', vlog', mem)
    /\ calls dev'
       = calls dev
         ++ List.map Release (fresh_handles (next_handle dev) (length oks))
    /\ hresults dev' = tail
    /\ length vlog' = (length vlog + S (length oks))%nat.
Proof.
  intros Hbind Hnum Hviews Hfmt Hhr Hoks Hbad Hlt.
  pose proof (shader_resource_view_formats_length _ _ Hfmt) as Hn.
  assert (Hbit : (Z.land (BindFlags (desc mem)) D3D11_BIND_SHADER_RESOURCE =? 0)
                 = false) by now apply Z.eqb_neq.
  assert (Hhas : has_flags (BindFlags (desc mem)) D3D11_BIND_SHADER_RESOURCE
                 = true).
  { change D3D11_BIND_SHADER_RESOURCE with (Z.shiftl 1 3) in *.
    rewrite single_bit_tests in Hbit by lia.
    now destruct (has_flags (BindFlags (desc mem)) (Z.shiftl 1 3)). }
  assert (Hn4 : (length formats <= GST_VIDEO_MAX_PLANES)%nat).
  { rewrite Hn. destruct (is_semi_planar _); unfold GST_VIDEO_MAX_PLANES; lia. }
  destruct (create_views_loop_failure CreateShaderResourceView (texture mem)
              formats [] (shader_resource_view mem) dev vlog oks bad tail
              Hhr Hoks Hbad Hlt)
    as (dev1 & vlog1 & E & Hv & Hc & _ & _ & Hr).
  { now rewrite Hviews, length_replicate. }
  cbn [length app] in E.
  unfold gst_d3d11_memory_ensure_shader_resource_view.
  rewrite Hbit, Hnum. cbn [Z.eqb negb].
  unfold create_shader_resource_views. rewrite Hfmt, Hhas, E.
  rewrite Hviews, drop_replicate.
  set (k := length oks) in *. set (n := length formats) in *.
  replace (List.map Some (fresh_handles (next_handle dev) k)
           ++ replicate (GST_VIDEO_MAX_PLANES - k) None)
    with ([] ++ (List.map Some (fresh_handles (next_handle dev) k)
                 ++ replicate (n - k) None)
             ++ replicate (GST_VIDEO_MAX_PLANES - n) None).
  2:{ cbn [app]. rewrite <- app_assoc. f_equal.
      rewrite <- replicate_add. f_equal. lia. }
  assert (Hlenmid :
            length (List.map Some (fresh_handles (next_handle dev) k)
                    ++ replicate (n - k) (@None Handle)) = n).
  { rewrite length_app, length_map, length_fresh_handles, length_replicate.
    lia. }
  change 0%nat with (length (@nil (option Handle))) at 1.
  rewrite release_views_loop_spec
    by (rewrite length_app, Hlenmid; lia).
  rewrite take_app_length' by (symmetry; exact Hlenmid).
  rewrite drop_app_length' by (symmetry; exact Hlenmid).
  exists (fold_left release_if
            (List.map Some (fresh_handles (next_handle dev) k)
             ++ replicate (n - k) None) dev1), vlog1.
  split.
  - f_equal. f_equal.
    cbn [app]. rewrite <- replicate_add.
    replace (n + (GST_VIDEO_MAX_PLANES - n))%nat with GST_VIDEO_MAX_PLANES
      by lia.
    rewrite <- Hviews, <- Hnum. now destruct mem.
  - rewrite calls_fold_release, hresults_fold_release, omap_fresh_views, Hc.
    repeat split; assumption.
Qed.

Lemma shader_resource_view_failure_releases_views_witness :
  exists dev' vlog',
    gst_d3d11_memory_ensure_shader_resource_view failing_map_device []
      (bindable_memory DXGI_FORMAT_NV12)
    = Some (false, dev', vlog', bindable_memory DXGI_FORMAT_NV12)
    /\ calls dev' = [Release 100]
    /\ hresults dev' = []
    /\ length vlog' = 2%nat.
Proof.
  apply (shader_resource_view_failure_releases_views failing_map_device []
           (bindable_memory DXGI_FORMAT_NV12)
           [DXGI_FORMAT_R8_UNORM; DXGI_FORMAT_R8G8_UNORM] [S_OK] E_FAIL []);
    try reflexivity; [discriminate | repeat constructor | cbn; lia].
Defined.

Lemma shader_resource_view_formats_None f :
  shader_resource_view_formats f = None <-> ~ In f shader_resource_view_cases.
Proof.
  destruct f; split;
    cbn [shader_resource_view_formats shader_resource_view_cases In];
    try (intros H; discriminate H);
    try (intros _ H; intuition discriminate);
    try reflexivity;
    intros H; exfalso; apply H; intuition.
Qed.

Lemma render_target_view_formats_None f :
  render_target_view_formats f = None <-> ~ In f render_target_view_cases.
Proof.
  destruct f; split;
    cbn [render_target_view_formats render_target_view_cases In];
    try (intros H; discriminate H);
    try (intros _ H; intuition discriminate);
    try reflexivity;
    intros H; exfalso; apply H; intuition.
Qed.

(** X19 (gst_d3d11_memory_ensure_shader_resource_view,
    gst_d3d11_memory_ensure_render_target_view and the two create
    functions): the only way into [g_assert_not_reached] is a texture
    format that the [switch] of the create function does not name, on an
    object that has the bind flag and no views yet.  So every value of
    the enum outside the seventeen cases of [create_shader_resource_views]
    aborts the shader resource views, and every value outside the eleven
    cases of [create_render_target_views] aborts the render target views:
    among them the packed formats G8R8_G8B8, R8G8_B8G8, R16G16B16A16,
    YUY2, Y210 and Y410, for which shader resource views are made. *)
Theorem view_creation_aborts_on_unlisted_format dev vlog mem :
  (gst_d3d11_memory_ensure_shader_resource_view dev vlog mem = None
   <-> Z.land (BindFlags (desc mem)) D3D11_BIND_SHADER_RESOURCE <> 0
       /\ num_shader_resource_views mem = 0
       /\ ~ In (Format (desc mem)) shader_resource_view_cases)
  /\ (gst_d3d11_memory_ensure_render_target_view dev vlog mem = None
      <-> Z.land (BindFlags (desc mem)) D3D11_BIND_RENDER_TARGET <> 0
          /\ num_render_target_views mem = 0
          /\ ~ In (Format (desc mem)) render_target_view_cases).
Proof.
  split.
  - rewrite <- shader_resource_view_formats_None.
    unfold gst_d3d11_memory_ensure_shader_resource_view,
      create_shader_resource_views.
    destruct (Z.eqb_spec
                (Z.land (BindFlags (desc mem)) D3D11_BIND_SHADER_RESOURCE) 0)
      as [Hb|Hb]; [split; [discriminate|tauto]|].
    destruct (Z.eqb_spec (num_shader_resource_views mem) 0) as [Hn|Hn];
      cbn [negb]; [|split; [discriminate|tauto]].
    destruct (shader_resource_view_formats (Format (desc mem)))
      as [formats|] eqn:Hfmt.
    + split.
      * destruct (has_flags _ _); [|discriminate].
        destruct (create_views_loop _ _ _ _ _ _ _)
          as [[[ok dev'] vlog'] views'].
        destruct ok; [discriminate|].
        destruct (release_views_loop _ _ _ _). discriminate.
      * intros (_ & _ & Hf). discriminate Hf.
    + split; [|reflexivity]. intros _. now repeat split.
  - rewrite <- render_target_view_formats_None.
    unfold gst_d3d11_memory_ensure_render_target_view,
      create_render_target_views.
    destruct (Z.eqb_spec
                (Z.land (BindFlags (desc mem)) D3D11_BIND_RENDER_TARGET) 0)
      as [Hb|Hb]; [split; [discriminate|tauto]|].
    destruct (Z.eqb_spec (num_render_target_views mem) 0) as [Hn|Hn];
      cbn [negb]; [|split; [discriminate|tauto]].
    destruct (render_target_view_formats (Format (desc mem)))
      as [formats|] eqn:Hfmt.
    + split.
      * destruct (has_flags _ _); [|discriminate].
        destruct (create_views_loop _ _ _ _ _ _ _)
          as [[[ok dev'] vlog'] views'].
        destruct ok; [discriminate|].
        destruct (release_views_loop _ _ _ _). discriminate.
      * intros (_ & _ & Hf). discriminate Hf.
    + split; [|reflexivity]. intros _. now repeat split.
Qed.

(** A B8G8R8X8 texture (number 88 of the enum) aborts both; a YUY2
    texture aborts the render target views only. *)
Lemma view_creation_aborts_on_unlisted_format_witness :
  gst_d3d11_memory_ensure_shader_resource_view working_device []
    (bindable_memory (DXGI_FORMAT_OTHER 88)) = None
  /\ gst_d3d11_memory_ensure_render_target_view working_device []
       (bindable_memory DXGI_FORMAT_YUY2) = None
  /\ gst_d3d11_memory_ensure_shader_resource_view working_device []
       (bindable_memory DXGI_FORMAT_YUY2) <> None.
Proof.
  destruct (view_creation_aborts_on_unlisted_format working_device []
              (bindable_memory DXGI_FORMAT_YUY2)) as [Hs Hr].
  destruct (view_creation_aborts_on_unlisted_format working_device []
              (bindable_memory (DXGI_FORMAT_OTHER 88))) as [Ho _].
  split; [|split].
  - apply Ho. split; [discriminate|]. split; [reflexivity|].
    cbn. intuition discriminate.
  - apply Hr. split; [discriminate|]. split; [reflexivity|].
    cbn. intuition discriminate.
  - intros H. apply Hs in H. destruct H as (_ & _ & H).
    apply H. cbn. intuition.
Defined.

(** *** Views of the video device *)

Lemma decoder_view_closed_form p dev vd mem profile :
  gst_d3d11_memory_ensure_decoder_output_view p dev vd mem profile
  = if Z.land (BindFlags (desc mem)) D3D11_BIND_DECODER =? 0
    then Some (false, (p, dev, vd, mem))
    else
      match decoder_output_view mem with
      | Some v =>
          if IsEqualGUID (GetDesc_DecodeProfile vd v) profile
          then Some (true, (p, dev, vd, mem))
          else decoder_view_lookup p (COM_Release dev v) vd
                 (set_decoder_output_view mem None) profile
      | None => decoder_view_lookup p dev vd mem profile
      end.
Proof.
  unfold gst_d3d11_memory_ensure_decoder_output_view.
  destruct (Z.land (BindFlags (desc mem)) D3D11_BIND_DECODER =? 0);
    [reflexivity|].
  assert (Htail : forall dev1 mem1,
            decoder_output_view mem1 = None ->
            subresource_index mem1 = subresource_index mem ->
            match
              match decoder_output_view_array p with
              | Some arr =>
                  match arr !! Z.to_nat (subresource_index mem) with
                  | Some (Some view) =>
                      if negb (IsEqualGUID (GetDesc_DecodeProfile vd view)
                                 profile)
                      then Some (set_decoder_output_view_array p
                                   (Some (<[Z.to_nat (subresource_index mem)
                                            :=None]> arr)),
                                 COM_Release dev1 view, mem1)
                      else Some (p, COM_AddRef dev1 view,
                                 set_decoder_output_view mem1 (Some view))
                  | Some None => Some (p, dev1, mem1)
                  | None => None
                  end
              | None => Some (p, dev1, mem1)
              end
            with
            | Some (p2, dev2, mem2) =>
                if non_null (decoder_output_view mem2)
                then Some (true, (p2, dev2, vd, mem2))
                else
                  let '(hr, out, vd3) :=
                    ID3D11VideoDevice_CreateVideoDecoderOutputView vd
                      (texture mem2) profile (subresource_index mem2)
                      (decoder_output_view mem2) in
                  let mem3 := set_decoder_output_view mem2 out in
                  if negb (gst_d3d11_result hr)
                  then Some (false, (p2, dev2, vd3, mem3))
                  else
                    match decoder_output_view_array p2, out with
                    | Some arr, Some created =>
                        match arr !! Z.to_nat (subresource_index mem) with
                        | Some old =>
                            Some (true,
                                  (set_decoder_output_view_array p2
                                     (Some (<[Z.to_nat (subresource_index mem)
                                              :=Some created]> arr)),
                                   COM_AddRef (release_if dev2 old) created,
                                   vd3, mem3))
                        | None => None
                        end
                    | _, _ => Some (true, (p2, dev2, vd3, mem3))
                    end
            | None => None
            end = decoder_view_lookup p dev1 vd mem1 profile).
  { intros dev1 mem1 Hnone Hidx. unfold decoder_view_lookup.
    rewrite Hidx.
    destruct (decoder_output_view_array p) as [arr|] eqn:Harr.
    - destruct (arr !! Z.to_nat (subresource_index mem)) as [[view|]|];
        [| |reflexivity].
      + destruct (IsEqualGUID (GetDesc_DecodeProfile vd view) profile);
          cbn [negb]; [reflexivity|].
        unfold decoder_view_create. rewrite Hnone, Hidx. reflexivity.
      + unfold decoder_view_create. rewrite Hnone, Hidx. reflexivity.
    - unfold decoder_view_create. rewrite Hnone, Hidx. reflexivity. }
  cbv zeta.
  destruct (decoder_output_view mem) as [v0|] eqn:Hv0.
  - destruct (IsEqualGUID (GetDesc_DecodeProfile vd v0) profile);
      [reflexivity|].
    cbv beta iota. apply (Htail (COM_Release dev v0)); reflexivity.
  - cbv beta iota. apply (Htail dev mem Hv0 eq_refl).
Qed.

Lemma GetDesc_of_new_view hrs n h profile rest calls' :
  GetDesc_DecodeProfile
    {| video_hresults := hrs; video_next_handle := n;
       decode_profiles := (h, profile) :: rest; video_calls := calls' |} h
  = profile.
Proof.
  unfold GetDesc_DecodeProfile. cbn [decode_profiles find fst snd].
  now rewrite Z.eqb_refl.
Qed.

(** What a successful [decoder_view_create] leaves. *)
Lemma decoder_view_create_true p dev vd mem profile p' dev' vd' mem' :
  decoder_view_create p dev vd mem profile = Some (true, (p', dev', vd', mem')) ->
  decoder_output_view mem' = Some (video_next_handle vd)
  /\ GetDesc_DecodeProfile vd' (video_next_handle vd) = profile
  /\ gst_d3d11_result (video_next_hresult vd) = true.
Proof.
  unfold decoder_view_create,
    ID3D11VideoDevice_CreateVideoDecoderOutputView.
  cbv zeta.
  destruct (gst_d3d11_result (video_next_hresult vd)) eqn:Hhr;
    cbv beta iota; rewrite ?Hhr; cbn [negb]; [|discriminate].
  destruct (decoder_output_view_array p) as [arr|].
  - destruct (arr !! Z.to_nat (subresource_index mem)); [|discriminate].
    intros [= <- <- <- <-].
    split; [reflexivity|]. split; [apply GetDesc_of_new_view|reflexivity].
  - intros [= <- <- <- <-].
    split; [reflexivity|]. split; [apply GetDesc_of_new_view|reflexivity].
Qed.

Lemma decoder_view_lookup_true p dev vd mem profile p' dev' vd' mem' :
  decoder_view_lookup p dev vd mem profile = Some (true, (p', dev', vd', mem')) ->
  exists v,
    decoder_output_view mem' = Some v
    /\ GetDesc_DecodeProfile vd' v = profile.
Proof.
  unfold decoder_view_lookup.
  assert (Hc : forall q d,
            decoder_view_create q d vd mem profile
            = Some (true, (p', dev', vd', mem')) ->
            exists v, decoder_output_view mem' = Some v
                      /\ GetDesc_DecodeProfile vd' v = profile).
  { intros q d H. apply decoder_view_create_true in H.
    destruct H as (H1 & H2 & _). eauto. }
  destruct (decoder_output_view_array p) as [arr|]; [|apply Hc].
  destruct (arr !! Z.to_nat (subresource_index mem)) as [[view|]|];
    [|apply Hc|discriminate].
  destruct (IsEqualGUID (GetDesc_DecodeProfile vd view) profile) eqn:Heq;
    [|apply Hc].
  intros [= <- <- <- <-]. exists view. split; [reflexivity|].
  now apply Z.eqb_eq.
Qed.

(** X20 (gst_d3d11_memory_ensure_decoder_output_view,
    gst_d3d11_memory_get_decoder_output_view): whenever the ensure
    function returns [TRUE], the object holds a view whose decode profile,
    as its [GetDesc] reports it, is the requested one, and the get
    function hands out that view. *)
Theorem decoder_output_view_has_requested_profile p dev vd mem profile
    p' dev' vd' mem' :
  gst_d3d11_memory_ensure_decoder_output_view p dev vd mem profile
  = Some (true, (p', dev', vd', mem')) ->
  exists v,
    decoder_output_view mem' = Some v
    /\ GetDesc_DecodeProfile vd' v = profile
    /\ gst_d3d11_memory_get_decoder_output_view p dev vd mem profile
       = Some (Some v, (p', dev', vd', mem')).
Proof.
  intros E.
  assert (H : exists v, decoder_output_view mem' = Some v
                        /\ GetDesc_DecodeProfile vd' v = profile).
  { revert E. rewrite decoder_view_closed_form.
    destruct (Z.land (BindFlags (desc mem)) D3D11_BIND_DECODER =? 0);
      [discriminate|].
    destruct (decoder_output_view mem) as [v0|] eqn:Hv0;
      [|apply decoder_view_lookup_true].
    destruct (IsEqualGUID (GetDesc_DecodeProfile vd v0) profile) eqn:Heq;
      [|apply decoder_view_lookup_true].
    intros [= <- <- <- <-]. exists v0. split; [exact Hv0|].
    now apply Z.eqb_eq. }
  destruct H as (v & Hv & Hp). exists v. split; [exact Hv|].
  split; [exact Hp|].
  unfold gst_d3d11_memory_get_decoder_output_view. rewrite E.
  cbn [negb]. now rewrite Hv.
Qed.

Lemma decoder_output_view_has_requested_profile_witness :
  exists p' dev' vd' mem' v,
    gst_d3d11_memory_ensure_decoder_output_view busy_allocator working_device
      working_video_device (slice_memory 1) 42
    = Some (true, (p', dev', vd', mem'))
    /\ decoder_output_view mem' = Some v
    /\ GetDesc_DecodeProfile vd' v = 42.
Proof.
  destruct (gst_d3d11_memory_ensure_decoder_output_view busy_allocator
              working_device working_video_device (slice_memory 1) 42)
    as [[[] [[[p' dev'] vd'] mem']]|] eqn:E; try discriminate E.
  destruct (decoder_output_view_has_requested_profile _ _ _ _ _ _ _ _ _ E)
    as (v & Hv & Hp & _).
  exists p', dev', vd', mem', v. split; [reflexivity|]. split; assumption.
Defined.

Lemma decoder_view_create_closed_form p dev vd mem profile arr old :
  gst_d3d11_result (video_next_hresult vd) = true ->
  decoder_output_view_array p = Some arr ->
  arr !! Z.to_nat (subresource_index mem) = Some old ->
  decoder_view_create p dev vd mem profile
  = Some (true,
          (set_decoder_output_view_array p
             (Some (<[Z.to_nat (subresource_index mem)
                      :=Some (video_next_handle vd)]> arr)),
           COM_AddRef (release_if dev old) (video_next_handle vd),
           {| video_hresults := tl (video_hresults vd);
              video_next_handle := video_next_handle vd + 1;
              decode_profiles :=
                (video_next_handle vd, profile) :: decode_profiles vd;
              video_calls :=
                video_calls vd
                ++ [CreateVideoDecoderOutputView (texture mem) profile
                      (subresource_index mem) (video_next_hresult vd)] |},
           set_decoder_output_view mem (Some (video_next_handle vd)))).
Proof.
  intros Hok Harr Hold.
  unfold decoder_view_create,
    ID3D11VideoDevice_CreateVideoDecoderOutputView.
  cbv zeta. rewrite Hok. cbv beta iota. rewrite Hok. cbn [negb].
  now rewrite Harr, Hold.
Qed.

(** X21 (gst_d3d11_memory_ensure_decoder_output_view): the allocator's
    view array shares one decoder output view among the objects of a
    slot.  When an object of an empty slot gets its view, the view is
    created and put into the array with a reference of its own; a second
    object of the same slot then gets the same view with one more
    reference and without any call on the video device. *)
Theorem decoder_output_view_shared_by_slot p dev vd memA memB profile arr :
  Z.land (BindFlags (desc memA)) D3D11_BIND_DECODER <> 0 ->
  Z.land (BindFlags (desc memB)) D3D11_BIND_DECODER <> 0 ->
  decoder_output_view memA = None ->
  decoder_output_view memB = None ->
  subresource_index memB = subresource_index memA ->
  decoder_output_view_array p = Some arr ->
  arr !! Z.to_nat (subresource_index memA) = Some None ->
  gst_d3d11_result (video_next_hresult vd) = true ->
  exists pA devA vdA,
    gst_d3d11_memory_ensure_decoder_output_view p dev vd memA profile
    = Some (true, (pA, devA, vdA,
                   set_decoder_output_view memA (Some (video_next_handle vd))))
    /\ gst_d3d11_memory_ensure_decoder_output_view pA devA vdA memB profile
       = Some (true, (pA, COM_AddRef devA (video_next_handle vd), vdA,
                      set_decoder_output_view memB
                        (Some (video_next_handle vd))))
    /\ calls devA = calls dev ++ [AddRef (video_next_handle vd)]
    /\ video_calls vdA
       = video_calls vd
         ++ [CreateVideoDecoderOutputView (texture memA) profile
               (subresource_index memA) (video_next_hresult vd)].
Proof.
  intros HbA HbB HvA HvB Hidx Harr Hslot Hok.
  apply Z.eqb_neq in HbA, HbB.
  pose proof (lookup_lt_Some _ _ _ Hslot) as Hlt.
  do 3 eexists. split; [|split].
  - rewrite decoder_view_closed_form, HbA, HvA.
    unfold decoder_view_lookup. rewrite Harr, Hslot.
    rewrite (decoder_view_create_closed_form p dev vd memA profile arr None
               Hok Harr Hslot).
    reflexivity.
  - rewrite decoder_view_closed_form, HbB, HvB.
    unfold decoder_view_lookup.
    cbn [decoder_output_view_array set_decoder_output_view_array].
    rewrite Hidx, list_lookup_insert_eq by exact Hlt.
    rewrite GetDesc_of_new_view. unfold IsEqualGUID. rewrite Z.eqb_refl.
    reflexivity.
  - split; reflexivity.
Qed.

Lemma decoder_output_view_shared_by_slot_witness :
  exists pA devA vdA,
    gst_d3d11_memory_ensure_decoder_output_view busy_allocator working_device
      working_video_device (slice_memory 1) 42
    = Some (true, (pA, devA, vdA,
                   set_decoder_output_view (slice_memory 1) (Some 500)))
    /\ gst_d3d11_memory_ensure_decoder_output_view pA devA vdA
         (slice_memory 1) 42
       = Some (true, (pA, COM_AddRef devA 500, vdA,
                      set_decoder_output_view (slice_memory 1) (Some 500)))
    /\ calls devA = calls working_device ++ [AddRef 500]
    /\ video_calls vdA
       = video_calls working_video_device
         ++ [CreateVideoDecoderOutputView (Some 100) 42 1 S_OK].
Proof.
  apply (decoder_output_view_shared_by_slot busy_allocator working_device
           working_video_device (slice_memory 1) (slice_memory 1) 42
           [None; None; None]); try reflexivity; discriminate.
Defined.

(** X22 (gst_d3d11_memory_ensure_decoder_output_view): a request for
    another decode profile replaces the view.  The object's reference and
    the array's reference on the old view are both released, a view with
    the new profile is created, stored in the array and referenced once
    more; references taken and given back balance. *)
Theorem decoder_output_view_replaced_on_profile_change p dev vd mem g1 g2 arr :
  Z.land (BindFlags (desc mem)) D3D11_BIND_DECODER <> 0 ->
  decoder_output_view mem = None ->
  decoder_output_view_array p = Some arr ->
  arr !! Z.to_nat (subresource_index mem) = Some None ->
  g1 <> g2 ->
  video_driver_succeeds vd ->
  exists p1 dev1 vd1 mem1 p2 dev2 vd2,
    gst_d3d11_memory_ensure_decoder_output_view p dev vd mem g1
    = Some (true, (p1, dev1, vd1, mem1))
    /\ gst_d3d11_memory_ensure_decoder_output_view p1 dev1 vd1 mem1 g2
       = Some (true, (p2, dev2, vd2,
                      set_decoder_output_view mem
                        (Some (video_next_handle vd + 1))))
    /\ decoder_output_view_array p2
       = Some (<[Z.to_nat (subresource_index mem)
                 :=Some (video_next_handle vd + 1)]> arr)
    /\ GetDesc_DecodeProfile vd2 (video_next_handle vd + 1) = g2
    /\ calls dev2
       = calls dev
         ++ [AddRef (video_next_handle vd); Release (video_next_handle vd);
             Release (video_next_handle vd);
             AddRef (video_next_handle vd + 1)].
Proof.
  intros Hb Hv Harr Hslot Hne Hdrv.
  apply Z.eqb_neq in Hb.
  pose proof (lookup_lt_Some _ _ _ Hslot) as Hlt.
  assert (Hok1 : gst_d3d11_result (video_next_hresult vd) = true).
  { unfold video_next_hresult. unfold video_driver_succeeds in Hdrv.
    destruct (video_hresults vd); [reflexivity|now inversion Hdrv]. }
  assert (Hok2 : gst_d3d11_result
                   (match tl (video_hresults vd) with
                    | [] => S_OK | hr :: _ => hr end) = true).
  { unfold video_driver_succeeds in Hdrv.
    destruct (video_hresults vd) as [|h0 [|h1 t]]; try reflexivity.
    inversion Hdrv as [|? ? _ Hd]. now inversion Hd. }
  do 7 eexists. split; [|split].
  - rewrite decoder_view_closed_form, Hb, Hv.
    unfold decoder_view_lookup. rewrite Harr, Hslot.
    rewrite (decoder_view_create_closed_form p dev vd mem g1 arr None
               Hok1 Harr Hslot).
    reflexivity.
  - rewrite decoder_view_closed_form.
    cbn [desc decoder_output_view set_decoder_output_view]. rewrite Hb.
    rewrite GetDesc_of_new_view. unfold IsEqualGUID at 1.
    destruct (Z.eqb_spec g1 g2) as [|_]; [contradiction|].
    unfold decoder_view_lookup.
    cbn [decoder_output_view_array set_decoder_output_view_array
           subresource_index set_decoder_output_view].
    rewrite list_lookup_insert_eq by exact Hlt.
    rewrite GetDesc_of_new_view. unfold IsEqualGUID at 1.
    destruct (Z.eqb_spec g1 g2) as [|_]; [contradiction|].
    erewrite decoder_view_create_closed_form;
      [ | exact Hok2 | reflexivity
        | cbn [subresource_index set_decoder_output_view];
          apply list_lookup_insert_eq; now rewrite length_insert ].
    cbn [subresource_index set_decoder_output_view texture
           video_next_handle video_hresults].
    reflexivity.
  - cbn [decoder_output_view_array set_decoder_output_view_array].
    rewrite !list_insert_insert_eq.
    split; [reflexivity|]. split; [apply GetDesc_of_new_view|].
    cbn [release_if COM_AddRef COM_Release calls log_call].
    now rewrite <- !app_assoc.
Qed.

Lemma decoder_output_view_replaced_on_profile_change_witness :
  exists p1 dev1 vd1 mem1 p2 dev2 vd2,
    gst_d3d11_memory_ensure_decoder_output_view busy_allocator working_device
      working_video_device (slice_memory 1) 42
    = Some (true, (p1, dev1, vd1, mem1))
    /\ gst_d3d11_memory_ensure_decoder_output_view p1 dev1 vd1 mem1 43
       = Some (true, (p2, dev2, vd2,
                      set_decoder_output_view (slice_memory 1) (Some 501)))
    /\ decoder_output_view_array p2 = Some [None; Some 501; None]
    /\ GetDesc_DecodeProfile vd2 501 = 43
    /\ calls dev2 = [AddRef 500; Release 500; Release 500; AddRef 501].
Proof.
  apply (decoder_output_view_replaced_on_profile_change busy_allocator
           working_device working_video_device (slice_memory 1) 42 43
           [None; None; None]); try reflexivity; try discriminate.
  constructor.
Defined.

(** X23 (gst_d3d11_memory_ensure_processor_output_view,
    gst_d3d11_memory_get_processor_output_view): the get function returns
    a processor output view exactly for an object with the render-target
    bind flag whose subresource index is 0 and that either holds the view
    already or gets it from a driver call that succeeds, whatever the
    local [ret] of the ensure function held.  When the driver call fails,
    the ensure function returns that value of [ret], which nothing has
    assigned, and the get function returns [NULL] all the same, the view
    pointer being [NULL] still.  For every other slice of a texture array
    the get function returns [NULL] without a native call. *)
Theorem processor_output_view_only_for_slice_0 ret vd mem :
  (fst (fst (gst_d3d11_memory_get_processor_output_view ret vd mem)) <> None
   <-> Z.land (BindFlags (desc mem)) D3D11_BIND_RENDER_TARGET <> 0
       /\ subresource_index mem = 0
       /\ (processor_output_view mem <> None
           \/ gst_d3d11_result (video_next_hresult vd) = true))
  /\ (Z.land (BindFlags (desc mem)) D3D11_BIND_RENDER_TARGET <> 0 ->
      subresource_index mem = 0 ->
      processor_output_view mem = None ->
      gst_d3d11_result (video_next_hresult vd) = false ->
      fst (fst (gst_d3d11_memory_ensure_processor_output_view ret vd mem))
      = ret
      /\ processor_output_view
           (snd (gst_d3d11_memory_ensure_processor_output_view ret vd mem))
         = None
      /\ fst (fst (gst_d3d11_memory_get_processor_output_view ret vd mem))
         = None)
  /\ (subresource_index mem <> 0 ->
      gst_d3d11_memory_get_processor_output_view ret vd mem
      = (None, vd, mem)).
Proof.
  unfold gst_d3d11_memory_get_processor_output_view,
    gst_d3d11_memory_ensure_processor_output_view,
    ID3D11VideoDevice_CreateProcessorView.
  cbv zeta.
  destruct (Z.eqb_spec (Z.land (BindFlags (desc mem)) D3D11_BIND_RENDER_TARGET)
              0) as [Hb|Hb].
  { split; [|split; [contradiction|reflexivity]].
    cbn. split; [congruence|tauto]. }
  destruct (Z.eqb_spec (subresource_index mem) 0) as [Hi|Hi]; cbn [negb].
  2:{ split; [|split; [contradiction|reflexivity]].
      cbn. split; [congruence|tauto]. }
  destruct (processor_output_view mem) as [v|] eqn:Hv; cbn [non_null].
  - split; [|split; [discriminate|contradiction]].
    cbn. rewrite Hv. split; [|discriminate].
    intros _. repeat split; try assumption. left. discriminate.
  - destruct (gst_d3d11_result (video_next_hresult vd)) eqn:Hhr;
      cbv beta iota; rewrite ?Hhr; cbn [negb]; cbn [fst snd].
    + split; [|split; [discriminate|contradiction]].
      cbn. split; [|discriminate].
      intros _. repeat split; try assumption. now right.
    + split; [|split; [|contradiction]].
      * destruct ret; cbn; rewrite ?Hv;
          (split; [congruence|intros (_ & _ & [H|H]); congruence]).
      * intros _ _ _ _. destruct ret; cbn; rewrite ?Hv; repeat split.
Qed.

Lemma processor_output_view_only_for_slice_0_witness :
  fst (fst (gst_d3d11_memory_ensure_processor_output_view true
              failing_video_device
              (new_memory 16384 (Some 100)
                 (default_desc 64 64 DXGI_FORMAT_NV12 D3D11_BIND_RENDER_TARGET)
                 GST_D3D11_MEMORY_TYPE_TEXTURE 0)))
  = true
  /\ fst (fst (gst_d3d11_memory_get_processor_output_view true
                 failing_video_device
                 (new_memory 16384 (Some 100)
                    (default_desc 64 64 DXGI_FORMAT_NV12
                       D3D11_BIND_RENDER_TARGET)
                    GST_D3D11_MEMORY_TYPE_TEXTURE 0)))
     = None
  /\ gst_d3d11_memory_get_processor_output_view true working_video_device
       (new_memory 16384 (Some 100)
          (default_desc 64 64 DXGI_FORMAT_NV12 D3D11_BIND_RENDER_TARGET)
          GST_D3D11_MEMORY_TYPE_ARRAY 1)
     = (None, working_video_device,
        new_memory 16384 (Some 100)
          (default_desc 64 64 DXGI_FORMAT_NV12 D3D11_BIND_RENDER_TARGET)
          GST_D3D11_MEMORY_TYPE_ARRAY 1).
Proof.
  destruct (processor_output_view_only_for_slice_0 true
              failing_video_device
              (new_memory 16384 (Some 100)
                 (default_desc 64 64 DXGI_FORMAT_NV12
                    D3D11_BIND_RENDER_TARGET)
                 GST_D3D11_MEMORY_TYPE_TEXTURE 0)) as (_ & Hfail & _).
  destruct Hfail as (Hret & _ & Hget);
    [vm_compute; discriminate | reflexivity | reflexivity | reflexivity |].
  split; [exact Hret|]. split; [exact Hget|].
  apply (proj2 (proj2 (processor_output_view_only_for_slice_0 true
                         working_video_device
                         (new_memory 16384 (Some 100)
                            (default_desc 64 64 DXGI_FORMAT_NV12
                               D3D11_BIND_RENDER_TARGET)
                            GST_D3D11_MEMORY_TYPE_ARRAY 1)))).
  discriminate.
Defined.

(** X24 (gst_d3d11_memory_ensure_processor_input_view,
    gst_d3d11_memory_get_processor_input_view): the allocator's array of
    processor input views works like the one of the decoder views: the
    first object of an empty slot creates the view and stores it with a
    reference of its own, the next object of the slot gets the stored
    view with one more reference and no call on the video device. *)
Theorem processor_input_view_shared_by_slot p dev vd memA memB arr :
  check_bind_flags_for_processor_input_view (BindFlags (desc memA)) = true ->
  check_bind_flags_for_processor_input_view (BindFlags (desc memB)) = true ->
  processor_input_view memA = None ->
  processor_input_view memB = None ->
  subresource_index memB = subresource_index memA ->
  processor_input_view_array p = Some arr ->
  arr !! Z.to_nat (subresource_index memA) = Some None ->
  gst_d3d11_result (video_next_hresult vd) = true ->
  exists pA devA vdA,
    gst_d3d11_memory_get_processor_input_view p dev vd memA
    = Some (Some (video_next_handle vd),
            (pA, devA, vdA,
             set_processor_input_view memA (Some (video_next_handle vd))))
    /\ gst_d3d11_memory_get_processor_input_view pA devA vdA memB
       = Some (Some (video_next_handle vd),
               (pA, COM_AddRef devA (video_next_handle vd), vdA,
                set_processor_input_view memB (Some (video_next_handle vd))))
    /\ calls devA = calls dev ++ [AddRef (video_next_handle vd)]
    /\ video_calls vdA
       = video_calls vd
         ++ [CreateVideoProcessorInputView (texture memA)
               (subresource_index memA) (video_next_hresult vd)].
Proof.
  intros HbA HbB HvA HvB Hidx Harr Hslot Hok.
  pose proof (lookup_lt_Some _ _ _ Hslot) as Hlt.
  do 3 eexists. split; [|split].
  - unfold gst_d3d11_memory_get_processor_input_view,
      gst_d3d11_memory_ensure_processor_input_view,
      ID3D11VideoDevice_CreateProcessorView.
    cbv zeta. rewrite HbA, HvA, Harr, Hslot. cbn [negb non_null].
    rewrite ?HvA. cbn [non_null]. rewrite Hok. cbv beta iota.
    rewrite Hok. cbn [negb]. reflexivity.
  - unfold gst_d3d11_memory_get_processor_input_view,
      gst_d3d11_memory_ensure_processor_input_view.
    cbv zeta. rewrite HbB, HvB. cbn [negb non_null].
    cbn [processor_input_view_array set_processor_input_view_array].
    rewrite Hidx, list_lookup_insert_eq by exact Hlt.
    cbn [processor_input_view set_processor_input_view non_null negb].
    reflexivity.
  - split; reflexivity.
Qed.

Lemma processor_input_view_shared_by_slot_witness :
  exists pA devA vdA,
    gst_d3d11_memory_get_processor_input_view busy_allocator working_device
      working_video_device (slice_memory 2)
    = Some (Some 500,
            (pA, devA, vdA,
             set_processor_input_view (slice_memory 2) (Some 500)))
    /\ gst_d3d11_memory_get_processor_input_view pA devA vdA (slice_memory 2)
       = Some (Some 500,
               (pA, COM_AddRef devA 500, vdA,
                set_processor_input_view (slice_memory 2) (Some 500)))
    /\ calls devA = calls working_device ++ [AddRef 500]
    /\ video_calls vdA
       = video_calls working_video_device
         ++ [CreateVideoProcessorInputView (Some 100) 2 S_OK].
Proof.
  apply (processor_input_view_shared_by_slot busy_allocator working_device
           working_video_device (slice_memory 2) (slice_memory 2)
           [None; None; None]); reflexivity.
Defined.

(* ===================================================================== *)
(** ** Further properties of the allocation params and of the pool *)
(* ===================================================================== *)

Lemma set_dims_set_dims d w1 h1 w2 h2 :
  set_dims (set_dims d w1 h1) w2 h2 = set_dims d w2 h2.
Proof. reflexivity. Qed.

Lemma alignment_result
    (sf : GstVideoFormatInfo -> Z -> Z -> option GstVideoInfo) params a :
  (exists ia,
      gst_d3d11_allocation_params_alignment sf params a
      = (true,
         {| info := info params; aligned_info := ia;
            params_desc :=
              imap
                (fun i d =>
                   if (i <? Z.to_nat (n_planes (finfo (info params))))%nat
                   then set_dims d
                          (wrap_guint (GST_VIDEO_INFO_COMP_WIDTH ia i))
                          (wrap_guint (GST_VIDEO_INFO_COMP_HEIGHT ia i))
                   else d)
                (params_desc params);
            d3d11_format := d3d11_format params;
            params_flags := params_flags params |}))
  \/ gst_d3d11_allocation_params_alignment sf params a = (false, params).
Proof.
  unfold gst_d3d11_allocation_params_alignment. cbv zeta.
  destruct (sf _ _ _) as [ia|]; [left; now exists ia|now right].
Qed.

(** X25 (gst_d3d11_allocation_params_alignment): the padding of an
    alignment is always added to the size in [info], which the function
    never changes: a second call does not add to the first one but
    replaces it, and a call changes nothing of a descriptor but its width
    and height. *)
Theorem alignment_is_not_cumulative
    (sf : GstVideoFormatInfo -> Z -> Z -> option GstVideoInfo) params a b :
  info (snd (gst_d3d11_allocation_params_alignment sf params a)) = info params
  /\ List.map (fun d => (Format d, ArraySize d, BindFlags d, MipLevels d))
       (params_desc (snd (gst_d3d11_allocation_params_alignment sf params a)))
     = List.map (fun d => (Format d, ArraySize d, BindFlags d, MipLevels d))
         (params_desc params)
  /\ fst (gst_d3d11_allocation_params_alignment sf
            (snd (gst_d3d11_allocation_params_alignment sf params a)) b)
     = fst (gst_d3d11_allocation_params_alignment sf params b)
  /\ (fst (gst_d3d11_allocation_params_alignment sf params b) = true ->
      snd (gst_d3d11_allocation_params_alignment sf
             (snd (gst_d3d11_allocation_params_alignment sf params a)) b)
      = snd (gst_d3d11_allocation_params_alignment sf params b)).
Proof.
  destruct (alignment_result sf params a) as [[ia ->]| ->]; cbn [snd].
  2:{ repeat split; reflexivity. }
  split; [reflexivity|]. split.
  { cbn [params_desc]. apply list_eq. intros i.
    rewrite !list_lookup_fmap, list_lookup_imap.
    destruct (params_desc params !! i) as [d|]; [|reflexivity].
    cbn [fmap option_fmap option_map].
    now destruct (i <? Z.to_nat (n_planes (finfo (info params))))%nat. }
  unfold gst_d3d11_allocation_params_alignment. cbv zeta. cbn [info].
  destruct (sf (finfo (info params))
              (wrap_guint (width (info params)
                           + wrap_guint (padding_left b + padding_right b)))
              (wrap_guint (height (info params)
                           + wrap_guint (padding_top b + padding_bottom b))))
    as [ib|]; cbn [fst snd].
  2:{ split; [reflexivity|discriminate]. }
  split; [reflexivity|]. intros _. f_equal.
  cbn [params_desc]. apply list_eq. intros i.
  rewrite !list_lookup_imap.
  destruct (params_desc params !! i) as [d|]; [|reflexivity].
  cbn [fmap option_fmap option_map].
  now destruct (i <? Z.to_nat (n_planes (finfo (info params))))%nat.
Qed.

Lemma alignment_is_not_cumulative_witness :
  let a := {| padding_top := 0; padding_bottom := 8; padding_left := 0;
              padding_right := 16 |} in
  let b := {| padding_top := 0; padding_bottom := 2; padding_left := 0;
              padding_right := 4 |} in
  fst (gst_d3d11_allocation_params_alignment
         video_info_set_format_upto_maxint nv12_array_params b) = true
  /\ plane0_size
       (snd (gst_d3d11_allocation_params_alignment
               video_info_set_format_upto_maxint
               (snd (gst_d3d11_allocation_params_alignment
                       video_info_set_format_upto_maxint nv12_array_params a))
               b)) = (68, 66).
Proof.
  cbv zeta. split; [reflexivity|].
  destruct (alignment_is_not_cumulative video_info_set_format_upto_maxint
              nv12_array_params
              {| padding_top := 0; padding_bottom := 8; padding_left := 0;
                 padding_right := 16 |}
              {| padding_top := 0; padding_bottom := 2; padding_left := 0;
                 padding_right := 4 |}) as (_ & _ & _ & H).
  rewrite (H eq_refl). reflexivity.
Defined.

(** X26 (gst_d3d11_buffer_pool_set_config,
    gst_d3d11_allocation_params_new,
    gst_d3d11_allocation_params_alignment): for a video info of at least
    one plane and of a width and a height from 0 to [G_MAXINT - 2], and a
    texture format that is not [DXGI_FORMAT_UNKNOWN], a pool with no params
    in its config makes them from the video info, and the first descriptor
    has the size of the info.  That size stays when the texture format is
    not semi-planar or both numbers are even.  When the format is
    semi-planar and one of them is odd, the pool asks
    [gst_video_info_set_format] for the size with each number rounded up to
    the next even one: the first plane then gets the size of component 0 of
    the info that this call fills, which is the rounded, even size when the
    call fills in what it was asked for and component 0 is not
    sub-sampled; when the call refuses, its result is not looked at and the
    odd size stays. *)
Theorem default_params_have_even_first_plane
    (sf : GstVideoFormatInfo -> Z -> Z -> option GstVideoInfo) f vinfo :
  dxgi_format f <> DXGI_FORMAT_UNKNOWN ->
  0 <= width vinfo < 2 ^ 31 - 1 ->
  0 <= height vinfo < 2 ^ 31 - 1 ->
  1 <= n_planes (finfo vinfo) ->
  exists p,
    set_config_d3d11_params sf None (Some f) vinfo = Some p
    /\ gst_d3d11_allocation_params_new (Some f) vinfo 0 0
       = Some (Some
                 {| info := vinfo; aligned_info := vinfo;
                    params_desc :=
                      default_desc (width vinfo) (height vinfo)
                        (dxgi_format f) 0
                      :: replicate (GST_VIDEO_MAX_PLANES - 1) zero_desc;
                    d3d11_format := f; params_flags := 0 |})
    /\ (is_semi_planar (dxgi_format f) = false
        \/ (width vinfo mod 2 = 0 /\ height vinfo mod 2 = 0) ->
        plane0_size p = (width vinfo, height vinfo))
    /\ (is_semi_planar (dxgi_format f) = true ->
        width vinfo mod 2 <> 0 \/ height vinfo mod 2 <> 0 ->
        (forall new_info,
            sf (finfo vinfo) (2 * ((width vinfo + 1) / 2))
              (2 * ((height vinfo + 1) / 2)) = Some new_info ->
            plane0_size p
            = (wrap_guint (GST_VIDEO_INFO_COMP_WIDTH new_info 0),
               wrap_guint (GST_VIDEO_INFO_COMP_HEIGHT new_info 0)))
        /\ (sf (finfo vinfo) (2 * ((width vinfo + 1) / 2))
              (2 * ((height vinfo + 1) / 2))
            = Some {| finfo := finfo vinfo;
                      width := 2 * ((width vinfo + 1) / 2);
                      height := 2 * ((height vinfo + 1) / 2) |} ->
            nth 0 (w_sub (finfo vinfo)) 0 = 0 ->
            nth 0 (h_sub (finfo vinfo)) 0 = 0 ->
            plane0_size p
            = (2 * ((width vinfo + 1) / 2), 2 * ((height vinfo + 1) / 2))
            /\ fst (plane0_size p) mod 2 = 0
            /\ snd (plane0_size p) mod 2 = 0
            /\ width vinfo <= fst (plane0_size p) <= width vinfo + 1
            /\ height vinfo <= snd (plane0_size p) <= height vinfo + 1)
        /\ (sf (finfo vinfo) (2 * ((width vinfo + 1) / 2))
              (2 * ((height vinfo + 1) / 2)) = None ->
            plane0_size p = (width vinfo, height vinfo))).
Proof.
  intros Hfmt Hw Hh Hpl.
  assert (Hwrap : forall z, 0 <= z < 2 ^ 31 - 1 -> wrap_guint z = z).
  { intros z Hz. unfold wrap_guint. apply Z.mod_small. lia. }
  unfold set_config_d3d11_params, gst_d3d11_allocation_params_new.
  unfold DXGI_FORMAT_eqb. rewrite bool_decide_eq_false_2 by exact Hfmt.
  rewrite !Hwrap by assumption.
  eexists. split; [reflexivity|]. split; [reflexivity|].
  rewrite (fix_resolution_on_unpadded_params sf _
             (default_desc (width vinfo) (height vinfo) (dxgi_format f) 0)
             (replicate (GST_VIDEO_MAX_PLANES - 1) zero_desc));
    cbn [params_desc info Width Height Format default_desc];
    try assumption; try reflexivity.
  pose proof (Z.div_mod (width vinfo + 1) 2 ltac:(lia)) as Hdw.
  pose proof (Z.mod_pos_bound (width vinfo + 1) 2 ltac:(lia)) as Hmw.
  pose proof (Z.div_mod (height vinfo + 1) 2 ltac:(lia)) as Hdh.
  pose proof (Z.mod_pos_bound (height vinfo + 1) 2 ltac:(lia)) as Hmh.
  split.
  - intros [Hsemi|[Ew Eh]].
    + rewrite Hsemi. reflexivity.
    + rewrite Ew, Eh. cbn [Z.eqb negb orb]. rewrite andb_false_r.
      reflexivity.
  - intros Hsemi Hodd. rewrite Hsemi. cbn [andb].
    assert (Ho : negb (width vinfo mod 2 =? 0)
                 || negb (height vinfo mod 2 =? 0) = true).
    { apply orb_true_iff.
      destruct Hodd as [Ho|Ho]; [left|right];
        apply negb_true_iff, Z.eqb_neq; exact Ho. }
    rewrite Ho.
    split; [|split].
    + intros new_info E. rewrite E. reflexivity.
    + intros E Hws Hhs. rewrite E.
      unfold GST_VIDEO_INFO_COMP_WIDTH, GST_VIDEO_INFO_COMP_HEIGHT.
      cbn [finfo width height]. rewrite Hws, Hhs.
      rewrite !GST_VIDEO_SUB_SCALE_0 by lia.
      unfold wrap_guint. rewrite !Z.mod_small by lia.
      cbn [fst snd].
      rewrite !(Z.mul_comm 2), !Z.mod_mul by lia.
      repeat split; lia.
    + intros E. rewrite E. reflexivity.
Qed.

Lemma default_params_have_even_first_plane_witness :
  (exists p,
      set_config_d3d11_params video_info_set_format_upto_maxint None
        (Some nv12_d3d11_format) (nv12_info 101 99) = Some p
      /\ plane0_size p = (102, 100))
  /\ (exists p,
        set_config_d3d11_params (fun _ _ _ => None) None
          (Some nv12_d3d11_format) (nv12_info 101 99) = Some p
        /\ plane0_size p = (101, 99)).
Proof.
  split.
  - destruct (default_params_have_even_first_plane
                video_info_set_format_upto_maxint nv12_d3d11_format
                (nv12_info 101 99))
      as (p & E & _ & _ & Hodd);
      [discriminate | cbn; lia | cbn; lia | cbn; lia |].
    destruct (Hodd eq_refl) as (_ & Hsz & _); [left; discriminate|].
    destruct Hsz as (Hsz & _); [reflexivity | reflexivity | reflexivity |].
    exists p. split; [exact E|exact Hsz].
  - destruct (default_params_have_even_first_plane
                (fun _ _ _ => None) nv12_d3d11_format (nv12_info 101 99))
      as (p & E & _ & _ & Hodd);
      [discriminate | cbn; lia | cbn; lia | cbn; lia |].
    destruct (Hodd eq_refl) as (_ & _ & Hsz); [left; discriminate|].
    exists p. split; [exact E|]. apply Hsz. reflexivity.
Defined.

(** *** The size of an array pool *)

Lemma max_array_size_from_ge desc : forall n i m,
  m <= max_array_size_from desc i n m.
Proof.
  induction n as [|n IH]; intros i m; cbn [max_array_size_from]; [lia|].
  destruct (DXGI_FORMAT_eqb _ _); [lia|].
  destruct (Z.ltb_spec m (ArraySize (nth i desc zero_desc)));
    (etransitivity; [|apply IH]); lia.
Qed.

Lemma max_array_size_from_covers desc : forall n i m j,
  (i <= j < i + n)%nat ->
  (forall l, (i <= l <= j)%nat ->
             Format (nth l desc zero_desc) <> DXGI_FORMAT_UNKNOWN) ->
  ArraySize (nth j desc zero_desc) <= max_array_size_from desc i n m.
Proof.
  induction n as [|n IH]; intros i m j Hj Hknown; [lia|].
  cbn [max_array_size_from].
  unfold DXGI_FORMAT_eqb.
  rewrite bool_decide_eq_false_2 by (apply Hknown; lia).
  destruct (decide (j = i)) as [->|Hne].
  - destruct (Z.ltb_spec m (ArraySize (nth i desc zero_desc)));
      (etransitivity; [|apply max_array_size_from_ge]); lia.
  - apply IH; [lia|]. intros l Hl. apply Hknown. lia.
Qed.

(** X27 (gst_d3d11_buffer_pool_set_config): for params with the
    texture-array flag the [max_buffers] put back into the config is
    never above the largest [ArraySize] found by the scan of the
    descriptors, which covers every plane before the first one of format
    UNKNOWN; a request within that bound is kept, and "unlimited" (0) or
    a larger request become the bound itself. *)
Theorem array_pool_size_is_clamped params max_buffers :
  Z.land (params_flags params) GST_D3D11_ALLOCATION_FLAG_TEXTURE_ARRAY <> 0 ->
  0 <= max_buffers ->
  let bound :=
    max_array_size_from (params_desc params) 0 GST_VIDEO_MAX_PLANES 0 in
  set_config_max_buffers params max_buffers <= bound
  /\ set_config_max_buffers params max_buffers
     = (if (0 <? max_buffers) && (max_buffers <=? bound)
        then max_buffers else bound)
  /\ (bound <> 0 -> set_config_max_buffers params max_buffers <> 0)
  /\ (forall j,
         (j < GST_VIDEO_MAX_PLANES)%nat ->
         (forall l, (l <= j)%nat ->
                    Format (nth l (params_desc params) zero_desc)
                    <> DXGI_FORMAT_UNKNOWN) ->
         ArraySize (nth j (params_desc params) zero_desc) <= bound).
Proof.
  intros Hflag Hmax bound.
  unfold set_config_max_buffers. fold bound.
  destruct (Z.eqb_spec
              (Z.land (params_flags params)
                 GST_D3D11_ALLOCATION_FLAG_TEXTURE_ARRAY) 0) as [|_];
    [contradiction|]. cbn [negb].
  pose proof (max_array_size_from_ge (params_desc params)
                GST_VIDEO_MAX_PLANES 0 0) as Hge. fold bound in Hge.
  destruct (Z.eqb_spec max_buffers 0) as [->|Hnz]; cbn [orb].
  - repeat split; try lia; try reflexivity.
    intros j Hj Hknown. apply max_array_size_from_covers; [lia|].
    intros l Hl. apply Hknown. lia.
  - destruct (Z.ltb_spec bound max_buffers);
      destruct (Z.ltb_spec 0 max_buffers); try lia;
      destruct (Z.leb_spec max_buffers bound); try lia; cbn [andb];
      (repeat split; try lia;
       intros j Hj Hknown; apply max_array_size_from_covers; [lia|];
       intros l Hl; apply Hknown; lia).
Qed.

Lemma array_pool_size_is_clamped_witness :
  set_config_max_buffers nv12_array_params 0 = 3
  /\ set_config_max_buffers nv12_array_params 16 <= 3.
Proof.
  split; [reflexivity|].
  destruct (array_pool_size_is_clamped nv12_array_params 16
              ltac:(discriminate) ltac:(lia)) as [H _].
  exact H.
Defined.

(** *** Buffers of the pool *)

Lemma set_allocator_same pool a :
  allocator pool = Some a -> set_allocator pool (Some a) = pool.
Proof. intros H. destruct pool. cbn in *. now subst. Qed.

(** X28 (gst_d3d11_buffer_pool_flush_start,
    gst_d3d11_buffer_pool_flush_stop, gst_d3d11_buffer_pool_alloc): after
    flush_start an array pool hands out no buffer: alloc returns
    GST_FLOW_ERROR without a native call and without touching the
    allocator; flush_stop afterwards takes the flushing flag back and
    leaves the bitmap and the counter as they were. *)
Theorem flushing_pool_fails_array_alloc pool a params dev tid d0 sz :
  allocator pool = Some a ->
  d3d11_params pool = Some params ->
  Z.land (params_flags params) GST_D3D11_ALLOCATION_FLAG_TEXTURE_ARRAY <> 0 ->
  params_desc params !! 0%nat = Some d0 ->
  pool_size pool !! 0%nat = Some sz ->
  (dxgi_format (d3d11_format params) = DXGI_FORMAT_UNKNOWN ->
   1 <= n_planes (finfo (info params))) ->
  gst_d3d11_buffer_pool_alloc (gst_d3d11_buffer_pool_flush_start pool) dev tid
  = (GST_FLOW_ERROR, gst_d3d11_buffer_pool_flush_start pool, dev)
  /\ exists a',
       allocator (gst_d3d11_buffer_pool_flush_stop
                    (gst_d3d11_buffer_pool_flush_start pool)) = Some a'
       /\ flushing a' = false
       /\ array_in_use a' = array_in_use a
       /\ num_array_textures_in_use a' = num_array_textures_in_use a
       /\ waiters (cond a') = [].
Proof.
  intros Ha Hp Hflag Hd0 Hsz Hplanes.
  unfold gst_d3d11_buffer_pool_flush_start, gst_d3d11_buffer_pool_flush_stop.
  rewrite Ha. cbn [allocator set_allocator]. split.
  2:{ eexists. split; [reflexivity|]. repeat split. }
  unfold gst_d3d11_buffer_pool_alloc.
  cbn [d3d11_params allocator set_allocator pool_size add_videometa].
  rewrite Hp.
  set (planes := if DXGI_FORMAT_eqb _ _ then _ else _).
  assert (Hpl : exists n, planes = S n).
  { subst planes. unfold DXGI_FORMAT_eqb.
    destruct (decide (dxgi_format (d3d11_format params) = DXGI_FORMAT_UNKNOWN))
      as [E|E].
    - rewrite bool_decide_eq_true_2 by exact E. specialize (Hplanes E).
      exists (Nat.pred (Z.to_nat (n_planes (finfo (info params))))). lia.
    - rewrite bool_decide_eq_false_2 by exact E. now exists 0%nat. }
  destruct Hpl as [n ->]. cbn [pool_alloc_planes]. rewrite Hd0, Hsz.
  assert (E : gst_d3d11_allocator_alloc (gst_d3d11_allocator_set_flushing a true)
                dev tid d0 (params_flags params) sz
              = (AllocNULL, gst_d3d11_allocator_set_flushing a true, dev)).
  { destruct (Z.ltb_spec 0 sz) as [Hpos|Hneg].
    - now apply alloc_under_flushing.
    - unfold gst_d3d11_allocator_alloc.
      destruct (Z.ltb_spec 0 sz); [lia|]. reflexivity. }
  rewrite E. cbn [gst_buffer_unref gst_buffer_new memories free_memories].
  reflexivity.
Qed.

Lemma flushing_pool_fails_array_alloc_witness :
  gst_d3d11_buffer_pool_alloc
    (gst_d3d11_buffer_pool_flush_start
       (sample_pool busy_allocator nv12_array_params)) working_device 0%nat
  = (GST_FLOW_ERROR,
     gst_d3d11_buffer_pool_flush_start
       (sample_pool busy_allocator nv12_array_params), working_device)
  /\ gst_d3d11_buffer_pool_alloc
       (sample_pool busy_allocator nv12_array_params) working_device 0%nat
     <> (GST_FLOW_ERROR, sample_pool busy_allocator nv12_array_params,
         working_device).
Proof.
  split; [|discriminate].
  apply (flushing_pool_fails_array_alloc
           (sample_pool busy_allocator nv12_array_params) busy_allocator
           nv12_array_params working_device 0%nat (array_desc 3) 4096);
    try reflexivity; [discriminate | intros H; discriminate H].
Defined.

(** [gst_d3d11_allocator_alloc] without the texture-array flag. *)
Lemma plain_alloc_closed_form p dev tid d flags size :
  Z.land flags GST_D3D11_ALLOCATION_FLAG_TEXTURE_ARRAY = 0 ->
  0 < size ->
  gst_d3d11_allocator_alloc p dev tid d flags size
  = if gst_d3d11_result (next_hresult dev)
    then (AllocMem (new_memory size (Some (next_handle dev)) d
                      GST_D3D11_MEMORY_TYPE_TEXTURE 0), p,
          {| hresults := tl (hresults dev);
             next_handle := next_handle dev + 1; mapping := mapping dev;
             calls := calls dev ++ [CreateTexture2D d (next_hresult dev)] |})
    else (AllocNULL, p,
          log_call (consume_hresult dev)
            (CreateTexture2D d (next_hresult dev))).
Proof.
  intros Hflag Hsize. unfold gst_d3d11_allocator_alloc.
  destruct (Z.ltb_spec 0 size) as [_|]; [|lia]. cbn [negb].
  rewrite Hflag. cbn [Z.eqb negb].
  unfold ID3D11Device_CreateTexture2D. cbv zeta.
  destruct (gst_d3d11_result (next_hresult dev)) eqn:E;
    cbv beta iota; rewrite ?E; cbn [negb release_if]; reflexivity.
Qed.

Lemma free_memories_without_bitmap a :
  array_in_use a = None ->
  forall ms dev,
    exists dev',
      free_memories a dev ms = Some (a, dev')
      /\ calls dev'
         = calls dev ++ List.map Release (flat_map memory_handles ms)
      /\ hresults dev' = hresults dev.
Proof.
  intros Hnone. induction ms as [|m ms IH]; intros dev.
  - exists dev. cbn. now rewrite app_nil_r.
  - cbn [free_memories flat_map].
    destruct (free_without_bitmap a dev m Hnone) as (dev1 & E).
    rewrite E. destruct (free_calls _ _ _ _ _ E) as (Hc & Hh & _).
    destruct (IH dev1) as (dev' & E' & Hc' & Hh').
    exists dev'. split; [exact E'|].
    rewrite Hc', Hc, Hh', Hh, map_app, <- app_assoc. now split.
Qed.

(** The loop of the pool's alloc on stand-alone textures, when the driver
    fails after [oks] textures. *)
Lemma pool_alloc_planes_failure a tid params sizes bad tail :
  array_in_use a = None ->
  Z.land (params_flags params) GST_D3D11_ALLOCATION_FLAG_TEXTURE_ARRAY = 0 ->
  gst_d3d11_result bad = false ->
  forall n i dev buf oks,
    hresults dev = oks ++ bad :: tail ->
    Forall (fun hr => gst_d3d11_result hr = true) oks ->
    (length oks < n)%nat ->
    (i + n <= length (params_desc params))%nat ->
    (forall j, (i <= j < i + n)%nat ->
               exists sz, sizes !! j = Some sz /\ 0 < sz) ->
    exists dev',
      pool_alloc_planes a dev tid params sizes i n buf
      = (GST_FLOW_ERROR, a, dev')
      /\ calls dev'
         = calls dev
           ++ zip_with CreateTexture2D (drop i (params_desc params))
                (oks ++ [bad])
           ++ List.map Release
                (flat_map memory_handles (memories buf)
                 ++ fresh_handles (next_handle dev) (length oks))
      /\ hresults dev' = tail.
Proof.
  intros Hnone Hflag Hbad.
  induction n as [|n IH]; intros i dev buf oks Hhr Hoks Hlt Hlen Hsizes; [lia|].
  cbn [pool_alloc_planes].
  destruct (lookup_lt_is_Some_2 (params_desc params) i ltac:(lia)) as [d Hd].
  destruct (Hsizes i ltac:(lia)) as (sz & Hsz & Hpos).
  rewrite Hd, Hsz, (plain_alloc_closed_form a dev tid d _ sz Hflag Hpos).
  rewrite (drop_S _ _ _ Hd).
  destruct oks as [|o oks].
  - assert (Hnext : next_hresult dev = bad)
      by (unfold next_hresult; now rewrite Hhr).
    rewrite Hnext, Hbad.
    unfold gst_buffer_unref.
    destruct (free_memories_without_bitmap a Hnone (memories buf)
                (log_call (consume_hresult dev) (CreateTexture2D d bad)))
      as (dev' & E & Hc & Hh).
    rewrite E. exists dev'. split; [reflexivity|].
    rewrite Hc, Hh. cbn. rewrite Hhr, app_nil_r, <- app_assoc.
    rewrite zip_with_nil_r. now split.
  - inversion Hoks as [|? ? Ho Hoks']; subst.
    assert (Hnext : next_hresult dev = o)
      by (unfold next_hresult; now rewrite Hhr).
    rewrite Hnext, Ho.
    destruct (IH (S i)
                {| hresults := tl (hresults dev);
                   next_handle := next_handle dev + 1;
                   mapping := mapping dev;
                   calls := calls dev ++ [CreateTexture2D d o] |}
                (gst_buffer_append_memory buf
                   (new_memory sz (Some (next_handle dev)) d
                      GST_D3D11_MEMORY_TYPE_TEXTURE 0)) oks)
      as (dev' & E & Hc & Hh).
    { cbn. now rewrite Hhr. }
    { exact Hoks'. }
    { cbn in Hlt. lia. }
    { lia. }
    { intros j Hj. apply Hsizes. lia. }
    exists dev'. split; [exact E|]. split; [|exact Hh].
    rewrite Hc.
    cbn [calls next_handle memories gst_buffer_append_memory length].
    rewrite flat_map_app, fresh_handles_S. cbn [flat_map].
    change (memory_handles
              (new_memory sz (Some (next_handle dev)) d
                 GST_D3D11_MEMORY_TYPE_TEXTURE 0))
      with [next_handle dev].
    cbn [app zip_with]. rewrite <- !app_assoc. reflexivity.
Qed.

(** X29 (gst_d3d11_buffer_pool_alloc, gst_d3d11_allocator_alloc,
    gst_d3d11_allocator_free): a pool of stand-alone textures whose
    driver fails after [oks] planes returns GST_FLOW_ERROR and leaks
    nothing: the native calls are the creations of the planes in order,
    up to the one that failed, followed by one [Release] for each texture
    that was created; the pool itself is unchanged. *)
Theorem pool_alloc_failure_releases_planes pool a params dev tid
    oks bad tail :
  allocator pool = Some a ->
  d3d11_params pool = Some params ->
  array_in_use a = None ->
  Z.land (params_flags params) GST_D3D11_ALLOCATION_FLAG_TEXTURE_ARRAY = 0 ->
  let planes :=
    if DXGI_FORMAT_eqb (dxgi_format (d3d11_format params)) DXGI_FORMAT_UNKNOWN
    then Z.to_nat (n_planes (finfo (info params))) else 1%nat in
  (planes <= length (params_desc params))%nat ->
  (forall j, (j < planes)%nat ->
             exists sz, pool_size pool !! j = Some sz /\ 0 < sz) ->
  hresults dev = oks ++ bad :: tail ->
  Forall (fun hr => gst_d3d11_result hr = true) oks ->
  gst_d3d11_result bad = false ->
  (length oks < planes)%nat ->
  exists dev',
    gst_d3d11_buffer_pool_alloc pool dev tid = (GST_FLOW_ERROR, pool, dev')
    /\ calls dev'
       = calls dev
         ++ zip_with CreateTexture2D (params_desc params) (oks ++ [bad])
         ++ List.map Release (fresh_handles (next_handle dev) (length oks))
    /\ hresults dev' = tail.
Proof.
  intros Ha Hp Hnone Hflag planes Hlen Hsizes Hhr Hoks Hbad Hlt.
  unfold gst_d3d11_buffer_pool_alloc. rewrite Hp, Ha. fold planes.
  destruct (pool_alloc_planes_failure a tid params (pool_size pool) bad tail
              Hnone Hflag Hbad planes 0%nat dev gst_buffer_new oks
              Hhr Hoks Hlt ltac:(lia))
    as (dev' & E & Hc & Hh).
  { intros j Hj. apply Hsizes. lia. }
  rewrite E. exists dev'.
  rewrite (set_allocator_same pool a Ha). split; [reflexivity|].
  split; [exact Hc|exact Hh].
Qed.

Lemma pool_alloc_failure_releases_planes_witness :
  exists dev',
    gst_d3d11_buffer_pool_alloc (sample_pool fresh_allocator planar_params)
      (sample_device [S_OK; S_OK; E_FAIL]) 0%nat
    = (GST_FLOW_ERROR, sample_pool fresh_allocator planar_params, dev')
    /\ calls dev'
       = [CreateTexture2D (default_desc 64 64 DXGI_FORMAT_R8_UNORM 0) S_OK;
          CreateTexture2D (default_desc 32 32 DXGI_FORMAT_R8_UNORM 0) S_OK;
          CreateTexture2D (default_desc 32 32 DXGI_FORMAT_R8_UNORM 0) E_FAIL;
          Release 100; Release 101]
    /\ hresults dev' = [].
Proof.
  apply (pool_alloc_failure_releases_planes
           (sample_pool fresh_allocator planar_params) fresh_allocator
           planar_params (sample_device [S_OK; S_OK; E_FAIL]) 0%nat
           [S_OK; S_OK] E_FAIL []); try reflexivity.
  - vm_compute. lia.
  - intros j Hj. change (j < 3)%nat in Hj.
    destruct j as [|[|[|j]]]; [eexists; split; [reflexivity|lia]..|lia].
  - repeat constructor.
  - change (2 < 3)%nat. lia.
Defined.

(** [gst_d3d11_allocator_alloc_staging] on a driver that does not fail,
    for a format that has a size rule. *)
Lemma alloc_staging_success
    (get_size : DXGI_FORMAT -> Z -> Z -> Z -> option (list Z * Z))
    dev d strides sz :
  driver_succeeds dev ->
  get_size (Format d) (Width d) (Height d)
    (RowPitch (mapping dev (Some (next_handle dev)))) = Some (strides, sz) ->
  exists dev' sd hr1 hr2,
    gst_d3d11_allocator_alloc_staging get_size dev d
    = (Some (new_memory sz (Some (next_handle dev)) d
               GST_D3D11_MEMORY_TYPE_STAGING 0, nth 0 strides 0), dev')
    /\ calls dev'
       = calls dev
         ++ [CreateTexture2D sd hr1;
             Map (Some (next_handle dev)) 0 D3D11_MAP_READ hr2;
             Unmap (Some (next_handle dev)) 0]
    /\ Usage sd = D3D11_USAGE_STAGING.
Proof.
  intros Hdrv Hget.
  pose proof (driver_succeeds_next dev Hdrv) as Hok.
  unfold gst_d3d11_allocator_alloc_staging, create_staging_texture,
    calculate_mem_size, ID3D11Device_CreateTexture2D, ID3D11DeviceContext_Map,
    ID3D11DeviceContext_Unmap.
  cbv zeta. rewrite Hok. cbv beta iota. rewrite Hok. cbn [negb].
  cbv beta iota.
  match goal with
  | |- context [gst_d3d11_result (next_hresult ?d)] =>
      assert (Hok2 : gst_d3d11_result (next_hresult d) = true)
        by (apply driver_succeeds_next; cbn [log_call consume_hresult];
            apply driver_succeeds_tl; exact Hdrv);
      rewrite Hok2
  end.
  cbv beta iota. rewrite Hok2. cbn [negb]. cbv beta iota.
  cbn [mapping log_call consume_hresult]. rewrite Hget.
  do 4 eexists. split; [reflexivity|].
  split; [cbn [calls log_call consume_hresult];
          rewrite <- !app_assoc; reflexivity|reflexivity].
Qed.

(** X30 (allocate_staging_buffer, gst_d3d11_allocator_alloc_staging): for
    a format that lives in one texture with at most two planes, the
    staging buffer holds one staging memory of the size the size rule
    gives, made with exactly the native calls [CreateTexture2D], [Map],
    [Unmap]; its video meta gives plane 0 the mapped stride at offset 0
    and, when there are two planes, gives plane 1 the same stride and the
    offset stride * Height (in 32-bit unsigned arithmetic). *)
Theorem staging_buffer_layout_of_one_texture
    (get_size : DXGI_FORMAT -> Z -> Z -> Z -> option (list Z * Z))
    p dev vinfo format desc d0 strides sz :
  dxgi_format format <> DXGI_FORMAT_UNKNOWN ->
  n_planes (finfo vinfo) <= 2 ->
  desc !! 0%nat = Some d0 ->
  driver_succeeds dev ->
  get_size (Format d0) (Width d0) (Height d0)
    (RowPitch (mapping dev (Some (next_handle dev)))) = Some (strides, sz) ->
  exists buffer dev' meta sd hr1 hr2,
    allocate_staging_buffer get_size p dev vinfo format desc true
    = Some (Some buffer, p, dev')
    /\ memories buffer
       = [new_memory sz (Some (next_handle dev)) d0
            GST_D3D11_MEMORY_TYPE_STAGING 0]
    /\ video_meta buffer = Some meta
    /\ meta_stride meta
       = (if n_planes (finfo vinfo) =? 2
          then [nth 0 strides 0; nth 0 strides 0; 0; 0]
          else [nth 0 strides 0; 0; 0; 0])
    /\ meta_offset meta
       = (if n_planes (finfo vinfo) =? 2
          then [0; wrap_guint (nth 0 strides 0 * Height d0); 0; 0]
          else [0; 0; 0; 0])
    /\ calls dev'
       = calls dev
         ++ [CreateTexture2D sd hr1;
             Map (Some (next_handle dev)) 0 D3D11_MAP_READ hr2;
             Unmap (Some (next_handle dev)) 0].
Proof.
  intros Hfmt Hpl Hd0 Hdrv Hget.
  destruct (alloc_staging_success get_size dev d0 strides sz Hdrv Hget)
    as (dev' & sd & hr1 & hr2 & E & Hc & _).
  unfold allocate_staging_buffer. cbv zeta.
  unfold DXGI_FORMAT_eqb. rewrite bool_decide_eq_false_2 by exact Hfmt.
  destruct (Z.leb_spec (n_planes (finfo vinfo)) 2); [|lia]. cbn [negb].
  rewrite Hd0, E.
  assert (Hw : wrap_gsize (wrap_guint (nth 0 strides 0 * Height d0))
               = wrap_guint (nth 0 strides 0 * Height d0)).
  { unfold wrap_gsize, wrap_guint. apply Z.mod_small.
    pose proof (Z.mod_pos_bound (nth 0 strides 0 * Height d0) (2 ^ 32)
                  ltac:(lia)). lia. }
  destruct (n_planes (finfo vinfo) =? 2);
    (do 6 eexists; split; [reflexivity|]; split; [reflexivity|];
     split; [reflexivity|]; split; [reflexivity|]; split;
     [cbn; rewrite ?Hw; reflexivity|exact Hc]).
Qed.

Lemma staging_buffer_layout_of_one_texture_witness :
  exists buffer dev' meta,
    allocate_staging_buffer one_plane_get_size fresh_allocator working_device
      (nv12_info 64 64) nv12_d3d11_format (params_desc nv12_array_params) true
    = Some (Some buffer, fresh_allocator, dev')
    /\ video_meta buffer = Some meta
    /\ meta_stride meta = [256; 256; 0; 0]
    /\ meta_offset meta = [0; 16384; 0; 0].
Proof.
  destruct (staging_buffer_layout_of_one_texture one_plane_get_size
              fresh_allocator working_device (nv12_info 64 64)
              nv12_d3d11_format (params_desc nv12_array_params)
              (array_desc 3) [256; 0; 0; 0] 16384)
    as (buffer & dev' & meta & sd & hr1 & hr2 & E & _ & Hm & Hs & Ho & _);
    [discriminate | cbn; lia | reflexivity | constructor | reflexivity |].
  exists buffer, dev', meta. repeat split; assumption.
Defined.
